(** * py-lambda-auth-server: the authorization middleware chain

    A shallow embedding of [middleware.py]: the four layer classes, the
    class-level state they share (the cached [_instance] of each class and
    the [AUTH_CLASSES] lists that [_init] rewrites in place), the request
    that is threaded through one traversal of the chain, and the entry
    point [process_request] with the hooks it dispatches to.

    Python raises and mutates; here every operation is a function from a
    [world] to an [outcome] and the next [world], so that what a raise
    leaves behind is visible. *)

From stdpp Require Import base strings gmap list.
From Stdlib Require Import ZArith Lia.

Local Set Warnings "-register-all".

Local Open Scope string_scope.
Local Open Scope Z_scope.
Local Open Scope nat_scope.
Local Open Scope list_scope.

(** ** Classes of the module *)

(** The four middleware classes of the file, in the order they are written. *)
Inductive layer :=
| AuthMiddleWare
| StackedAuthMiddleWare
| ViewAuthMiddleWare
| IdentityAuthMiddleWare.

(** The authorizer classes imported from [authorizers]. *)
Inductive authorizer :=
| Authenticator
| SafeMethodOnlyAuthorizer
| APIAuthorizer.

#[global] Instance layer_eq_dec : EqDecision layer.
Proof. solve_decision. Defined.

#[global] Instance authorizer_eq_dec : EqDecision authorizer.
Proof. solve_decision. Defined.

Definition layer_name (c : layer) : string :=
  match c with
  | AuthMiddleWare => "AuthMiddleWare"
  | StackedAuthMiddleWare => "StackedAuthMiddleWare"
  | ViewAuthMiddleWare => "ViewAuthMiddleWare"
  | IdentityAuthMiddleWare => "IdentityAuthMiddleWare"
  end.

(** What a name bound in a class body is bound to, as far as attribute
    lookup and [abc] care. *)
Inductive member :=
| PlainAttr                (* a constant: a list, a class reference *)
| PlainMethod              (* def f(self, ...) *)
| AbstractMethod           (* @abc.abstractmethod def f(self, ...) *)
| ClassOnlyMethod.         (* @classonlymethod def f(cls, ...) *)

Record pyclass := {
  cls_base : option layer;              (* None: the base is [object] *)
  cls_body : list (string * member)     (* the class statement, top to bottom *)
}.

(** The class statements of the file.  [mc] is the name under which the two
    base classes bind [abc.ABCMeta]; the file spells it [_metaclass_]. *)
Definition classes_with (mc : string) (c : layer) : pyclass :=
  match c with
  | AuthMiddleWare =>
      {| cls_base := None;
         cls_body := [ (mc, PlainAttr);
                       ("ERROR_BUNDLE_KEYS", PlainAttr);
                       ("AUTH_CLASSES", PlainAttr);
                       ("process_request", ClassOnlyMethod);
                       ("authorize", PlainMethod);
                       ("process", AbstractMethod);
                       ("delegate", AbstractMethod);
                       ("_init", PlainMethod);
                       ("_get_authorizers", PlainMethod);
                       ("__getattr__", PlainMethod);
                       ("__setattr__", PlainMethod) ] |}
  | StackedAuthMiddleWare =>
      {| cls_base := Some AuthMiddleWare;
         cls_body := [ (mc, PlainAttr);
                       ("STACKED_MIDDLEWARES", PlainAttr);
                       ("delegate", PlainMethod);
                       ("_get_stacked_middlewares", PlainMethod) ] |}
  | ViewAuthMiddleWare =>
      {| cls_base := Some AuthMiddleWare;
         cls_body := [ ("AUTH_CLASSES", PlainAttr);
                       ("process", PlainMethod);
                       ("delegate", PlainMethod) ] |}
  | IdentityAuthMiddleWare =>
      {| cls_base := Some StackedAuthMiddleWare;
         cls_body := [ ("AUTH_CLASSES", PlainAttr);
                       ("STACKED_MIDDLEWARES", PlainAttr);
                       ("process", PlainMethod);
                       ("delegate", PlainMethod) ] |}
  end.

Definition source_classes : layer -> pyclass := classes_with "_metaclass_".

(** The method resolution order of a class (single inheritance: the class,
    then the chain of its bases; [object] is left out).  The chain is at
    most as long as there are classes. *)
Fixpoint mro_from (depth : nat) (c : layer) : list layer :=
  match depth with
  | 0 => []
  | S d =>
      c :: match cls_base (source_classes c) with
           | Some b => mro_from d b
           | None => []
           end
  end.

Definition mro (c : layer) : list layer := mro_from 4 c.

Fixpoint body_lookup (b : list (string * member)) (name : string)
  : option member :=
  match b with
  | [] => None
  | (n, m) :: b' => if String.eqb n name then Some m else body_lookup b' name
  end.

(** The first class of the MRO whose body binds [name], with the binding. *)
Fixpoint mro_find (tbl : layer -> pyclass) (cs : list layer) (name : string)
  : option (layer * member) :=
  match cs with
  | [] => None
  | c :: cs' =>
      match body_lookup (cls_body (tbl c)) name with
      | Some m => Some (c, m)
      | None => mro_find tbl cs' name
      end
  end.

Definition class_lookup (tbl : layer -> pyclass) (c : layer) (name : string)
  : option (layer * member) :=
  mro_find tbl (mro c) name.

(** ** [abc] and [inspect.isabstract] *)

Inductive metaclass := TypeMeta | ABCMeta.

(** The metaclass of a class: the one a [__metaclass__] binding in its body
    names, and else the metaclass of its base; [object]'s is [type].  The
    only value the file ever binds is [abc.ABCMeta]. *)
Definition metaclass_of (tbl : layer -> pyclass) (c : layer) : metaclass :=
  if existsb
       (fun k => match body_lookup (cls_body (tbl k)) "__metaclass__" with
                 | Some _ => true
                 | None => false
                 end)
       (mro c)
  then ABCMeta else TypeMeta.

(** The names [ABCMeta.__new__] records in [__abstractmethods__]: every name
    bound somewhere along the MRO whose resolution from [c] is still an
    abstract method. *)
Definition abstractmethods (tbl : layer -> pyclass) (c : layer) : list string :=
  List.filter
    (fun n => match class_lookup tbl c n with
              | Some (_, AbstractMethod) => true
              | _ => false
              end)
    (remove_dups (mro c ≫= fun k => fst <$> cls_body (tbl k))).

(** [inspect.isabstract(cls)]: the abstract flag of the type, which only
    [ABCMeta] ever sets, and only when [__abstractmethods__] is not empty. *)
Definition inspect_isabstract (tbl : layer -> pyclass) (c : layer) : bool :=
  match metaclass_of tbl c with
  | ABCMeta => match abstractmethods tbl c with [] => false | _ :: _ => true end
  | TypeMeta => false
  end.

(** ** Values, requests and exceptions *)

(** The Python values the chain handles.  A request is a dict with string
    keys; a response is any value (a dict, or [None] when nothing was
    passed or produced). *)
Inductive pyval :=
| VNone
| VInt (z : Z)
| VStr (s : string)
| VClass (c : layer)
| VList (l : list pyval)
| VTuple (l : list pyval)
| VDict (d : gmap string pyval).

Abbreviation request := (gmap string pyval).

(** An error bundle is an ordered mapping from field names to values. *)
Abbreviation ErrorBundle := (list (string * pyval)).

Inductive pyexn :=
| AbstractMiddlewareError (msg : string) (bundle : ErrorBundle)
| AuthError (msg : string) (bundle : ErrorBundle)
| ImproperErrorBundleDump
| KeyError (key : pyval)
| IndexError
| TypeError
| AttributeError (name : string)
| RecursionError.      (* RuntimeError: maximum recursion depth exceeded *)

Inductive outcome (A : Type) :=
| Returned (a : A)
| Raised (e : pyexn).
Arguments Returned {A} a.
Arguments Raised {A} e.

(** [v[i]] for a literal index [i >= 0]. *)
Definition py_index (v : pyval) (i : nat) : outcome pyval :=
  match v with
  | VList l | VTuple l =>
      match l !! i with
      | Some x => Returned x
      | None => Raised IndexError
      end
  | VStr s =>
      match String.get i s with
      | Some a => Returned (VStr (String a EmptyString))
      | None => Raised IndexError
      end
  | VDict _ => Raised (KeyError (VInt (Z.of_nat i)))
  | VNone | VInt _ | VClass _ => Raised TypeError
  end.

(** [v[k]] for a string key [k]. *)
Definition py_getitem (v : pyval) (k : string) : outcome pyval :=
  match v with
  | VDict d =>
      match d !! k with
      | Some x => Returned x
      | None => Raised (KeyError (VStr k))
      end
  | _ => Raised TypeError
  end.

(** [v[k] = x] for a string key [k]: the container after the store. *)
Definition py_setitem (v : pyval) (k : string) (x : pyval) : outcome pyval :=
  match v with
  | VDict d => Returned (VDict (<[k := x]> d))
  | _ => Raised TypeError
  end.

(** ** The process state *)

(** A middleware instance: its identity, its class, its own [__dict__]. *)
Record instance := {
  inst_id : nat;
  inst_class : layer;
  inst_dict : gmap string pyval
}.

(** An entry of an [AUTH_CLASSES] list: the class the file wrote there, or
    the instance [_init] put in its place. *)
Inductive auth_entry :=
| AuthType (a : authorizer)
| AuthInstance (a : authorizer).

(** What the embedding records of a run.  The log is an observer: nothing
    reads it back. *)
Inductive event :=
| EvEnter (c : layer)           (* the body of process_request starts on c *)
| EvNew (i : instance)          (* cls() *)
| EvInit (i : instance)         (* instance._init() *)
| EvAuthNew (a : authorizer)    (* _auth() on an authorizer class *)
| EvAuthorize (i : instance)    (* instance.authorize(request) *)
| EvCheck (a : authorizer)      (* authorizer.authorize(request) *)
| EvProcess (i : instance)      (* instance.process(request, response) *)
| EvDelegate (i : instance)     (* instance.delegate(request, response) *)
| EvRoute.                      (* route(request, response) *)

Record world := {
  w_request : request;
    (* the request object of the traversal, shared by every layer *)
  w_instance : layer -> option (option instance);
    (* the [_instance] entry of each class's own namespace:
       absent, [None], or the cached instance *)
  w_auth : layer -> list auth_entry;
    (* the [AUTH_CLASSES] list object of each class that binds one *)
  w_next : nat;
    (* identity of the next object created *)
  w_log : list event
}.

Definition set_request (r : request) (w : world) : world :=
  {| w_request := r; w_instance := w_instance w; w_auth := w_auth w;
     w_next := w_next w; w_log := w_log w |}.

Definition set_instance (c : layer) (v : option instance) (w : world) : world :=
  {| w_request := w_request w;
     w_instance := fun k => if decide (k = c) then Some v else w_instance w k;
     w_auth := w_auth w; w_next := w_next w; w_log := w_log w |}.

Definition set_auth (c : layer) (l : list auth_entry) (w : world) : world :=
  {| w_request := w_request w; w_instance := w_instance w;
     w_auth := fun k => if decide (k = c) then l else w_auth w k;
     w_next := w_next w; w_log := w_log w |}.

Definition bump_next (w : world) : world :=
  {| w_request := w_request w; w_instance := w_instance w; w_auth := w_auth w;
     w_next := S (w_next w); w_log := w_log w |}.

Definition add_log (e : event) (w : world) : world :=
  {| w_request := w_request w; w_instance := w_instance w; w_auth := w_auth w;
     w_next := w_next w; w_log := w_log w ++ [e] |}.

(** The class statements as the module leaves them when it is imported. *)
Definition initial_auth (c : layer) : list auth_entry :=
  match c with
  | AuthMiddleWare => []
  | StackedAuthMiddleWare => []      (* binds none: it sees AuthMiddleWare's *)
  | ViewAuthMiddleWare => [AuthType SafeMethodOnlyAuthorizer; AuthType APIAuthorizer]
  | IdentityAuthMiddleWare => [AuthType Authenticator]
  end.

Definition STACKED_MIDDLEWARES (c : layer) : list layer :=
  match c with
  | IdentityAuthMiddleWare => [ViewAuthMiddleWare]
  | _ => []
  end.

Definition ERROR_BUNDLE_KEYS : list string :=
  ["middleware_stack"; "layer"; "authorizer_error"; "request_dump"].

Definition initial_world (r : request) : world :=
  {| w_request := r; w_instance := fun _ => None; w_auth := initial_auth;
     w_next := 0; w_log := [] |}.

(** ** Computations that may raise *)

Definition M (A : Type) : Type := world -> outcome A * world.

Definition ret {A} (a : A) : M A := fun w => (Returned a, w).
Definition raise {A} (e : pyexn) : M A := fun w => (Raised e, w).
Definition bind {A B} (m : M A) (k : A -> M B) : M B :=
  fun w => match m w with
           | (Returned a, w') => k a w'
           | (Raised e, w') => (Raised e, w')
           end.
Definition lift {A} (o : outcome A) : M A := fun w => (o, w).
Definition gets {A} (f : world -> A) : M A := fun w => (Returned (f w), w).
Definition modify (f : world -> world) : M unit := fun w => (Returned tt, f w).
Definition emit (e : event) : M unit := modify (add_log e).

Notation "x <- m ;; k" := (bind m (fun x => k))
  (at level 100, m at next level, right associativity).
Notation "m ;; k" := (bind m (fun _ => k))
  (at level 100, right associativity).

(** ** Attribute access on middleware instances *)

(** Names every instance answers through [object] and [type]. *)
Definition object_attrs : list string :=
  ["__class__"; "__dict__"; "__doc__"; "__module__"; "__weakref__";
   "__init__"; "__new__"; "__repr__"; "__str__"; "__hash__"; "__format__";
   "__getattribute__"; "__delattr__"; "__reduce__"; "__reduce_ex__";
   "__sizeof__"; "__subclasshook__"].

(** Where the ordinary lookup of [instance.name] finds its answer. *)
Inductive attr :=
| InstanceAttr (v : pyval)                  (* in the instance's __dict__ *)
| ClassAttr (owner : layer) (m : member)    (* bound in a class body *)
| CachedInstance (v : option instance)      (* a class's [_instance] *)
| ObjectAttr.                               (* inherited from object *)

Fixpoint first_instance (slots : layer -> option (option instance))
  (cs : list layer) : option (option instance) :=
  match cs with
  | [] => None
  | c :: cs' =>
      match slots c with
      | Some v => Some v
      | None => first_instance slots cs'
      end
  end.

(** [getattr(cls, '_instance')] on a class: the first class of the MRO
    whose namespace has the entry. *)
Definition class_instance (slots : layer -> option (option instance))
  (c : layer) : option (option instance) :=
  first_instance slots (mro c).

(** [object.__getattribute__(self, name)]: the instance's [__dict__], then
    the classes of the MRO, then [object]; [None] when all of them miss. *)
Definition normal_lookup (slots : layer -> option (option instance))
  (self : instance) (name : string) : option attr :=
  match inst_dict self !! name with
  | Some v => Some (InstanceAttr v)
  | None =>
      match class_lookup source_classes (inst_class self) name with
      | Some (owner, m) => Some (ClassAttr owner m)
      | None =>
          if String.eqb name "_instance" then
            CachedInstance <$> class_instance slots (inst_class self)
          else if bool_decide (name ∈ object_attrs) then Some ObjectAttr
          else None
      end
  end.

(** Python's private-name mangling inside a class body. *)
Definition mangle (class_name attr_name : string) : string :=
  "_" +:+ class_name +:+ attr_name.

(** The name [self.__dict] stands for inside [AuthMiddleWare]. *)
Definition private_dict : string := mangle "AuthMiddleWare" "__dict".

(** [instance.name].  When the ordinary lookup misses, Python calls
    [AuthMiddleWare.__getattr__], whose body starts by reading
    [self.__dict]; [depth] is the number of frames the interpreter still
    allows. *)
Fixpoint instance_getattr (depth : nat)
  (slots : layer -> option (option instance))
  (self : instance) (name : string) : outcome attr :=
  match normal_lookup slots self name with
  | Some a => Returned a
  | None =>
      match depth with
      | 0 => Raised RecursionError
      | S depth' =>
          match instance_getattr depth' slots self private_dict with
          | Returned (InstanceAttr d) =>
              match py_getitem d name with
              | Returned v => Returned (InstanceAttr v)
              | Raised (KeyError _) => Raised (AttributeError name)
              | Raised e => Raised e
              end
          | Returned _ => Raised TypeError
          | Raised (KeyError _) => Raised (AttributeError name)
          | Raised e => Raised e
          end
      end
  end.

(** [instance.name = value]: [AuthMiddleWare.__setattr__] stores into
    [self.__dict], never into the instance's own [__dict__].  The result
    is the outcome and the instance afterwards. *)
Definition instance_setattr (depth : nat)
  (slots : layer -> option (option instance))
  (self : instance) (name : string) (value : pyval)
  : outcome unit * instance :=
  match depth with
  | 0 => (Raised RecursionError, self)
  | S depth' =>
      match instance_getattr depth' slots self private_dict with
      | Returned (InstanceAttr d) =>
          match py_setitem d name value with
          | Returned d' =>
              (Returned tt,
               {| inst_id := inst_id self; inst_class := inst_class self;
                  inst_dict := <[private_dict := d']> (inst_dict self) |})
          | Raised e => (Raised e, self)
          end
      | Returned _ => (Raised TypeError, self)
      | Raised e => (Raised e, self)
      end
  end.

(** ** The helpers of [utils] and [custom_errors] *)

(** Modelled from the spec: [RequestOp.appendParam] of [utils] is not among
    the sources.  "Append to [request.middleware_stack] (create the list if
    absent)"; appending "without clobbering prior entries".  A field that
    holds something other than a list cannot be appended to. *)
Definition RequestOp_appendParam (key : string) (v : pyval) : M unit :=
  fun w =>
    match w_request w !! key with
    | None => (Returned tt, set_request (<[key := VList [v]]> (w_request w)) w)
    | Some (VList l) =>
        (Returned tt, set_request (<[key := VList (l ++ [v])]> (w_request w)) w)
    | Some _ => (Raised TypeError, w)
    end.

(** Modelled from the spec: [CustomError.bundle] of [custom_errors] is not
    among the sources.  An ErrorBundle is "an ordered mapping with exactly
    four named fields"; "construction must fail with a dump-bundling error
    if the supplied field set does not exactly match these four keys in
    this order".  The call passes the keys and then one value per key. *)
Definition CustomError_bundle (keys : list string) (values : list pyval)
  : outcome ErrorBundle :=
  if bool_decide (keys = ERROR_BUNDLE_KEYS) && (length values =? length keys)
  then Returned (zip keys values)
  else Raised ImproperErrorBundleDump.

(** The field of a bundle. *)
Fixpoint bundle_field (b : ErrorBundle) (k : string) : option pyval :=
  match b with
  | [] => None
  | (k', v) :: b' => if String.eqb k' k then Some v else bundle_field b' k
  end.

(** ** Reading a run *)

(** The execution trace a request carries. *)
Definition trace_of (r : request) : list pyval :=
  match r !! "middleware_stack" with
  | Some (VList l) => l
  | _ => []
  end.

(** A request whose trace field, if it has one, is a list. *)
Definition trace_ok (r : request) : bool :=
  match r !! "middleware_stack" with
  | None | Some (VList _) => true
  | Some _ => false
  end.

(** The classes whose entry the log records, in order. *)
Fixpoint entered (log : list event) : list layer :=
  match log with
  | [] => []
  | EvEnter c :: log' => c :: entered log'
  | _ :: log' => entered log'
  end.

(** The authorizers the log records as asked, in order. *)
Fixpoint checked (log : list event) : list authorizer :=
  match log with
  | [] => []
  | EvCheck a :: log' => a :: checked log'
  | _ :: log' => checked log'
  end.

(** How many instances of class [c] the log records as created. *)
Fixpoint count_new (c : layer) (log : list event) : nat :=
  match log with
  | [] => 0
  | EvNew i :: log' =>
      (if decide (inst_class i = c) then 1 else 0) + count_new c log'
  | _ :: log' => count_new c log'
  end.

(** How many times [_init] ran on an instance of class [c]. *)
Fixpoint count_init (c : layer) (log : list event) : nat :=
  match log with
  | [] => 0
  | EvInit i :: log' =>
      (if decide (inst_class i = c) then 1 else 0) + count_init c log'
  | _ :: log' => count_init c log'
  end.

(** Whether the router was reached. *)
Definition routed (log : list event) : bool :=
  existsb (fun e => match e with EvRoute => true | _ => false end) log.

Definition creation_event (e : event) : bool :=
  match e with
  | EvNew _ | EvInit _ | EvAuthNew _ => true
  | _ => false
  end.

Definition check_event (e : event) : bool :=
  match e with
  | EvCheck _ => true
  | _ => false
  end.

(** A layer type with no abstract operation left unresolved. *)
Definition is_concrete (c : layer) : bool :=
  match abstractmethods source_classes c with
  | [] => true
  | _ :: _ => false
  end.

(** Collaborators to run the chain on: every authorizer answers with its
    own code, [200] and [201] are the safe ones, the capability query looks
    for a flag in the request, and the router answers with a marker. *)
Definition sample_authorize (a : authorizer) (r : request) : pyval * pyval :=
  match a with
  | Authenticator => (VInt 200, VStr "authenticated")
  | SafeMethodOnlyAuthorizer =>
      match r !! "method" with
      | Some (VStr "GET") => (VInt 201, VStr "safe method")
      | _ => (VInt 405, VStr "method not allowed")
      end
  | APIAuthorizer => (VInt 200, VStr "api access")
  end.

Definition sample_safe (code : pyval) : bool :=
  match code with
  | VInt 200%Z | VInt 201%Z => true
  | _ => false
  end.

Definition sample_asking (r : request) : bool :=
  match r !! "grant" with
  | Some _ => true
  | None => false
  end.

Definition sample_route (r : request) (response : pyval) : pyval :=
  VDict {[ "body" := VStr "routed" ]}.

Definition sample_request : request :=
  {[ "method" := VStr "GET";
     "Authorization" := VList [VStr "Bearer"; VStr "t0k3n"] ]}.

(** The same request asking for a token. *)
Definition sample_grant : request := <["grant" := VInt 1]> sample_request.

(** A request with an unsafe method, already in the view layer. *)
Definition sample_post : request :=
  {[ "method" := VStr "POST";
     "middleware_stack" := VList [VClass ViewAuthMiddleWare] ]}.

Definition sample_view : instance :=
  {| inst_id := 0; inst_class := ViewAuthMiddleWare; inst_dict := ∅ |}.

Definition sample_identity : instance :=
  {| inst_id := 1; inst_class := IdentityAuthMiddleWare; inst_dict := ∅ |}.

(** A process in which both concrete layers have been entered, serving
    request [r]. *)
Definition sample_world (r : request) : world :=
  {| w_request := r;
     w_instance := fun k => match k with
                            | ViewAuthMiddleWare => Some (Some sample_view)
                            | IdentityAuthMiddleWare => Some (Some sample_identity)
                            | _ => None
                            end;
     w_auth := fun k => match k with
                        | ViewAuthMiddleWare =>
                            [AuthInstance SafeMethodOnlyAuthorizer;
                             AuthInstance APIAuthorizer]
                        | IdentityAuthMiddleWare => [AuthInstance Authenticator]
                        | _ => []
                        end;
     w_next := 2; w_log := [] |}.

(** ** The middleware classes *)

Section Middleware.

(** The collaborators the module imports and does not define. *)
Variable MSG_ABS_MIDDLEWARE_ERROR : string.
Variable MSG_AUTH_FAILED : string.
(** [x in SAFE_CODES], for the [SAFE_CODES] of [settings]. *)
Variable in_SAFE_CODES : pyval -> bool.
(** [AUTH['TOKEN_HEADER']] of [settings]. *)
Variable TOKEN_HEADER : string.
(** [authorizer.authorize(request)] of an instance of each authorizer
    class: a decision on the request, returned as [(code, detail)]. *)
Variable authorizer_authorize : authorizer -> request -> pyval * pyval.
(** [Authenticator.is_requesting_authentication(request)]. *)
Variable is_requesting_authentication : request -> bool.
(** [route(request, response)] of [router]. *)
Variable route : request -> pyval -> pyval.

(** *** Class attributes read through an instance *)

(** [self.AUTH_CLASSES]: the list object of the first class in the MRO
    that binds the name. *)
Definition auth_owner (self : instance) : option layer :=
  fst <$> class_lookup source_classes (inst_class self) "AUTH_CLASSES".

(** [self.STACKED_MIDDLEWARES], likewise. *)
Definition stacked_owner (self : instance) : option layer :=
  fst <$> class_lookup source_classes (inst_class self) "STACKED_MIDDLEWARES".

(** The exception [instance.name] ends in when the ordinary lookup has
    nothing for [name]. *)
Definition missing_attr {A} (depth : nat) (self : instance) (name : string)
  : M A :=
  fun w =>
    match instance_getattr depth (w_instance w) self name with
    | Raised e => (Raised e, w)
    | Returned _ => (Raised TypeError, w)
    end.

(** *** AuthMiddleWare *)

(** [_get_authorizers(self)] *)
Definition AuthMiddleWare__get_authorizers (depth : nat) (self : instance)
  : M (list auth_entry) :=
  match auth_owner self with
  | Some k => gets (fun w => w_auth w k)
  | None => missing_attr depth self "AUTH_CLASSES"
  end.

(** [_auth()]: calling an authorizer class makes an instance of it; an
    instance is not callable. *)
Definition call_auth (e : auth_entry) : M auth_entry :=
  match e with
  | AuthType a => emit (EvAuthNew a) ;; ret (AuthInstance a)
  | AuthInstance _ => raise TypeError
  end.

(** The loop of [_init]: [enumerate] walks the live list while the body
    stores into it; [n] bounds the walk by the length of the list. *)
Fixpoint init_loop (k : layer) (n ii : nat) : M unit :=
  match n with
  | 0 => ret tt
  | S n' =>
      l <- gets (fun w => w_auth w k) ;;
      match l !! ii with
      | None => ret tt
      | Some _auth =>
          x <- call_auth _auth ;;
          l' <- gets (fun w => w_auth w k) ;;
          modify (set_auth k (<[ii := x]> l')) ;;
          init_loop k n' (S ii)
      end
  end.

(** [_init(self)] *)
Definition AuthMiddleWare__init (depth : nat) (self : instance) : M unit :=
  match auth_owner self with
  | Some k =>
      l <- gets (fun w => w_auth w k) ;;
      init_loop k (length l) 0
  | None => missing_attr depth self "AUTH_CLASSES"
  end.

(** [authorizer.authorize(request)]: on an instance, the collaborator's
    decision; on a class that was never instantiated the call has no
    [self] to bind. *)
Definition call_authorizer (e : auth_entry) : M (pyval * pyval) :=
  match e with
  | AuthInstance a =>
      emit (EvCheck a) ;;
      gets (fun w => authorizer_authorize a (w_request w))
  | AuthType _ => raise TypeError
  end.

(** [request[key]] *)
Definition request_item (key : string) : M pyval :=
  fun w =>
    match w_request w !! key with
    | Some v => (Returned v, w)
    | None => (Raised (KeyError (VStr key)), w)
    end.

(** The loop of [authorize]. *)
Fixpoint authorize_loop (self : instance) (authorizers : list auth_entry)
  : M unit :=
  match authorizers with
  | [] => ret tt
  | authorizer :: rest =>
      authorized <- call_authorizer authorizer ;;
      if in_SAFE_CODES (fst authorized) then authorize_loop self rest
      else
        stack <- request_item "middleware_stack" ;;
        req <- gets w_request ;;
        b <- lift (CustomError_bundle ERROR_BUNDLE_KEYS
                     [stack; VClass (inst_class self);
                      VTuple [fst authorized; snd authorized]; VDict req]) ;;
        raise (AuthError MSG_AUTH_FAILED b)
  end.

(** [authorize(self, request)] *)
Definition AuthMiddleWare_authorize (depth : nat) (self : instance) : M unit :=
  authorizers <- AuthMiddleWare__get_authorizers depth self ;;
  authorize_loop self authorizers.

(** [process(self, request, response)]: the abstract body is [return]. *)
Definition AuthMiddleWare_process (self : instance) (response : pyval)
  : M pyval := ret VNone.

(** [delegate(self, request, response)]: the abstract body is [return]. *)
Definition AuthMiddleWare_delegate (self : instance) (response : pyval)
  : M pyval := ret VNone.

(** *** StackedAuthMiddleWare *)

(** [_get_stacked_middlewares(self)] *)
Definition StackedAuthMiddleWare__get_stacked_middlewares (depth : nat)
  (self : instance) : M (list layer) :=
  match stacked_owner self with
  | Some k => ret (STACKED_MIDDLEWARES k)
  | None => missing_attr depth self "STACKED_MIDDLEWARES"
  end.

(** The loop of [delegate]; [enter] is [process_request]. *)
Fixpoint stacked_loop (enter : layer -> pyval -> M pyval)
  (s_mws : list layer) (response : pyval) : M pyval :=
  match s_mws with
  | [] => ret response
  | s_mw :: rest =>
      response' <- enter s_mw response ;;
      stacked_loop enter rest response'
  end.

(** [delegate(self, request, response)] *)
Definition StackedAuthMiddleWare_delegate (depth : nat)
  (enter : layer -> pyval -> M pyval)
  (self : instance) (response : pyval) : M pyval :=
  s_mws <- StackedAuthMiddleWare__get_stacked_middlewares depth self ;;
  stacked_loop enter s_mws response.

(** *** ViewAuthMiddleWare *)

Definition ViewAuthMiddleWare_process (self : instance) (response : pyval)
  : M pyval := ret VNone.

Definition ViewAuthMiddleWare_delegate (self : instance) (response : pyval)
  : M pyval :=
  emit EvRoute ;;
  gets (fun w => route (w_request w) response).

(** *** IdentityAuthMiddleWare *)

Definition IdentityAuthMiddleWare_process (self : instance) (response : pyval)
  : M pyval := ret VNone.

Definition IdentityAuthMiddleWare_delegate (depth : nat)
  (enter : layer -> pyval -> M pyval)
  (self : instance) (response : pyval) : M pyval :=
  asking <- gets (fun w => is_requesting_authentication (w_request w)) ;;
  if (asking : bool) then
    header <- request_item TOKEN_HEADER ;;
    token <- lift (py_index header 1) ;;
    response' <- lift (py_setitem response TOKEN_HEADER token) ;;
    ret response'
  else
    StackedAuthMiddleWare_delegate depth enter self response.

(** *** Method calls on the cached instance *)

(** [cls._instance] *)
Definition class_getattr_instance (cls : layer) : M (option instance) :=
  fun w =>
    match class_instance (w_instance w) cls with
    | Some v => (Returned v, w)
    | None => (Raised (AttributeError "_instance"), w)
    end.

(** [cls()]: a type that carries the abstract flag refuses; otherwise a
    fresh object whose [__dict__] is empty. *)
Definition instantiate (cls : layer) : M instance :=
  if inspect_isabstract source_classes cls then raise TypeError
  else
    fun w =>
      let i := {| inst_id := w_next w; inst_class := cls; inst_dict := ∅ |} in
      (Returned i, add_log (EvNew i) (bump_next w)).

(** [x._init()] for the value [x] of [cls._instance]. *)
Definition invoke_init (depth : nat) (x : option instance) : M unit :=
  match x with
  | None => raise (AttributeError "_init")
  | Some self =>
      match class_lookup source_classes (inst_class self) "_init" with
      | Some (AuthMiddleWare, _) =>
          emit (EvInit self) ;; AuthMiddleWare__init depth self
      | Some _ => raise TypeError
      | None => missing_attr depth self "_init"
      end
  end.

(** [x.authorize(request)] *)
Definition invoke_authorize (depth : nat) (x : option instance) : M unit :=
  match x with
  | None => raise (AttributeError "authorize")
  | Some self =>
      match class_lookup source_classes (inst_class self) "authorize" with
      | Some (AuthMiddleWare, _) =>
          emit (EvAuthorize self) ;; AuthMiddleWare_authorize depth self
      | Some _ => raise TypeError
      | None => missing_attr depth self "authorize"
      end
  end.

(** [x.process(request, response)] *)
Definition invoke_process (depth : nat) (x : option instance)
  (response : pyval) : M pyval :=
  match x with
  | None => raise (AttributeError "process")
  | Some self =>
      match class_lookup source_classes (inst_class self) "process" with
      | Some (AuthMiddleWare, _) =>
          emit (EvProcess self) ;; AuthMiddleWare_process self response
      | Some (ViewAuthMiddleWare, _) =>
          emit (EvProcess self) ;; ViewAuthMiddleWare_process self response
      | Some (IdentityAuthMiddleWare, _) =>
          emit (EvProcess self) ;; IdentityAuthMiddleWare_process self response
      | Some (StackedAuthMiddleWare, _) => raise TypeError
      | None => missing_attr depth self "process"
      end
  end.

(** [x.delegate(request, response)] *)
Definition invoke_delegate (depth : nat) (enter : layer -> pyval -> M pyval)
  (x : option instance) (response : pyval) : M pyval :=
  match x with
  | None => raise (AttributeError "delegate")
  | Some self =>
      match class_lookup source_classes (inst_class self) "delegate" with
      | Some (AuthMiddleWare, _) =>
          emit (EvDelegate self) ;; AuthMiddleWare_delegate self response
      | Some (StackedAuthMiddleWare, _) =>
          emit (EvDelegate self) ;;
          StackedAuthMiddleWare_delegate depth enter self response
      | Some (ViewAuthMiddleWare, _) =>
          emit (EvDelegate self) ;; ViewAuthMiddleWare_delegate self response
      | Some (IdentityAuthMiddleWare, _) =>
          emit (EvDelegate self) ;;
          IdentityAuthMiddleWare_delegate depth enter self response
      | None => missing_attr depth self "delegate"
      end
  end.

(** The lines of [process_request] that fetch or build the singleton:
    [hasattr]/[setattr], then the [if not cls._instance] block. *)
Definition ensure_instance (depth : nat) (cls : layer) : M unit :=
  has <- gets (fun w => class_instance (w_instance w) cls) ;;
  match has with
  | None => modify (set_instance cls None)
  | Some _ => ret tt
  end ;;
  cur <- class_getattr_instance cls ;;
  match cur with
  | Some _ => ret tt
  | None =>
      inst <- instantiate cls ;;
      modify (set_instance cls (Some inst)) ;;
      x <- class_getattr_instance cls ;;
      invoke_init depth x
  end.

(** The hooks of the cached instance, in the order [process_request] calls
    them: authorize, process, delegate.  [enter] is [process_request]
    itself, for the layers [delegate] moves on to. *)
Definition run_hooks (depth : nat) (enter : layer -> pyval -> M pyval)
  (cls : layer) (response : pyval) : M pyval :=
  x <- class_getattr_instance cls ;;
  invoke_authorize depth x ;;
  y <- class_getattr_instance cls ;;
  invoke_process depth y response ;;
  z <- class_getattr_instance cls ;;
  invoke_delegate depth enter z response.

(** What [process_request] does once the abstract check has let the class
    through: fetch or build the singleton, then run its hooks. *)
Definition through_layer (depth : nat) (enter : layer -> pyval -> M pyval)
  (cls : layer) (response : pyval) : M pyval :=
  ensure_instance depth cls ;;
  run_hooks depth enter cls response.

(** [process_request(cls, request, response)].  [depth] is the number of
    nested entries the interpreter still allows; the request is the one
    of the world. *)
Fixpoint process_request (depth : nat) (cls : layer) (response : pyval)
  : M pyval :=
  match depth with
  | 0 => raise RecursionError
  | S depth' =>
      emit (EvEnter cls) ;;
      RequestOp_appendParam "middleware_stack" (VClass cls) ;;
      if inspect_isabstract source_classes cls then
        stack <- request_item "middleware_stack" ;;
        req <- gets w_request ;;
        b <- lift (CustomError_bundle ERROR_BUNDLE_KEYS
                     [stack; VClass cls; VNone; VDict req]) ;;
        raise (AbstractMiddlewareError MSG_ABS_MIDDLEWARE_ERROR b)
      else
        through_layer depth' (process_request depth') cls response
  end.

(** One call from the host: [cls.process_request(request, response)] on a
    request of its own, in the process state the world carries. *)
Definition serve (depth : nat) (cls : layer) (req : request)
  (response : pyval) (w : world) : outcome pyval * world :=
  process_request depth cls response (set_request req w).

(** ** What the properties speak of *)

(** [preserves R m]: whatever [m] returns or raises, the world it leaves
    is [R]-related to the one it started in. *)
Definition preserves {A} (R : world -> world -> Prop) (m : M A) : Prop :=
  forall w, R w (snd (m w)).

(** Every cached instance still has the empty [__dict__] it was born with. *)
Definition pristine (w : world) : Prop :=
  forall c i, w_instance w c = Some (Some i) -> inst_dict i = ∅.

Definition keeps_pristine (w w' : world) : Prop := pristine w -> pristine w'.

(** The world with more events in its log and nothing else changed. *)
Definition log_more (evs : list event) (w : world) : world :=
  {| w_request := w_request w; w_instance := w_instance w; w_auth := w_auth w;
     w_next := w_next w; w_log := w_log w ++ evs |}.

(** The code an authorizer answers with on the request of the world. *)
Definition answer (w : world) (a : authorizer) : pyval * pyval :=
  authorizer_authorize a (w_request w).

Definition safe_on (w : world) (a : authorizer) : Prop :=
  in_SAFE_CODES (fst (answer w a)) = true.

(** The bundle [authorize] builds when the authorizer answered [(code,
    detail)] in world [w]. *)
Definition auth_bundle (self : instance) (w : world) (stack code detail : pyval)
  : ErrorBundle :=
  [("middleware_stack", stack); ("layer", VClass (inst_class self));
   ("authorizer_error", VTuple [code; detail]);
   ("request_dump", VDict (w_request w))].

(** The responses the sub-layers hand on: [hands_on enter l r0 w [r1; ...;
    rn] w_end] holds when entering the sub-layers of [l] in order from
    world [w], each with the response of the one before, returns [r1],
    ..., [rn] and ends in [w_end]. *)
Fixpoint hands_on (enter : layer -> pyval -> M pyval) (l : list layer)
  (response : pyval) (w : world) (rs : list pyval) (w_end : world) : Prop :=
  match l, rs with
  | [], [] => w_end = w
  | c :: l', r :: rs' =>
      exists w', enter c response w = (Returned r, w')
                 /\ hands_on enter l' r w' rs' w_end
  | _, _ => False
  end.

(** From [w] to [w'] the log grew, and the trace grew by exactly the
    classes whose entry the new part of the log records, in that order. *)
Definition extends_trace (w w' : world) : Prop :=
  trace_ok (w_request w) = true ->
  trace_ok (w_request w') = true
  /\ exists delta,
      w_log w' = w_log w ++ delta
      /\ trace_of (w_request w')
         = trace_of (w_request w) ++ (VClass <$> entered delta).

(** An [AUTH_CLASSES] list after [_init] went over it. *)
Definition instantiated (l : list auth_entry) : list auth_entry :=
  (fun e => match e with AuthType a | AuthInstance a => AuthInstance a end) <$> l.

(** Class [c] has not been entered: it has no [_instance], no instance of
    it was ever created, and its authorizer list is as written. *)
Definition fresh_layer (w : world) (c : layer) : Prop :=
  w_instance w c = None
  /\ count_new c (w_log w) = 0 /\ count_init c (w_log w) = 0
  /\ w_auth w c = initial_auth c.

(** Class [c] caches [i], the one instance of it ever created, on which
    [_init] ran once. *)
Definition built_layer (w : world) (c : layer) (i : instance) : Prop :=
  w_instance w c = Some (Some i)
  /\ inst_class i = c
  /\ count_new c (w_log w) = 1 /\ count_init c (w_log w) = 1
  /\ w_auth w c = instantiated (initial_auth c).

Definition layer_ok (w : world) (c : layer) : Prop :=
  fresh_layer w c \/ exists i, built_layer w c i.

(** The state of a process in which only concrete layers were entered. *)
Definition singletons (w : world) : Prop :=
  fresh_layer w AuthMiddleWare /\ fresh_layer w StackedAuthMiddleWare
  /\ layer_ok w ViewAuthMiddleWare /\ layer_ok w IdentityAuthMiddleWare.

(** What the host can bring about by calling the entry point on concrete
    layer types, any number of times, on any requests. *)
Inductive reachable : world -> Prop :=
| reach_start (r : request) : reachable (initial_world r)
| reach_serve (depth : nat) (cls : layer) (req : request) (response : pyval)
    (w : world) :
    is_concrete cls = true ->
    reachable w ->
    reachable (snd (serve depth cls req response w)).

Definition keeps_singletons (w w' : world) : Prop :=
  singletons w ->
  singletons w' /\ forall c i, built_layer w c i -> built_layer w' c i.

(** Every exception [m] can raise satisfies [P]. *)
Definition raises_only {A} (P : pyexn -> Prop) (m : M A) : Prop :=
  forall w e, fst (m w) = Raised e -> P e.

Definition not_abstract_error (e : pyexn) : Prop :=
  match e with
  | AbstractMiddlewareError _ _ => False
  | _ => True
  end.

(** The request after [process_request] on class [c] appended to its
    trace. *)
Definition traced (r : request) (c : layer) : request :=
  <["middleware_stack" := VList (trace_of r ++ [VClass c])]> r.

(** The authorizer classes a layer class lists in [AUTH_CLASSES]. *)
Definition authorizers_of (c : layer) : list authorizer :=
  (fun e => match e with AuthType a | AuthInstance a => a end) <$> initial_auth c.

(** From [w] to [w'] the request kept every field but its trace. *)
Definition keeps_fields (w w' : world) : Prop :=
  delete "middleware_stack" (w_request w')
  = delete "middleware_stack" (w_request w).

(** What the host can bring about by calling the entry point on layer
    types of any kind, the two base classes included, any number of times,
    on any requests. *)
Inductive attainable : world -> Prop :=
| attain_start (r : request) : attainable (initial_world r)
| attain_serve (depth : nat) (cls : layer) (req : request) (response : pyval)
    (w : world) :
    attainable w ->
    attainable (snd (serve depth cls req response w)).

(** The class table of such a process: a class that caches something
    caches an instance of itself, and its authorizer list holds classes
    until that instance is built and instances from then on. *)
Definition coherent (w : world) : Prop :=
  (forall c, w_instance w c = None
             \/ exists i, w_instance w c = Some (Some i) /\ inst_class i = c)
  /\ (forall c, w_auth w c = match w_instance w c with
                             | None => initial_auth c
                             | Some _ => instantiated (initial_auth c)
                             end).

Definition keeps_coherent (w w' : world) : Prop := coherent w -> coherent w'.

(** From [w] to [w'] the request is the same and the log grew by creation
    events only. *)
Definition only_creates (w w' : world) : Prop :=
  w_request w' = w_request w
  /\ exists creation,
      w_log w' = w_log w ++ creation
      /\ forallb creation_event creation = true.

(** From [w] to [w'] no class changed what it caches. *)
Definition same_instances (w w' : world) : Prop :=
  w_instance w' = w_instance w.

(** * Properties *)

(** ** The class table *)

Lemma mro_AuthMiddleWare : mro AuthMiddleWare = [AuthMiddleWare].
Proof. reflexivity. Qed.

Lemma mro_IdentityAuthMiddleWare :
mro IdentityAuthMiddleWare =
[IdentityAuthMiddleWare; StackedAuthMiddleWare; AuthMiddleWare].
Proof. reflexivity. Qed.

(** No class statement of the file gives its class a metaclass. *)
Lemma metaclass_of_source (c : layer) : metaclass_of source_classes c = TypeMeta.
Proof. destruct c; reflexivity. Qed.

(** So [inspect.isabstract] answers [False] for each of the four. *)
Lemma isabstract_source (c : layer) : inspect_isabstract source_classes c = false.
Proof. unfold inspect_isabstract. by rewrite metaclass_of_source. Qed.

(** Spelled [__metaclass__], the same class statements would flag the two
  base classes, and only them. *)
Lemma isabstract_dunder (c : layer) :
inspect_isabstract (classes_with "__metaclass__") c = negb (is_concrete c).
Proof. destruct c; reflexivity. Qed.

Lemma is_concrete_spec (c : layer) :
is_concrete c = true <-> c = ViewAuthMiddleWare \/ c = IdentityAuthMiddleWare.
Proof.
destruct c; vm_compute; split; intros H;
  solve [ discriminate | auto | destruct H; discriminate ].
Qed.

(** ** Running a computation *)

Lemma bind_ret {A B} (a : A) (k : A -> M B) (w : world) :
  bind (ret a) k w = k a w.
Proof. reflexivity. Qed.

Lemma bind_raise {A B} (e : pyexn) (k : A -> M B) (w : world) :
  bind (raise e) k w = (Raised e, w).
Proof. reflexivity. Qed.

Lemma bind_assoc {A B C} (m : M A) (k : A -> M B) (h : B -> M C) (w : world) :
  bind (bind m k) h w = bind m (fun a => bind (k a) h) w.
Proof. unfold bind. destruct (m w) as [[a|e] w']; reflexivity. Qed.

Lemma bind_returned {A B} (m : M A) (k : A -> M B) (w w' : world) (a : A) :
  m w = (Returned a, w') -> bind m k w = k a w'.
Proof. unfold bind. by intros ->. Qed.

Lemma bind_raised {A B} (m : M A) (k : A -> M B) (w w' : world) (e : pyexn) :
  m w = (Raised e, w') -> bind m k w = (Raised e, w').
Proof. unfold bind. by intros ->. Qed.

(** ** Error bundles *)

(** C5.  [CustomError.bundle] builds a bundle exactly when it is given
    the four keys [middleware_stack], [layer], [authorizer_error],
    [request_dump] in this order, with a value for each; for every other
    field set it fails with [ImproperErrorBundleDump]. *)
Theorem C5_bundle_requires_the_four_keys
  (keys : list string) (values : list pyval) (a b c d : pyval) :
  CustomError_bundle
    ["middleware_stack"; "layer"; "authorizer_error"; "request_dump"]
    [a; b; c; d]
  = Returned [("middleware_stack", a); ("layer", b);
              ("authorizer_error", c); ("request_dump", d)]
  /\ ((keys = ERROR_BUNDLE_KEYS /\ length values = 4
       /\ CustomError_bundle keys values = Returned (zip keys values))
      \/ ((keys <> ERROR_BUNDLE_KEYS \/ length values <> 4)
          /\ CustomError_bundle keys values = Raised ImproperErrorBundleDump)).
Proof.
  split; [reflexivity|].
  unfold CustomError_bundle.
  destruct (decide (keys = ERROR_BUNDLE_KEYS)) as [->|Hk].
  - rewrite bool_decide_eq_true_2 by done. cbn [andb].
    destruct (Nat.eqb_spec (length values) (length ERROR_BUNDLE_KEYS)) as [Hl|Hl].
    + left. auto.
    + right. split; [right; exact Hl | reflexivity].
  - rewrite bool_decide_eq_false_2 by done. right. auto.
Qed.

(** ** Attribute access *)

(** Nothing answers the private name [_AuthMiddleWare__dict] unless the
    instance's own [__dict__] holds it. *)
Lemma private_dict_is_missing slots (self : instance) :
  inst_dict self !! private_dict = None ->
  normal_lookup slots self private_dict = None.
Proof.
  intros H. unfold normal_lookup. rewrite H.
  destruct (inst_class self); reflexivity.
Qed.

(** Reading it therefore never comes back: each call of [__getattr__]
    asks for it again. *)
Lemma getattr_private_dict depth slots (self : instance) :
  inst_dict self !! private_dict = None ->
  instance_getattr depth slots self private_dict = Raised RecursionError.
Proof.
  intros H. induction depth as [|depth IH]; cbn [instance_getattr];
    rewrite (private_dict_is_missing _ _ H); [reflexivity|].
  by rewrite IH.
Qed.

(** ** Relating the worlds before and after a computation *)

Section Preserves.
Context (R : world -> world -> Prop) `{!PreOrder R}.

Lemma preserves_still {A} (m : M A) :
  (forall w, snd (m w) = w) -> preserves R m.
Proof. intros H w. by rewrite H. Qed.

Lemma preserves_ret {A} (a : A) : preserves R (ret a).
Proof. by apply preserves_still. Qed.

Lemma preserves_raise {A} (e : pyexn) : preserves R (@raise A e).
Proof. by apply preserves_still. Qed.

Lemma preserves_lift {A} (o : outcome A) : preserves R (lift o).
Proof. by apply preserves_still. Qed.

Lemma preserves_gets {A} (f : world -> A) : preserves R (gets f).
Proof. by apply preserves_still. Qed.

Lemma preserves_modify (f : world -> world) :
  (forall w, R w (f w)) -> preserves R (modify f).
Proof. intros H w. apply H. Qed.

Lemma preserves_bind {A B} (m : M A) (k : A -> M B) :
  preserves R m -> (forall a, preserves R (k a)) -> preserves R (bind m k).
Proof.
  intros Hm Hk w. unfold bind. specialize (Hm w).
  destruct (m w) as [[a|e] w1]; cbn in *; [|done].
  etrans; [exact Hm | apply Hk].
Qed.

Lemma preserves_request_item key : preserves R (request_item key).
Proof.
  apply preserves_still. intros w. unfold request_item.
  by destruct (w_request w !! key).
Qed.

Lemma preserves_class_getattr_instance cls :
  preserves R (class_getattr_instance cls).
Proof.
  apply preserves_still. intros w. unfold class_getattr_instance.
  by destruct (class_instance (w_instance w) cls).
Qed.

Lemma preserves_missing_attr {A} depth self name :
  preserves R (@missing_attr A depth self name).
Proof.
  apply preserves_still. intros w. unfold missing_attr.
  by destruct (instance_getattr depth (w_instance w) self name).
Qed.

Lemma preserves_bind_instantiate {B} cls (k : instance -> M B) :
  (forall w i, inst_class i = cls -> R w (add_log (EvNew i) (bump_next w))) ->
  (forall i, inst_class i = cls -> inst_dict i = ∅ -> preserves R (k i)) ->
  preserves R (bind (instantiate cls) k).
Proof.
  intros Hnew Hk w. unfold bind, instantiate. rewrite isabstract_source.
  etrans; [|by apply Hk]. by apply Hnew.
Qed.

Lemma preserves_stacked_loop enter s_mws :
  (forall c r, c ∈ s_mws -> preserves R (enter c r)) ->
  forall response, preserves R (stacked_loop enter s_mws response).
Proof.
  induction s_mws as [|c rest IH]; intros He response; cbn [stacked_loop].
  - apply preserves_ret.
  - apply preserves_bind.
    + apply He. by left.
    + intros r. apply IH. intros c' r' Hin. apply He. by right.
Qed.
Lemma preserves_stacked_delegate depth enter self response :
  (forall k c r, c ∈ STACKED_MIDDLEWARES k -> preserves R (enter c r)) ->
  preserves R (StackedAuthMiddleWare_delegate depth enter self response).
Proof.
  intros He. unfold StackedAuthMiddleWare_delegate,
    StackedAuthMiddleWare__get_stacked_middlewares.
  destruct (stacked_owner self) as [k|].
  - intros w.
    change (R w (snd (stacked_loop enter (STACKED_MIDDLEWARES k) response w))).
    apply preserves_stacked_loop. apply He.
  - intros w. unfold bind, missing_attr.
    by destruct (instance_getattr depth (w_instance w) self "STACKED_MIDDLEWARES").
Qed.

End Preserves.

Ltac preorder_goal :=
  lazymatch goal with
  | |- PreOrder _ => apply _
  | |- _ => idtac
  end.

(** Splits a goal [preserves R m] along the binds and branches of [m],
    closing the steps that leave the world alone. *)
Ltac preserve_step :=
  first
    [ apply preserves_ret; preorder_goal
    | apply preserves_raise; preorder_goal
    | apply preserves_lift; preorder_goal
    | apply preserves_gets; preorder_goal
    | apply preserves_request_item; preorder_goal
    | apply preserves_class_getattr_instance; preorder_goal
    | apply preserves_missing_attr; preorder_goal
    | apply preserves_bind; preorder_goal; [|intros ?]
    | match goal with
      | |- preserves _ (match ?x with _ => _ end) => destruct x
      end ].

Ltac preserve := repeat preserve_step.

#[local] Instance keeps_pristine_preorder : PreOrder keeps_pristine.
Proof. split; unfold keeps_pristine; [intros w | intros w1 w2 w3]; tauto. Qed.

Lemma keeps_pristine_same_instances (w w' : world) :
  w_instance w' = w_instance w -> keeps_pristine w w'.
Proof. intros H Hp c i. rewrite H. apply Hp. Qed.

Lemma keeps_pristine_emit e : preserves keeps_pristine (emit e).
Proof. apply preserves_modify. intros w. by apply keeps_pristine_same_instances. Qed.

Lemma keeps_pristine_appendParam key v :
  preserves keeps_pristine (RequestOp_appendParam key v).
Proof.
  intros w. apply keeps_pristine_same_instances. unfold RequestOp_appendParam.
  destruct (w_request w !! key) as [[]|]; reflexivity.
Qed.

Lemma keeps_pristine_set_auth k l :
  preserves keeps_pristine (modify (set_auth k l)).
Proof. apply preserves_modify. intros w. by apply keeps_pristine_same_instances. Qed.

Lemma keeps_pristine_set_instance cls (v : option instance) :
  (forall i, v = Some i -> inst_dict i = ∅) ->
  preserves keeps_pristine (modify (set_instance cls v)).
Proof.
  intros Hv. apply preserves_modify. intros w Hp c i. cbn.
  destruct (decide (c = cls)); [|apply Hp].
  intros [= ->]. by apply Hv.
Qed.

Ltac pristine_step :=
  first
    [ apply keeps_pristine_emit
    | apply keeps_pristine_appendParam
    | apply keeps_pristine_set_auth
    | preserve_step ].

Lemma keeps_pristine_init_loop k n ii :
  preserves keeps_pristine (init_loop k n ii).
Proof.
  revert ii. induction n as [|n IH]; intros ii; cbn [init_loop].
  - preserve_step.
  - unfold call_auth. repeat pristine_step. apply IH.
Qed.

Lemma keeps_pristine_invoke_init depth x :
  preserves keeps_pristine (invoke_init depth x).
Proof.
  unfold invoke_init, AuthMiddleWare__init. repeat pristine_step;
    apply keeps_pristine_init_loop.
Qed.

Lemma keeps_pristine_ensure_instance depth cls :
  preserves keeps_pristine (ensure_instance depth cls).
Proof.
  unfold ensure_instance.
  repeat first
    [ apply preserves_bind_instantiate;
        [apply _
        |intros w i _; by apply keeps_pristine_same_instances
        |intros i _ Hd]
    | apply keeps_pristine_set_instance; by (intros j [= <-] || done)
    | apply keeps_pristine_invoke_init
    | pristine_step ].
Qed.

Lemma keeps_pristine_authorize_loop self l :
  preserves keeps_pristine (authorize_loop self l).
Proof.
  induction l as [|a l IH]; cbn [authorize_loop]; [preserve_step|].
  unfold call_authorizer. repeat pristine_step. apply IH.
Qed.

Lemma keeps_pristine_invoke_authorize depth x :
  preserves keeps_pristine (invoke_authorize depth x).
Proof.
  unfold invoke_authorize, AuthMiddleWare_authorize, AuthMiddleWare__get_authorizers.
  repeat pristine_step; apply keeps_pristine_authorize_loop.
Qed.

Lemma keeps_pristine_invoke_process depth x response :
  preserves keeps_pristine (invoke_process depth x response).
Proof.
  unfold invoke_process, AuthMiddleWare_process, ViewAuthMiddleWare_process,
    IdentityAuthMiddleWare_process.
  repeat pristine_step.
Qed.

Lemma keeps_pristine_invoke_delegate depth enter x response :
  (forall c r, preserves keeps_pristine (enter c r)) ->
  preserves keeps_pristine (invoke_delegate depth enter x response).
Proof.
  intros He.
  unfold invoke_delegate, AuthMiddleWare_delegate, ViewAuthMiddleWare_delegate,
    IdentityAuthMiddleWare_delegate, StackedAuthMiddleWare_delegate,
    StackedAuthMiddleWare__get_stacked_middlewares.
  repeat pristine_step;
    (apply preserves_stacked_loop; [apply _|intros; apply He]).
Qed.

Lemma keeps_pristine_through_layer depth enter cls response :
  (forall c r, preserves keeps_pristine (enter c r)) ->
  preserves keeps_pristine (through_layer depth enter cls response).
Proof.
  intros He. unfold through_layer, run_hooks.
  repeat first
    [ apply keeps_pristine_ensure_instance
    | apply keeps_pristine_invoke_authorize
    | apply keeps_pristine_invoke_process
    | apply keeps_pristine_invoke_delegate
    | pristine_step ].
  exact He.
Qed.

Lemma keeps_pristine_process_request depth cls response :
  preserves keeps_pristine (process_request depth cls response).
Proof.
  revert cls response. induction depth as [|depth IH]; intros cls response;
    cbn [process_request]; [preserve_step|].
  rewrite isabstract_source.
  repeat first
    [ apply keeps_pristine_through_layer; exact IH
    | pristine_step ].
Qed.

(** C10.  On a middleware instance whose private mapping
    [_AuthMiddleWare__dict] was never put in place, an attribute assignment
    raises and stores nothing, and a read of a name the ordinary lookup
    does not find raises instead of returning; the entry point never puts
    the mapping in place, so every instance it caches keeps the empty
    [__dict__] it was created with. *)
Theorem C10_attribute_hooks_never_succeed
  (depth : nat) (slots : layer -> option (option instance))
  (self : instance) (name : string) (value : pyval)
  (entries : nat) (cls : layer) (req : request) (response : pyval) (w : world) :
  inst_dict self !! private_dict = None ->
  pristine w ->
  instance_setattr depth slots self name value = (Raised RecursionError, self)
  /\ instance_getattr depth slots self name =
       match normal_lookup slots self name with
       | Some a => Returned a
       | None => Raised RecursionError
       end
  /\ pristine (snd (serve entries cls req response w)).
Proof.
  intros Hself Hw. split; [|split].
  - destruct depth as [|depth]; [reflexivity|].
    cbn [instance_setattr]. by rewrite getattr_private_dict.
  - destruct depth as [|depth]; cbn [instance_getattr];
      destruct (normal_lookup slots self name); try reflexivity.
    by rewrite getattr_private_dict.
  - unfold serve. apply keeps_pristine_process_request.
    intros c i. cbn. apply Hw.
Qed.

(** ** Authorization *)

Lemma log_more_nil w : log_more [] w = w.
Proof. destruct w. unfold log_more. cbn. by rewrite app_nil_r. Qed.

Lemma log_more_app evs1 evs2 w :
  log_more evs2 (log_more evs1 w) = log_more (evs1 ++ evs2) w.
Proof. unfold log_more. cbn. by rewrite app_assoc. Qed.

Lemma add_log_log_more e w : add_log e w = log_more [e] w.
Proof. reflexivity. Qed.

Lemma authorize_loop_safe_prefix self (pre : list authorizer)
  (rest : list auth_entry) (w : world) :
  Forall (safe_on w) pre ->
  authorize_loop self ((AuthInstance <$> pre) ++ rest) w
  = authorize_loop self rest (log_more (EvCheck <$> pre) w).
Proof.
  revert w. induction pre as [|a pre IH]; intros w Hsafe.
  - by rewrite log_more_nil.
  - apply Forall_cons in Hsafe as [Ha Hpre].
    cbn [fmap list_fmap app authorize_loop].
    unfold bind at 1. cbn.
    unfold safe_on, answer in Ha. rewrite Ha.
    rewrite add_log_log_more, IH; [by rewrite log_more_app|].
    exact Hpre.
Qed.

Lemma authorize_loop_all_safe self (l : list authorizer) (w : world) :
  Forall (safe_on w) l ->
  authorize_loop self (AuthInstance <$> l) w
  = (Returned tt, log_more (EvCheck <$> l) w).
Proof.
  intros H. rewrite <- (app_nil_r (AuthInstance <$> l)).
  by rewrite authorize_loop_safe_prefix.
Qed.

Lemma authorize_loop_first_unsafe self (pre post : list authorizer)
  (a : authorizer) (w : world) (stack : pyval) :
  Forall (safe_on w) pre ->
  ~ safe_on w a ->
  w_request w !! "middleware_stack" = Some stack ->
  authorize_loop self (AuthInstance <$> (pre ++ a :: post)%list) w
  = (Raised (AuthError MSG_AUTH_FAILED
               (auth_bundle self w stack (fst (answer w a)) (snd (answer w a)))),
     log_more (EvCheck <$> (pre ++ [a])%list) w).
Proof.
  intros Hpre Ha Hstack.
  rewrite fmap_app, authorize_loop_safe_prefix by done.
  cbn [fmap list_fmap authorize_loop].
  unfold bind at 1. cbn.
  unfold safe_on, answer in Ha. apply not_true_is_false in Ha.
  rewrite Ha.
  unfold bind, request_item. cbn. rewrite Hstack. cbn.
  rewrite fmap_app, <- log_more_app. reflexivity.
Qed.

Lemma authorize_unfold depth self k (w : world) :
  auth_owner self = Some k ->
  AuthMiddleWare_authorize depth self w = authorize_loop self (w_auth w k) w.
Proof.
  intros Hk. unfold AuthMiddleWare_authorize, AuthMiddleWare__get_authorizers.
  by rewrite Hk.
Qed.

(** C3.  [authorize] asks the authorizers of the layer in list order.  At
    the first one whose code is not a safe code it raises [AuthError], and
    the authorizers after it are not asked; when every code is safe it
    returns without raising, having asked them all. *)
Theorem C3_authorize_stops_at_first_unsafe
  (depth : nat) (self : instance) (k : layer) (l : list authorizer)
  (w : world) (stack : pyval) :
  auth_owner self = Some k ->
  w_auth w k = AuthInstance <$> l ->
  w_request w !! "middleware_stack" = Some stack ->
  (forall pre a post,
      l = (pre ++ a :: post)%list ->
      Forall (safe_on w) pre ->
      ~ safe_on w a ->
      exists b w',
        AuthMiddleWare_authorize depth self w
        = (Raised (AuthError MSG_AUTH_FAILED b), w')
        /\ w_log w' = (w_log w ++ (EvCheck <$> (pre ++ [a])%list))%list
        /\ checked (w_log w') = (checked (w_log w) ++ pre ++ [a])%list)
  /\ (Forall (safe_on w) l ->
      exists w',
        AuthMiddleWare_authorize depth self w = (Returned tt, w')
        /\ w_log w' = (w_log w ++ (EvCheck <$> l))%list).
Proof.
  intros Hk Hl Hstack. split.
  - intros pre a post -> Hpre Ha.
    eexists _, _. split; [|split].
    + rewrite (authorize_unfold _ _ _ _ Hk), Hl.
      by apply authorize_loop_first_unsafe.
    + reflexivity.
    + cbn [w_log log_more].
      assert (Hc : forall evs (la : list authorizer),
                 checked (evs ++ (EvCheck <$> la)) = (checked evs ++ la)%list).
      { intros evs la. induction evs as [|e evs IH]; cbn.
        - induction la as [|x la IH]; cbn; [done|by rewrite IH].
        - destruct e; cbn; by rewrite IH. }
      by rewrite Hc.
  - intros Hall. eexists. split.
    + rewrite (authorize_unfold _ _ _ _ Hk), Hl.
      by apply authorize_loop_all_safe.
    + reflexivity.
Qed.

(** C4.  The [AuthError] that [authorize] raises for an unsafe answer
    carries a bundle with the four fields in order: the trace held by the
    request at that moment, the class of the instance that was
    authorizing, the [(code, detail)] pair that was answered, and the
    request itself. *)
Theorem C4_auth_error_bundle
  (depth : nat) (self : instance) (k : layer)
  (pre post : list authorizer) (a : authorizer) (w : world) (stack : pyval) :
  auth_owner self = Some k ->
  w_auth w k = AuthInstance <$> (pre ++ a :: post)%list ->
  w_request w !! "middleware_stack" = Some stack ->
  Forall (safe_on w) pre ->
  ~ safe_on w a ->
  exists b,
    fst (AuthMiddleWare_authorize depth self w)
    = Raised (AuthError MSG_AUTH_FAILED b)
    /\ fst <$> b = ERROR_BUNDLE_KEYS
    /\ bundle_field b "middleware_stack"
       = w_request (snd (AuthMiddleWare_authorize depth self w)) !! "middleware_stack"
    /\ bundle_field b "middleware_stack" = Some stack
    /\ bundle_field b "layer" = Some (VClass (inst_class self))
    /\ bundle_field b "authorizer_error"
       = Some (VTuple [fst (authorizer_authorize a (w_request w));
                       snd (authorizer_authorize a (w_request w))])
    /\ bundle_field b "request_dump"
       = Some (VDict (w_request (snd (AuthMiddleWare_authorize depth self w)))).
Proof.
  intros Hk Hl Hstack Hpre Ha.
  rewrite (authorize_unfold _ _ _ _ Hk), Hl.
  rewrite (authorize_loop_first_unsafe _ _ _ _ _ _ Hpre Ha Hstack).
  eexists. split; [reflexivity|]. cbn. by rewrite Hstack.
Qed.

(** ** Stacked delegation *)

Lemma stacked_loop_cons enter c (l : list layer) response (w : world) :
  stacked_loop enter (c :: l) response w
  = match enter c response w with
    | (Returned r, w') => stacked_loop enter l r w'
    | (Raised e, w') => (Raised e, w')
    end.
Proof. reflexivity. Qed.

(** The loop over a list that ends in [c] is the loop over what comes
    before, and then one entry into [c] whose result is the result. *)
Lemma stacked_loop_snoc enter (l : list layer) c response (w : world) :
  stacked_loop enter (l ++ [c]) response w
  = match stacked_loop enter l response w with
    | (Returned r, w') => enter c r w'
    | (Raised e, w') => (Raised e, w')
    end.
Proof.
  revert response w. induction l as [|c0 l IH]; intros response w.
  - cbn. unfold bind. by destruct (enter c response w) as [[r|e] w'].
  - change ((c0 :: l) ++ [c]) with (c0 :: (l ++ [c])).
    rewrite !stacked_loop_cons.
    destruct (enter c0 response w) as [[r|e] w']; [apply IH|reflexivity].
Qed.

Lemma last_cons_default {A} (a : A) (l : list A) (d1 d2 : A) :
  List.last (a :: l) d1 = List.last (a :: l) d2.
Proof.
  revert a. induction l as [|b l IH]; intros a; [reflexivity|].
  change (List.last (b :: l) d1 = List.last (b :: l) d2). apply IH.
Qed.

Lemma stacked_loop_hands_on enter (l : list layer) response (w : world)
  (rs : list pyval) (w_end : world) :
  hands_on enter l response w rs w_end ->
  stacked_loop enter l response w = (Returned (List.last rs response), w_end).
Proof.
  revert response w rs. induction l as [|c l IH]; intros response w rs H.
  - destruct rs; [|done]. cbn in H. by subst.
  - destruct rs as [|r rs]; [done|]. destruct H as (w' & He & H).
    rewrite stacked_loop_cons, He, (IH _ _ _ H).
    destruct rs as [|r' rs]; [reflexivity|].
    do 2 f_equal. change (List.last (r' :: rs) r = List.last (r' :: rs) response).
    apply last_cons_default.
Qed.

(** C7.  The default [delegate] of a stacked layer enters the sub-layer
    types of its list in order: the first with the response it was passed,
    each next one with the response the one before returned (on the request
    of the world as that one left it), and it returns what the last one
    returned; with nothing stacked it returns the response it was passed. *)
Theorem C7_stacked_delegate_threads_the_response
  (depth : nat) (self : instance) (k : layer) (response : pyval) (w : world) :
  stacked_owner self = Some k ->
  StackedAuthMiddleWare_delegate depth (process_request depth) self response w
  = stacked_loop (process_request depth) (STACKED_MIDDLEWARES k) response w
  /\ (forall enter r0 w0, stacked_loop enter [] r0 w0 = (Returned r0, w0))
  /\ (forall enter c l r0 w0,
         stacked_loop enter (c :: l) r0 w0
         = match enter c r0 w0 with
           | (Returned r, w') => stacked_loop enter l r w'
           | (Raised e, w') => (Raised e, w')
           end)
  /\ (forall enter l c r0 w0,
         stacked_loop enter (l ++ [c]) r0 w0
         = match stacked_loop enter l r0 w0 with
           | (Returned r, w') => enter c r w'
           | (Raised e, w') => (Raised e, w')
           end)
  /\ (forall enter l r0 w0 rs w_end,
         hands_on enter l r0 w0 rs w_end ->
         stacked_loop enter l r0 w0 = (Returned (List.last rs r0), w_end)).
Proof.
  intros Hk. repeat split.
  - unfold StackedAuthMiddleWare_delegate,
      StackedAuthMiddleWare__get_stacked_middlewares.
    by rewrite Hk.
  - intros. apply stacked_loop_snoc.
  - intros. by apply stacked_loop_hands_on.
Qed.

(** ** The identity layer *)

Lemma stacked_loop_single enter c response (w : world) :
  stacked_loop enter [c] response w = enter c response w.
Proof.
  cbn. unfold bind. by destruct (enter c response w) as [[r|e] w'].
Qed.

(** C8.  When the request asks for authentication, the [delegate] of the
    identity layer stores the token (element 1 of the request's token
    header field) under the same field of the response and returns that
    response at once: the world is untouched, so no sub-layer was entered
    and the router was not called.  When the request does not ask, whatever
    else it holds (a token header or none), the call is the stacked
    delegation, which for the identity layer is one entry into the view
    layer. *)
Theorem C8_identity_delegate_short_circuits
  (depth : nat) (enter : layer -> pyval -> M pyval) (self : instance)
  (w : world) :
  inst_class self = IdentityAuthMiddleWare ->
  (is_requesting_authentication (w_request w) = true ->
   forall (d : gmap string pyval) (header token : pyval),
     w_request w !! TOKEN_HEADER = Some header ->
     py_index header 1 = Returned token ->
     IdentityAuthMiddleWare_delegate depth enter self (VDict d) w
     = (Returned (VDict (<[TOKEN_HEADER := token]> d)), w))
  /\ (is_requesting_authentication (w_request w) = false ->
      forall response,
        IdentityAuthMiddleWare_delegate depth enter self response w
        = StackedAuthMiddleWare_delegate depth enter self response w
        /\ StackedAuthMiddleWare_delegate depth enter self response w
           = enter ViewAuthMiddleWare response w).
Proof.
  intros Hc. split.
  - intros Hask d header token Hh Ht.
    unfold IdentityAuthMiddleWare_delegate, bind, gets. cbn.
    rewrite Hask. unfold request_item. rewrite Hh. unfold lift. by rewrite Ht.
  - intros Hask response. split.
    + unfold IdentityAuthMiddleWare_delegate, bind, gets. cbn. by rewrite Hask.
    + unfold StackedAuthMiddleWare_delegate,
        StackedAuthMiddleWare__get_stacked_middlewares, stacked_owner.
      rewrite Hc. change (stacked_loop enter [ViewAuthMiddleWare] response w
                          = enter ViewAuthMiddleWare response w).
      apply stacked_loop_single.
Qed.

(** ** The execution trace *)

Lemma entered_app (l1 l2 : list event) :
  entered (l1 ++ l2) = entered l1 ++ entered l2.
Proof.
  induction l1 as [|e l1 IH]; [reflexivity|].
  destruct e; cbn; by rewrite IH.
Qed.

#[local] Instance extends_trace_preorder : PreOrder extends_trace.
Proof.
  split.
  - intros w Hok. split; [done|]. exists []. cbn. by rewrite !app_nil_r.
  - intros w1 w2 w3 H12 H23 Hok.
    destruct (H12 Hok) as (Hok2 & d1 & Hl1 & Ht1).
    destruct (H23 Hok2) as (Hok3 & d2 & Hl2 & Ht2).
    split; [done|]. exists (d1 ++ d2).
    rewrite Hl2, Hl1, Ht2, Ht1, entered_app, fmap_app, !app_assoc. done.
Qed.

Lemma extends_trace_same (w w' : world) :
  w_request w' = w_request w -> w_log w' = w_log w -> extends_trace w w'.
Proof.
  intros Hr Hl Hok. rewrite Hr, Hl. split; [done|].
  exists []. cbn. by rewrite !app_nil_r.
Qed.

Lemma extends_trace_quiet (w : world) (e : event) :
  entered [e] = [] -> extends_trace w (add_log e w).
Proof.
  intros He Hok. split; [done|]. exists [e]. cbn [add_log w_log w_request].
  rewrite He. cbn. by rewrite app_nil_r.
Qed.

Lemma extends_trace_emit e :
  entered [e] = [] -> preserves extends_trace (emit e).
Proof. intros He. apply preserves_modify. intros w. by apply extends_trace_quiet. Qed.

Lemma extends_trace_set_auth k l :
  preserves extends_trace (modify (set_auth k l)).
Proof. apply preserves_modify. intros w. by apply extends_trace_same. Qed.

Lemma extends_trace_set_instance cls v :
  preserves extends_trace (modify (set_instance cls v)).
Proof. apply preserves_modify. intros w. by apply extends_trace_same. Qed.

Ltac trace_step :=
  first
    [ apply extends_trace_emit; reflexivity
    | apply extends_trace_set_auth
    | apply extends_trace_set_instance
    | apply preserves_bind_instantiate;
        [apply _
        |intros ? ? _; etrans;
           [apply extends_trace_same | apply extends_trace_quiet]; reflexivity
        |intros ? _ _]
    | preserve_step ].

Lemma extends_trace_init_loop k n ii :
  preserves extends_trace (init_loop k n ii).
Proof.
  revert ii. induction n as [|n IH]; intros ii; cbn [init_loop].
  - preserve_step.
  - unfold call_auth. repeat trace_step. apply IH.
Qed.

Lemma extends_trace_invoke_init depth x :
  preserves extends_trace (invoke_init depth x).
Proof.
  unfold invoke_init, AuthMiddleWare__init. repeat trace_step;
    apply extends_trace_init_loop.
Qed.

Lemma extends_trace_ensure_instance depth cls :
  preserves extends_trace (ensure_instance depth cls).
Proof.
  unfold ensure_instance.
  repeat first [ apply extends_trace_invoke_init | trace_step ].
Qed.

Lemma extends_trace_authorize_loop self l :
  preserves extends_trace (authorize_loop self l).
Proof.
  induction l as [|a l IH]; cbn [authorize_loop]; [preserve_step|].
  unfold call_authorizer. repeat trace_step. apply IH.
Qed.

Lemma extends_trace_invoke_authorize depth x :
  preserves extends_trace (invoke_authorize depth x).
Proof.
  unfold invoke_authorize, AuthMiddleWare_authorize, AuthMiddleWare__get_authorizers.
  repeat trace_step; apply extends_trace_authorize_loop.
Qed.

Lemma extends_trace_invoke_process depth x response :
  preserves extends_trace (invoke_process depth x response).
Proof.
  unfold invoke_process, AuthMiddleWare_process, ViewAuthMiddleWare_process,
    IdentityAuthMiddleWare_process.
  repeat trace_step.
Qed.

Lemma extends_trace_invoke_delegate depth enter x response :
  (forall c r, preserves extends_trace (enter c r)) ->
  preserves extends_trace (invoke_delegate depth enter x response).
Proof.
  intros He.
  unfold invoke_delegate, AuthMiddleWare_delegate, ViewAuthMiddleWare_delegate,
    IdentityAuthMiddleWare_delegate, StackedAuthMiddleWare_delegate,
    StackedAuthMiddleWare__get_stacked_middlewares.
  repeat trace_step;
    (apply preserves_stacked_loop; [apply _|intros; apply He]).
Qed.

Lemma extends_trace_through_layer depth enter cls response :
  (forall c r, preserves extends_trace (enter c r)) ->
  preserves extends_trace (through_layer depth enter cls response).
Proof.
  intros He. unfold through_layer, run_hooks.
  repeat first
    [ apply extends_trace_ensure_instance
    | apply extends_trace_invoke_authorize
    | apply extends_trace_invoke_process
    | apply extends_trace_invoke_delegate
    | trace_step ].
  exact He.
Qed.

(** The first two statements of [process_request] on a request whose
    trace field is absent or a list. *)
Lemma entry_appends cls (w : world) :
  trace_ok (w_request w) = true ->
  exists w1,
    bind (emit (EvEnter cls))
      (fun _ => RequestOp_appendParam "middleware_stack" (VClass cls)) w
    = (Returned tt, w1)
    /\ w_log w1 = w_log w ++ [EvEnter cls]
    /\ trace_of (w_request w1) = trace_of (w_request w) ++ [VClass cls]
    /\ trace_ok (w_request w1) = true
    /\ w_instance w1 = w_instance w /\ w_auth w1 = w_auth w
    /\ w_next w1 = w_next w
    /\ w_request w1
       = <["middleware_stack" := VList (trace_of (w_request w) ++ [VClass cls])]>
           (w_request w).
Proof.
  intros Hok. unfold bind, emit, modify, RequestOp_appendParam. cbn.
  unfold trace_ok, trace_of in *.
  destruct (w_request w !! "middleware_stack") as [[]|] eqn:E; try done;
    (eexists; split; [reflexivity|]); cbn; rewrite lookup_insert_eq; done.
Qed.

Lemma process_request_enters depth cls response (w : world) :
  trace_ok (w_request w) = true ->
  exists w1,
    process_request (S depth) cls response w
    = through_layer depth (process_request depth) cls response w1
    /\ w_log w1 = w_log w ++ [EvEnter cls]
    /\ trace_of (w_request w1) = trace_of (w_request w) ++ [VClass cls]
    /\ trace_ok (w_request w1) = true
    /\ w_instance w1 = w_instance w /\ w_auth w1 = w_auth w
    /\ w_next w1 = w_next w
    /\ w_request w1
       = <["middleware_stack" := VList (trace_of (w_request w) ++ [VClass cls])]>
           (w_request w).
Proof.
  intros Hok. destruct (entry_appends cls w Hok) as (w1 & Hrun & Hrest).
  exists w1. split; [|exact Hrest].
  cbn [process_request]. rewrite isabstract_source.
  rewrite <- bind_assoc. by rewrite (bind_returned _ _ _ _ _ Hrun).
Qed.

Lemma extends_trace_process_request depth cls response :
  preserves extends_trace (process_request depth cls response).
Proof.
  revert cls response. induction depth as [|depth IH]; intros cls response;
    [cbn [process_request]; preserve_step|].
  intros w Hok.
  destruct (process_request_enters depth cls response w Hok)
    as (w1 & -> & Hl & Ht & Hok1 & _).
  destruct (extends_trace_through_layer depth _ cls response IH w1 Hok1)
    as (Hok' & delta & Hl' & Ht').
  split; [done|]. exists (EvEnter cls :: delta).
  rewrite Hl', Hl, Ht', Ht. cbn. by rewrite <- !app_assoc.
Qed.

(** C2.  An invocation of [process_request] whose body starts appends the
    invoked class to the trace of the request, creating the list when the
    request has none; whatever the invocation then returns or raises, the
    trace at the end is the trace at the start, then the invoked class,
    then one entry for each nested invocation in the order they started:
    nothing is dropped and nothing is reordered. *)
Theorem C2_each_entry_appends_its_layer
  (depth : nat) (cls : layer) (response : pyval) (w : world) :
  trace_ok (w_request w) = true ->
  let w' := snd (process_request (S depth) cls response w) in
  exists rest,
    w_log w' = w_log w ++ EvEnter cls :: rest
    /\ trace_of (w_request w')
       = trace_of (w_request w) ++ VClass cls :: (VClass <$> entered rest)
    /\ w_request w' !! "middleware_stack" = Some (VList (trace_of (w_request w')))
    /\ length (trace_of (w_request w'))
       = length (trace_of (w_request w)) + length (entered (EvEnter cls :: rest)).
Proof.
  intros Hok w'. subst w'.
  destruct (process_request_enters depth cls response w Hok)
    as (w1 & -> & Hl & Ht & Hok1 & _).
  destruct (extends_trace_through_layer depth _ cls response
              (extends_trace_process_request depth) w1 Hok1)
    as (Hok' & delta & Hl' & Ht').
  set (w' := snd (through_layer depth (process_request depth) cls response w1)) in *.
  assert (Htr : trace_of (w_request w')
                = trace_of (w_request w) ++ VClass cls :: (VClass <$> entered delta)).
  { rewrite Ht', Ht. by rewrite <- app_assoc. }
  exists delta. split; [|split; [|split]].
  - rewrite Hl', Hl. by rewrite <- app_assoc.
  - exact Htr.
  - assert (Hne : trace_of (w_request w') <> []).
    { rewrite Htr. by destruct (trace_of (w_request w)). }
    unfold trace_of in Hne |- *.
    by destruct (w_request w' !! "middleware_stack") as [[]|].
  - rewrite Htr, length_app. cbn. by rewrite length_fmap.
Qed.

(** ** One instance per layer type *)

Lemma count_new_app c (l1 l2 : list event) :
  count_new c (l1 ++ l2) = count_new c l1 + count_new c l2.
Proof.
  induction l1 as [|e l1 IH]; [reflexivity|].
  destruct e; cbn; rewrite IH; lia.
Qed.

Lemma count_init_app c (l1 l2 : list event) :
  count_init c (l1 ++ l2) = count_init c l1 + count_init c l2.
Proof.
  induction l1 as [|e l1 IH]; [reflexivity|].
  destruct e; cbn; rewrite IH; lia.
Qed.

(** The first entry into a concrete class builds its singleton. *)
Lemma ensure_instance_fresh depth cls (w : world) :
  is_concrete cls = true ->
  fresh_layer w AuthMiddleWare -> fresh_layer w StackedAuthMiddleWare ->
  fresh_layer w cls ->
  exists w1 i creation,
    ensure_instance depth cls w = (Returned tt, w1)
    /\ i = {| inst_id := w_next w; inst_class := cls; inst_dict := ∅ |}
    /\ w_instance w1 cls = Some (Some i)
    /\ (forall k, k <> cls -> w_instance w1 k = w_instance w k)
    /\ w_auth w1 cls = instantiated (initial_auth cls)
    /\ (forall k, k <> cls -> w_auth w1 k = w_auth w k)
    /\ w_request w1 = w_request w
    /\ w_log w1 = w_log w ++ creation
    /\ forallb creation_event creation = true
    /\ entered creation = []
    /\ count_new cls creation = 1 /\ count_init cls creation = 1
    /\ (forall k, k <> cls -> count_new k creation = 0 /\ count_init k creation = 0).
Proof.
  intros Hc (Ha & _ & _ & _) (Hs & _ & _ & _) (Hi & _ & _ & Hl).
  apply is_concrete_spec in Hc as [-> | ->];
    unfold ensure_instance, bind, gets, modify, class_getattr_instance,
      class_instance; simpl; rewrite ?Hi, ?Hs, ?Ha; simpl;
    unfold invoke_init; simpl; unfold bind, emit, modify; simpl;
    unfold AuthMiddleWare__init, auth_owner, bind, gets; simpl;
    repeat (rewrite Hl; simpl; unfold bind, gets, emit, modify; simpl).
  - eexists _, _, [_; _; _; _]. split; [reflexivity|].
    simpl. repeat split; rewrite <- ?app_assoc; try done;
      try (destruct k; done).
  - eexists _, _, [_; _; _]. split; [reflexivity|].
    simpl. repeat split; rewrite <- ?app_assoc; try done;
      try (destruct k; done).
Qed.

Lemma ensure_instance_built depth cls (w : world) (i : instance) :
  w_instance w cls = Some (Some i) ->
  ensure_instance depth cls w = (Returned tt, w)
  /\ class_getattr_instance cls w = (Returned (Some i), w).
Proof.
  intros Hi.
  assert (Hc : class_instance (w_instance w) cls = Some (Some i)).
  { unfold class_instance. destruct cls; simpl; by rewrite Hi. }
  unfold ensure_instance, class_getattr_instance, bind, gets, ret.
  cbv beta. rewrite !Hc. cbv beta iota. by rewrite ?Hc.
Qed.

Lemma fresh_layer_frame (w w1 : world) k (delta : list event) :
  w_instance w1 k = w_instance w k ->
  w_auth w1 k = w_auth w k ->
  w_log w1 = w_log w ++ delta ->
  count_new k delta = 0 -> count_init k delta = 0 ->
  fresh_layer w k -> fresh_layer w1 k.
Proof.
  intros Hi Ha Hl Hn Hin (H1 & H2 & H3 & H4). unfold fresh_layer.
  rewrite Hi, Ha, Hl, count_new_app, count_init_app. repeat split; (done || lia).
Qed.

Lemma built_layer_frame (w w1 : world) k i (delta : list event) :
  w_instance w1 k = w_instance w k ->
  w_auth w1 k = w_auth w k ->
  w_log w1 = w_log w ++ delta ->
  count_new k delta = 0 -> count_init k delta = 0 ->
  built_layer w k i -> built_layer w1 k i.
Proof.
  intros Hi Ha Hl Hn Hin (H1 & H2 & H3 & H4 & H5). unfold built_layer.
  rewrite Hi, Ha, Hl, count_new_app, count_init_app. repeat split; (done || lia).
Qed.

Lemma layer_ok_frame (w w1 : world) k (delta : list event) :
  w_instance w1 k = w_instance w k ->
  w_auth w1 k = w_auth w k ->
  w_log w1 = w_log w ++ delta ->
  count_new k delta = 0 -> count_init k delta = 0 ->
  layer_ok w k -> layer_ok w1 k.
Proof.
  intros Hi Ha Hl Hn Hin [H | [i H]]; [left|right; exists i];
    [eapply fresh_layer_frame | eapply built_layer_frame]; eauto.
Qed.

(** Entering a concrete class in a process that only ever entered concrete
    classes: afterwards the class caches its singleton, and the classes
    that already had one keep it. *)
Lemma ensure_instance_singletons depth cls (w : world) :
  is_concrete cls = true ->
  singletons w ->
  exists w1 i creation,
    ensure_instance depth cls w = (Returned tt, w1)
    /\ class_getattr_instance cls w1 = (Returned (Some i), w1)
    /\ built_layer w1 cls i
    /\ singletons w1
    /\ (forall c j, built_layer w c j -> built_layer w1 c j)
    /\ w_request w1 = w_request w
    /\ w_log w1 = w_log w ++ creation
    /\ forallb creation_event creation = true
    /\ entered creation = []
    /\ (fresh_layer w cls ->
        i = {| inst_id := w_next w; inst_class := cls; inst_dict := ∅ |}).
Proof.
  intros Hc (Ha & Hs & Hv & Hi).
  assert (Hcls : layer_ok w cls).
  { apply is_concrete_spec in Hc as [-> | ->]; done. }
  destruct Hcls as [Hfresh | [i Hbuilt]].
  - destruct (ensure_instance_fresh depth cls w Hc Ha Hs Hfresh)
      as (w1 & i & creation & Hrun & Hi0 & Hinst & Hinst' & Hauth & Hauth'
          & Hreq & Hlog & Hcr & Hent & Hn & Hin & Hother).
    assert (Hb : built_layer w1 cls i).
    { destruct Hfresh as (_ & F2 & F3 & _). unfold built_layer.
      rewrite Hinst, Hauth, Hlog, count_new_app, count_init_app, Hi0.
      repeat split; (done || lia). }
    assert (Hframe : forall k, k <> cls -> layer_ok w k -> layer_ok w1 k).
    { intros k Hk. destruct (Hother k Hk).
      apply (layer_ok_frame w w1 k creation); auto. }
    assert (Hfr : forall k, k <> cls -> fresh_layer w k -> fresh_layer w1 k).
    { intros k Hk. destruct (Hother k Hk).
      apply (fresh_layer_frame w w1 k creation); auto. }
    exists w1, i, creation. split_and!; try done.
    + unfold class_getattr_instance, class_instance.
      apply is_concrete_spec in Hc as [-> | ->]; simpl; by rewrite Hinst.
    + apply is_concrete_spec in Hc as [-> | ->]; split_and!;
        solve [ by apply Hfr | by right; exists i | by apply Hframe ].
    + intros c j Hj. destruct (decide (c = cls)) as [-> | Hne].
      * destruct Hj as (Hj & _), Hfresh as (Hf & _). congruence.
      * destruct (Hother c Hne).
        apply (built_layer_frame w w1 c j creation); auto.
  - destruct (ensure_instance_built depth cls w i) as [Hrun Hget];
      [apply Hbuilt|].
    exists w, i, []. rewrite app_nil_r. split_and!; try done.
    intros (Hf & _). destruct Hbuilt as (Hb & _). congruence.
Qed.

#[local] Instance keeps_singletons_preorder : PreOrder keeps_singletons.
Proof.
  split.
  - intros w Hs. by split.
  - intros w1 w2 w3 H12 H23 Hs.
    destruct (H12 Hs) as [Hs2 Hb2]. destruct (H23 Hs2) as [Hs3 Hb3].
    split; [done|]. intros c i Hb. by apply Hb3, Hb2.
Qed.

Lemma keeps_singletons_quiet (w w' : world) (delta : list event) :
  w_instance w' = w_instance w ->
  w_auth w' = w_auth w ->
  w_log w' = w_log w ++ delta ->
  (forall c, count_new c delta = 0 /\ count_init c delta = 0) ->
  keeps_singletons w w'.
Proof.
  intros Hi Ha Hl Hq (Hb1 & Hb2 & Hv & Hid).
  assert (Hf : forall k, fresh_layer w k -> fresh_layer w' k).
  { intros k. destruct (Hq k).
    apply (fresh_layer_frame w w' k delta); by rewrite ?Hi, ?Ha. }
  assert (Hb : forall k i, built_layer w k i -> built_layer w' k i).
  { intros k i. destruct (Hq k).
    apply (built_layer_frame w w' k i delta); by rewrite ?Hi, ?Ha. }
  assert (Ho : forall k, layer_ok w k -> layer_ok w' k).
  { intros k [H | [i H]]; [left; by apply Hf | right; exists i; by apply Hb]. }
  split; [|exact Hb]. unfold singletons. split_and!; auto.
Qed.

Lemma keeps_singletons_emit e :
  (forall c, count_new c [e] = 0 /\ count_init c [e] = 0) ->
  preserves keeps_singletons (emit e).
Proof.
  intros He. apply preserves_modify. intros w.
  by apply (keeps_singletons_quiet w (add_log e w) [e]).
Qed.

Lemma keeps_singletons_appendParam key v :
  preserves keeps_singletons (RequestOp_appendParam key v).
Proof.
  intros w. apply (keeps_singletons_quiet _ _ []);
    unfold RequestOp_appendParam;
    destruct (w_request w !! key) as [[]|]; cbn; by rewrite ?app_nil_r.
Qed.

Ltac singles_step :=
  first
    [ apply keeps_singletons_emit; intros ?; split; reflexivity
    | apply keeps_singletons_appendParam
    | preserve_step ].

Lemma keeps_singletons_ensure_instance depth cls :
  is_concrete cls = true ->
  preserves keeps_singletons (ensure_instance depth cls).
Proof.
  intros Hc w Hs.
  destruct (ensure_instance_singletons depth cls w Hc Hs)
    as (w1 & i & creation & -> & _ & _ & Hs1 & Hmono & _).
  by split.
Qed.

Lemma keeps_singletons_authorize_loop self l :
  preserves keeps_singletons (authorize_loop self l).
Proof.
  induction l as [|a l IH]; cbn [authorize_loop]; [preserve_step|].
  unfold call_authorizer. repeat singles_step. apply IH.
Qed.

Lemma keeps_singletons_invoke_authorize depth x :
  preserves keeps_singletons (invoke_authorize depth x).
Proof.
  unfold invoke_authorize, AuthMiddleWare_authorize, AuthMiddleWare__get_authorizers.
  repeat singles_step; apply keeps_singletons_authorize_loop.
Qed.

Lemma keeps_singletons_invoke_process depth x response :
  preserves keeps_singletons (invoke_process depth x response).
Proof.
  unfold invoke_process, AuthMiddleWare_process, ViewAuthMiddleWare_process,
    IdentityAuthMiddleWare_process.
  repeat singles_step.
Qed.

(** Only concrete layer types are stacked. *)
Lemma stacked_are_concrete k c :
  c ∈ STACKED_MIDDLEWARES k -> is_concrete c = true.
Proof.
  destruct k; cbn; intros H; try by apply elem_of_nil in H.
  apply list_elem_of_singleton in H. by subst.
Qed.

Lemma keeps_singletons_invoke_delegate depth enter x response :
  (forall c r, is_concrete c = true -> preserves keeps_singletons (enter c r)) ->
  preserves keeps_singletons (invoke_delegate depth enter x response).
Proof.
  intros He.
  unfold invoke_delegate, AuthMiddleWare_delegate, ViewAuthMiddleWare_delegate,
    IdentityAuthMiddleWare_delegate.
  repeat first
    [ apply preserves_stacked_delegate;
        [apply _
        |intros k c' r' Hin; apply He; by apply stacked_are_concrete in Hin]
    | singles_step ].
Qed.

Lemma keeps_singletons_run_hooks depth enter cls response :
  (forall c r, is_concrete c = true -> preserves keeps_singletons (enter c r)) ->
  preserves keeps_singletons (run_hooks depth enter cls response).
Proof.
  intros He. unfold run_hooks.
  repeat first
    [ apply keeps_singletons_invoke_authorize
    | apply keeps_singletons_invoke_process
    | apply keeps_singletons_invoke_delegate; exact He
    | singles_step ].
Qed.

Lemma keeps_singletons_through_layer depth enter cls response :
  is_concrete cls = true ->
  (forall c r, is_concrete c = true -> preserves keeps_singletons (enter c r)) ->
  preserves keeps_singletons (through_layer depth enter cls response).
Proof.
  intros Hc He. unfold through_layer.
  apply preserves_bind; [apply _| |intros _].
  - by apply keeps_singletons_ensure_instance.
  - by apply keeps_singletons_run_hooks.
Qed.

Lemma keeps_singletons_process_request depth cls response :
  is_concrete cls = true ->
  preserves keeps_singletons (process_request depth cls response).
Proof.
  revert cls response. induction depth as [|depth IH]; intros cls response Hc;
    cbn [process_request]; [preserve_step|].
  rewrite isabstract_source.
  repeat first
    [ apply keeps_singletons_through_layer; [exact Hc | exact IH]
    | singles_step ].
Qed.

Lemma singletons_initial (r : request) : singletons (initial_world r).
Proof. unfold singletons, layer_ok, fresh_layer. cbn. by split_and!; try left. Qed.

Lemma singletons_set_request (r : request) (w : world) :
  singletons w -> singletons (set_request r w).
Proof. done. Qed.

Lemma reachable_singletons (w : world) : reachable w -> singletons w.
Proof.
  induction 1 as [r | depth cls req response w Hc Hr IH].
  - apply singletons_initial.
  - unfold serve.
    by apply (keeps_singletons_process_request depth cls response Hc
                (set_request req w)).
Qed.

Lemma singletons_counts (w : world) (c : layer) :
  singletons w ->
  count_new c (w_log w) <= 1 /\ count_init c (w_log w) = count_new c (w_log w).
Proof.
  intros (Ha & Hs & Hv & Hi).
  assert (Hf : forall k, fresh_layer w k ->
                 count_new k (w_log w) <= 1
                 /\ count_init k (w_log w) = count_new k (w_log w)).
  { intros k (_ & -> & -> & _). lia. }
  assert (Ho : forall k, layer_ok w k ->
                 count_new k (w_log w) <= 1
                 /\ count_init k (w_log w) = count_new k (w_log w)).
  { intros k [H | [i (_ & _ & -> & -> & _)]]; [by apply Hf | lia]. }
  destruct c; auto.
Qed.

(** One call of the entry point on a concrete class, in a process that
    only ever entered concrete classes, on a request whose trace can be
    appended to. *)
Lemma serve_builds depth cls (req : request) response (w : world) :
  is_concrete cls = true ->
  singletons w ->
  trace_ok req = true ->
  let w' := snd (serve (S depth) cls req response w) in
  exists i,
    built_layer w' cls i
    /\ singletons w'
    /\ (forall c j, built_layer w c j -> built_layer w' c j)
    /\ (fresh_layer w cls ->
        i = {| inst_id := w_next w; inst_class := cls; inst_dict := ∅ |}).
Proof.
  intros Hc Hs Hok w'. subst w'. unfold serve.
  set (w0 := set_request req w).
  destruct (process_request_enters depth cls response w0 Hok)
    as (w1 & -> & Hl & _ & _ & Hi & Ha & Hn & _).
  assert (Hq : keeps_singletons w0 w1).
  { apply (keeps_singletons_quiet w0 w1 [EvEnter cls]); try done. }
  destruct (Hq Hs) as [Hs1 Hm1].
  destruct (ensure_instance_singletons depth cls w1 Hc Hs1)
    as (w2 & i & creation & Hrun & _ & Hb & Hs2 & Hm2 & _ & _ & _ & _ & Hid).
  unfold through_layer. rewrite (bind_returned _ _ _ _ _ Hrun).
  destruct (keeps_singletons_run_hooks depth (process_request depth) cls response
              (fun c r Hcr => keeps_singletons_process_request depth c r Hcr)
              w2 Hs2) as [Hs3 Hm3].
  exists i. split; [by apply Hm3|]. split; [exact Hs3|]. split.
  - intros c j Hj. apply Hm3, Hm2, Hm1. exact Hj.
  - intros Hf. rewrite Hid; [by rewrite Hn|].
    apply (fresh_layer_frame w0 w1 cls [EvEnter cls]); try done;
      by rewrite ?Hi, ?Ha.
Qed.

(** In a process where only concrete layer types are entered, two
    invocations of the entry point on the same concrete type use one and
    the same cached instance: the second one finds the instance the first
    one left, creates none, and does not run [_init] again.  Over the life
    of such a process there is exactly one instance of the type, [_init]
    ran exactly once on it, and its authorizer list holds instances; no
    concrete type ever has more than one instance. *)
Lemma one_singleton_when_only_concrete_layers_are_entered
  (d1 d2 : nat) (cls : layer) (req1 req2 : request) (resp1 resp2 : pyval)
  (w : world) :
  is_concrete cls = true ->
  reachable w ->
  trace_ok req1 = true ->
  trace_ok req2 = true ->
  let w1 := snd (serve (S d1) cls req1 resp1 w) in
  let w2 := snd (serve (S d2) cls req2 resp2 w1) in
  exists i,
    inst_class i = cls
    /\ w_instance w1 cls = Some (Some i)
    /\ w_instance w2 cls = Some (Some i)
    /\ count_new cls (w_log w1) = 1 /\ count_new cls (w_log w2) = 1
    /\ count_init cls (w_log w1) = 1 /\ count_init cls (w_log w2) = 1
    /\ w_auth w1 cls = instantiated (initial_auth cls)
    /\ w_auth w2 cls = w_auth w1 cls
    /\ (w_instance w cls = None ->
        i = {| inst_id := w_next w; inst_class := cls; inst_dict := ∅ |})
    /\ (forall c, count_new c (w_log w2) <= 1
                  /\ count_init c (w_log w2) = count_new c (w_log w2)).
Proof.
  intros Hc Hr Hok1 Hok2 w1 w2.
  pose proof (reachable_singletons w Hr) as Hs.
  destruct (serve_builds d1 cls req1 resp1 w Hc Hs Hok1)
    as (i & Hb1 & Hs1 & _ & Hid).
  destruct (serve_builds d2 cls req2 resp2 w1 Hc Hs1 Hok2)
    as (j & _ & Hs2 & Hm & _).
  fold w1 in Hb1, Hs1, Hm. fold w2 in Hs2, Hm.
  pose proof (Hm cls i Hb1) as Hb2.
  destruct Hb1 as (B1 & B2 & B3 & B4 & B5).
  destruct Hb2 as (C1 & C2 & C3 & C4 & C5).
  exists i. split_and!; try done.
  - congruence.
  - intros Hnone. apply Hid.
    assert (Hcls : layer_ok w cls).
    { destruct Hs as (_ & _ & Hv & Hi').
      apply is_concrete_spec in Hc as [-> | ->]; done. }
    destruct Hcls as [Hf | [k (Hk & _)]]; [done | congruence].
  - intros c. by apply singletons_counts.
Qed.

(** ** The order of the steps *)

(** [authorize] leaves the world as it found it, but for the checks it
    logged. *)
Lemma authorize_loop_only_checks self (l : list auth_entry) (w : world) :
  exists checks,
    snd (authorize_loop self l w) = log_more (EvCheck <$> checks) w.
Proof.
  revert w. induction l as [|a l IH]; intros w.
  - exists []. cbn. by rewrite log_more_nil.
  - cbn [authorize_loop]. destruct a as [a|a].
    + exists []. cbn. by rewrite log_more_nil.
    + unfold bind at 1. cbn.
      destruct (in_SAFE_CODES (authorizer_authorize a (w_request w)).1).
      * destruct (IH (add_log (EvCheck a) w)) as [checks ->].
        exists (a :: checks). by rewrite add_log_log_more, log_more_app.
      * exists [a]. unfold bind, request_item. cbn.
        destruct (w_request w !! "middleware_stack"); reflexivity.
Qed.

Lemma authorize_only_checks depth self (w : world) :
  exists checks,
    snd (AuthMiddleWare_authorize depth self w) = log_more (EvCheck <$> checks) w.
Proof.
  unfold AuthMiddleWare_authorize, AuthMiddleWare__get_authorizers.
  destruct (auth_owner self) as [k|].
  - apply (authorize_loop_only_checks self (w_auth w k) w).
  - exists []. unfold bind, missing_attr. rewrite log_more_nil.
    by destruct (instance_getattr depth (w_instance w) self "AUTH_CLASSES").
Qed.

Lemma class_getattr_instance_same cls (w w' : world) v :
  class_getattr_instance cls w = (Returned v, w) ->
  w_instance w' = w_instance w ->
  class_getattr_instance cls w' = (Returned v, w').
Proof.
  unfold class_getattr_instance. intros H ->.
  destruct (class_instance (w_instance w) cls); [|done].
  by injection H as ->.
Qed.

(** The three calls on an instance of a concrete class, each with the
    event that marks it. *)
Lemma invoke_authorize_concrete depth (self : instance) (w : world) :
  is_concrete (inst_class self) = true ->
  invoke_authorize depth (Some self) w
  = AuthMiddleWare_authorize depth self (add_log (EvAuthorize self) w).
Proof.
  intros Hc. unfold invoke_authorize.
  apply is_concrete_spec in Hc as [Hc | Hc]; rewrite Hc; reflexivity.
Qed.

Lemma invoke_process_concrete depth (self : instance) response (w : world) :
  is_concrete (inst_class self) = true ->
  invoke_process depth (Some self) response w
  = (Returned VNone, add_log (EvProcess self) w).
Proof.
  intros Hc. unfold invoke_process.
  apply is_concrete_spec in Hc as [Hc | Hc]; rewrite Hc; reflexivity.
Qed.

Lemma invoke_delegate_logs depth (self : instance) response (w : world) :
  is_concrete (inst_class self) = true ->
  trace_ok (w_request w) = true ->
  exists rest,
    w_log (snd (invoke_delegate depth (process_request depth) (Some self)
                  response w))
    = w_log w ++ EvDelegate self :: rest.
Proof.
  intros Hc Hok.
  assert (Hq : trace_ok (w_request (add_log (EvDelegate self) w)) = true) by done.
  assert (He := extends_trace_process_request depth).
  apply is_concrete_spec in Hc as [Hc | Hc]; unfold invoke_delegate; rewrite Hc.
  - change (class_lookup source_classes ViewAuthMiddleWare "delegate")
      with (Some (ViewAuthMiddleWare, PlainMethod)). cbv iota beta.
    rewrite (bind_returned _ _ w (add_log (EvDelegate self) w) tt eq_refl).
    assert (Hp : preserves extends_trace (ViewAuthMiddleWare_delegate self response)).
    { unfold ViewAuthMiddleWare_delegate. repeat trace_step. }
    destruct (Hp _ Hq) as (_ & delta & -> & _).
    exists delta. cbn. by rewrite <- app_assoc.
  - change (class_lookup source_classes IdentityAuthMiddleWare "delegate")
      with (Some (IdentityAuthMiddleWare, PlainMethod)). cbv iota beta.
    rewrite (bind_returned _ _ w (add_log (EvDelegate self) w) tt eq_refl).
    assert (Hp : preserves extends_trace
                   (IdentityAuthMiddleWare_delegate depth (process_request depth)
                      self response)).
    { unfold IdentityAuthMiddleWare_delegate.
      repeat first
        [ apply preserves_stacked_delegate; [apply _ | intros; apply He]
        | trace_step ]. }
    destruct (Hp _ Hq) as (_ & delta & -> & _).
    exists delta. cbn. by rewrite <- app_assoc.
Qed.

(** ** What the entry point can raise *)

Lemma raises_only_ret {A} P (a : A) : raises_only P (ret a).
Proof. by intros w e. Qed.

Lemma raises_only_gets {A} P (f : world -> A) : raises_only P (gets f).
Proof. by intros w e. Qed.

Lemma raises_only_modify P (f : world -> world) : raises_only P (modify f).
Proof. by intros w e. Qed.

Lemma raises_only_raise {A} (P : pyexn -> Prop) (e : pyexn) :
  P e -> raises_only P (@raise A e).
Proof. intros He w e' [= <-]. exact He. Qed.

Lemma raises_only_lift {A} (P : pyexn -> Prop) (o : outcome A) :
  (forall e, o = Raised e -> P e) -> raises_only P (lift o).
Proof. intros Ho w e. apply Ho. Qed.

Lemma raises_only_bind {A B} P (m : M A) (k : A -> M B) :
  raises_only P m -> (forall a, raises_only P (k a)) ->
  raises_only P (bind m k).
Proof.
  intros Hm Hk w e. unfold bind. specialize (Hm w).
  destruct (m w) as [[a|e'] w']; cbn in *.
  - apply Hk.
  - intros [= <-]. by apply Hm.
Qed.

Lemma instance_getattr_not_abstract depth slots self name e :
  instance_getattr depth slots self name = Raised e -> not_abstract_error e.
Proof.
  revert name e. induction depth as [|depth IH]; intros name e;
    cbn [instance_getattr]; destruct (normal_lookup slots self name); try done.
  - by intros [= <-].
  - destruct (instance_getattr depth slots self private_dict)
      as [[v| | |]|e'] eqn:E; try by intros [= <-].
    + destruct v; cbn; try (by intros [= <-]).
      destruct (d !! name); [done | by intros [= <-]].
    + specialize (IH _ _ E). destruct e'; try done; by intros [= <-].
Qed.

Lemma raises_only_missing_attr {A} depth self name :
  raises_only not_abstract_error (@missing_attr A depth self name).
Proof.
  intros w e. unfold missing_attr.
  destruct (instance_getattr depth (w_instance w) self name) eqn:E; cbn.
  - by intros [= <-].
  - intros [= <-]. by apply (instance_getattr_not_abstract _ _ _ _ _ E).
Qed.

Lemma raises_only_request_item key :
  raises_only not_abstract_error (request_item key).
Proof.
  intros w e. unfold request_item.
  destruct (w_request w !! key); [done | by intros [= <-]].
Qed.

Lemma raises_only_class_getattr_instance cls :
  raises_only not_abstract_error (class_getattr_instance cls).
Proof.
  intros w e. unfold class_getattr_instance.
  destruct (class_instance (w_instance w) cls); [done | by intros [= <-]].
Qed.

Lemma raises_only_appendParam key v :
  raises_only not_abstract_error (RequestOp_appendParam key v).
Proof.
  intros w e. unfold RequestOp_appendParam.
  destruct (w_request w !! key) as [[]|]; cbn; try done; by intros [= <-].
Qed.

Lemma raises_only_bundle keys values :
  raises_only not_abstract_error (lift (CustomError_bundle keys values)).
Proof.
  apply raises_only_lift. intros e. unfold CustomError_bundle.
  destruct (_ && _); [done | by intros [= <-]].
Qed.

Lemma raises_only_py_index v n :
  raises_only not_abstract_error (lift (py_index v n)).
Proof.
  apply raises_only_lift. intros e. destruct v; cbn; try by intros [= <-].
  - destruct (String.get n s); [done | by intros [= <-]].
  - destruct (l !! n); [done | by intros [= <-]].
  - destruct (l !! n); [done | by intros [= <-]].
Qed.

Lemma raises_only_py_setitem v k x :
  raises_only not_abstract_error (lift (py_setitem v k x)).
Proof.
  apply raises_only_lift. intros e. destruct v; cbn; try done; by intros [= <-].
Qed.

Lemma raises_only_stacked_loop P enter s_mws :
  (forall c r, raises_only P (enter c r)) ->
  forall response, raises_only P (stacked_loop enter s_mws response).
Proof.
  intros He. induction s_mws as [|c rest IH]; intros response;
    cbn [stacked_loop].
  - apply raises_only_ret.
  - apply raises_only_bind; [apply He | exact IH].
Qed.

Ltac raises_step :=
  first
    [ apply raises_only_ret
    | apply raises_only_gets
    | apply raises_only_modify
    | apply raises_only_raise; exact I
    | apply raises_only_missing_attr
    | apply raises_only_request_item
    | apply raises_only_class_getattr_instance
    | apply raises_only_appendParam
    | apply raises_only_bundle
    | apply raises_only_py_index
    | apply raises_only_py_setitem
    | apply raises_only_bind; [|intros ?]
    | match goal with
      | |- raises_only _ (match ?x with _ => _ end) => destruct x
      end ].

Lemma raises_only_init_loop k n ii :
  raises_only not_abstract_error (init_loop k n ii).
Proof.
  revert ii. induction n as [|n IH]; intros ii; cbn [init_loop].
  - raises_step.
  - unfold call_auth, emit. repeat raises_step. apply IH.
Qed.

Lemma raises_only_authorize_loop self l :
  raises_only not_abstract_error (authorize_loop self l).
Proof.
  induction l as [|a l IH]; cbn [authorize_loop]; [raises_step|].
  unfold call_authorizer, emit. repeat raises_step. apply IH.
Qed.

Lemma raises_only_through_layer depth enter cls response :
  (forall c r, raises_only not_abstract_error (enter c r)) ->
  raises_only not_abstract_error (through_layer depth enter cls response).
Proof.
  intros He.
  unfold through_layer, run_hooks, ensure_instance, instantiate, invoke_init,
    invoke_authorize, invoke_process, invoke_delegate, emit,
    AuthMiddleWare__init, AuthMiddleWare_authorize,
    AuthMiddleWare__get_authorizers, AuthMiddleWare_process,
    AuthMiddleWare_delegate, ViewAuthMiddleWare_process,
    ViewAuthMiddleWare_delegate, IdentityAuthMiddleWare_process,
    IdentityAuthMiddleWare_delegate, StackedAuthMiddleWare_delegate,
    StackedAuthMiddleWare__get_stacked_middlewares.
  rewrite isabstract_source.
  repeat first
    [ apply raises_only_init_loop
    | apply raises_only_authorize_loop
    | apply raises_only_stacked_loop; exact He
    | raises_step ].
Qed.

(** Whatever the class, the response and the state of the process, the
    entry point does not raise [AbstractMiddlewareError]. *)
Lemma process_request_never_abstract_error depth cls response :
  raises_only not_abstract_error (process_request depth cls response).
Proof.
  revert cls response. induction depth as [|depth IH]; intros cls response;
    cbn [process_request]; [raises_step|].
  rewrite isabstract_source. unfold emit.
  repeat first
    [ apply raises_only_through_layer; exact IH
    | raises_step ].
Qed.

(** ** Entering an abstract layer *)

(** C1.  [AuthMiddleWare] has abstract operations left unresolved, yet
    [inspect.isabstract] answers [False] for it: [process_request] on a
    fresh process and an empty request raises nothing, instantiates the
    base class, runs its (empty) authorization and returns the [None] of
    the abstract hooks.  No entry, on any class, response or process
    state, ever raises [AbstractMiddlewareError]. *)
Theorem C1_abstract_base_is_entered
  (depth : nat) (response : pyval)
  (n : nat) (cls : layer) (r : pyval) (w : world)
  (msg : string) (b : ErrorBundle) :
  let i0 := {| inst_id := 0; inst_class := AuthMiddleWare; inst_dict := ∅ |} in
  let run := serve (S depth) AuthMiddleWare ∅ response (initial_world ∅) in
  is_concrete AuthMiddleWare = false
  /\ inspect_isabstract source_classes AuthMiddleWare = false
  /\ fst run = Returned VNone
  /\ w_log (snd run) =
       [EvEnter AuthMiddleWare; EvNew i0; EvInit i0; EvAuthorize i0;
        EvProcess i0; EvDelegate i0]
  /\ w_instance (snd run) AuthMiddleWare = Some (Some i0)
  /\ fst (process_request n cls r w) <> Raised (AbstractMiddlewareError msg b).
Proof.
  cbv zeta. split_and!; try reflexivity.
  intros H. by apply (process_request_never_abstract_error n cls r w) in H.
Qed.

(** Once the base class has been entered, its instance is what every
    subclass finds under [_instance]: an entry into the view layer then
    builds no view instance, asks no authorizer and does not reach the
    router. *)
Lemma abstract_entry_shadows_the_view_layer (depth : nat) (response : pyval) :
  let i0 := {| inst_id := 0; inst_class := AuthMiddleWare; inst_dict := ∅ |} in
  let w1 := snd (serve 1 AuthMiddleWare ∅ VNone (initial_world ∅)) in
  let run := serve (S depth) ViewAuthMiddleWare ∅ response w1 in
  fst run = Returned VNone
  /\ w_instance (snd run) ViewAuthMiddleWare = None
  /\ class_instance (w_instance (snd run)) ViewAuthMiddleWare = Some (Some i0)
  /\ count_new ViewAuthMiddleWare (w_log (snd run)) = 0
  /\ checked (w_log (snd run)) = []
  /\ routed (w_log (snd run)) = false.
Proof. cbv zeta. by split_and!. Qed.

(** * Further properties of the chain *)

(** ** [_init] on any authorizer list *)

Lemma init_loop_run k (ready : list auth_entry) (todo : list authorizer)
  (w : world) :
  w_auth w k = ready ++ (AuthType <$> todo) ->
  exists w',
    init_loop k (length todo) (length ready) w = (Returned tt, w')
    /\ w_auth w' k = ready ++ (AuthInstance <$> todo)
    /\ (forall k', k' <> k -> w_auth w' k' = w_auth w k')
    /\ w_instance w' = w_instance w
    /\ w_request w' = w_request w
    /\ w_next w' = w_next w
    /\ w_log w' = w_log w ++ (EvAuthNew <$> todo).
Proof.
  revert ready w. induction todo as [|a todo IH]; intros ready w Hl.
  - rewrite fmap_nil, app_nil_r in Hl. exists w.
    rewrite !fmap_nil, !app_nil_r. by split_and!.
  - cbn [length init_loop]. unfold bind at 1, gets at 1. cbv beta iota.
    rewrite Hl. cbn [fmap list_fmap].
    rewrite (list_lookup_middle ready (AuthType <$> todo) (AuthType a)
               (length ready) eq_refl).
    unfold call_auth. unfold bind, emit, modify, ret, gets. cbn [fst snd].
    cbv beta iota. cbn [w_auth add_log]. rewrite Hl.
    rewrite insert_app_r_alt by lia. rewrite Nat.sub_diag.
    change (<[0:=AuthInstance a]> (AuthType <$> a :: todo))
      with (AuthInstance a :: (AuthType <$> todo)).
    set (w1 := set_auth k _ (add_log (EvAuthNew a) w)).
    destruct (IH (ready ++ [AuthInstance a]) w1) as (w' & Hrun & Ha & Ho & Hi & Hr & Hn & Hlog).
    { subst w1. cbn. rewrite decide_True by done. by rewrite <- app_assoc. }
    rewrite length_app in Hrun. cbn in Hrun.
    replace (length ready + 1) with (S (length ready)) in Hrun by lia.
    exists w'. split; [exact Hrun|]. split_and!.
    + by rewrite Ha, <- app_assoc.
    + intros k' Hk. rewrite (Ho k' Hk). subst w1. cbn.
      by rewrite decide_False.
    + by rewrite Hi.
    + by rewrite Hr.
    + by rewrite Hn.
    + rewrite Hlog. subst w1. cbn. by rewrite <- app_assoc.
Qed.

(** X1.  [_init] on a list of authorizer classes puts an instance of each
    class in the place of the class: the list keeps its length and its
    order, each class is called exactly once, in list order, and nothing
    else of the process changes. *)
Theorem X1_init_instantiates_each_class_in_place
  (depth : nat) (self : instance) (k : layer) (l : list authorizer) (w : world) :
  auth_owner self = Some k ->
  w_auth w k = AuthType <$> l ->
  exists w',
    AuthMiddleWare__init depth self w = (Returned tt, w')
    /\ w_auth w' k = AuthInstance <$> l
    /\ length (w_auth w' k) = length (w_auth w k)
    /\ (forall n a, l !! n = Some a -> w_auth w' k !! n = Some (AuthInstance a))
    /\ (forall k', k' <> k -> w_auth w' k' = w_auth w k')
    /\ w_instance w' = w_instance w
    /\ w_request w' = w_request w
    /\ w_log w' = w_log w ++ (EvAuthNew <$> l).
Proof.
  intros Hk Hl.
  destruct (init_loop_run k [] l w Hl) as (w' & Hrun & Ha & Ho & Hi & Hr & _ & Hlog).
  exists w'. split_and!; try done.
  - unfold AuthMiddleWare__init. rewrite Hk. unfold bind, gets. cbv beta iota.
    rewrite Hl, length_fmap. exact Hrun.
  - cbn in Ha. rewrite Ha, Hl. by rewrite !length_fmap.
  - intros n a Hn. cbn in Ha. rewrite Ha, list_lookup_fmap, Hn. reflexivity.
Qed.

(** ** One entry into a concrete layer, step by step *)

Lemma set_request_same (w : world) : set_request (w_request w) w = w.
Proof. by destruct w. Qed.

Lemma auth_owner_concrete (self : instance) :
  is_concrete (inst_class self) = true ->
  auth_owner self = Some (inst_class self).
Proof.
  intros Hc. unfold auth_owner.
  apply is_concrete_spec in Hc as [Hc | Hc]; by rewrite Hc.
Qed.

Lemma instantiated_initial (c : layer) :
  instantiated (initial_auth c) = AuthInstance <$> authorizers_of c.
Proof. by destruct c. Qed.

Lemma routed_app (l1 l2 : list event) :
  routed (l1 ++ l2) = routed l1 || routed l2.
Proof. apply existsb_app. Qed.

Lemma checked_app (l1 l2 : list event) :
  checked (l1 ++ l2) = checked l1 ++ checked l2.
Proof.
  induction l1 as [|e l1 IH]; [reflexivity|].
  destruct e; cbn; by rewrite IH.
Qed.

Lemma checked_checks (l : list authorizer) : checked (EvCheck <$> l) = l.
Proof. induction l as [|a l IH]; [reflexivity|]. cbn. by rewrite IH. Qed.

Lemma entered_checks (l : list authorizer) : entered (EvCheck <$> l) = [].
Proof. by induction l. Qed.

Lemma routed_checks (l : list authorizer) : routed (EvCheck <$> l) = false.
Proof. by induction l. Qed.

(** Creating the singleton asks no authorizer and does not route. *)
Lemma creation_is_quiet (creation : list event) :
  forallb creation_event creation = true ->
  routed creation = false /\ checked creation = [] /\ entered creation = [].
Proof.
  induction creation as [|e l IH]; [done|].
  cbn [forallb]. intros [He Hl]%andb_prop. destruct (IH Hl) as (H1 & H2 & H3).
  destruct e; try discriminate He; by cbn.
Qed.

(** An entry into a concrete class, up to the point where the hooks of its
    singleton are run. *)
Lemma enter_concrete depth cls response (w : world) :
  is_concrete cls = true ->
  singletons w ->
  trace_ok (w_request w) = true ->
  exists w2 self creation,
    process_request (S depth) cls response w
    = run_hooks depth (process_request depth) cls response w2
    /\ class_getattr_instance cls w2 = (Returned (Some self), w2)
    /\ inst_class self = cls
    /\ w_auth w2 cls = AuthInstance <$> authorizers_of cls
    /\ singletons w2
    /\ w_request w2 = traced (w_request w) cls
    /\ w_log w2 = w_log w ++ EvEnter cls :: creation
    /\ forallb creation_event creation = true.
Proof.
  intros Hc Hs Hok.
  destruct (process_request_enters depth cls response w Hok)
    as (w1 & Hrun1 & Hl1 & _ & _ & Hi1 & Ha1 & _ & Hreq1).
  assert (Hs1 : singletons w1).
  { by apply (keeps_singletons_quiet w w1 [EvEnter cls]). }
  destruct (ensure_instance_singletons depth cls w1 Hc Hs1)
    as (w2 & self & creation & Hrun2 & Hget & Hb & Hs2 & _ & Hreq2 & Hl2
        & Hcr & _ & _).
  exists w2, self, creation. split_and!; try done.
  - rewrite Hrun1. unfold through_layer.
    by rewrite (bind_returned _ _ _ _ _ Hrun2).
  - apply Hb.
  - destruct Hb as (_ & _ & _ & _ & ->). apply instantiated_initial.
  - by rewrite Hreq2, Hreq1.
  - rewrite Hl2, Hl1. by rewrite <- app_assoc.
Qed.

(** The hooks when every authorizer of the layer answers with a safe
    code: what is left is the call of [delegate]. *)
Lemma run_hooks_authorized depth enter cls (self : instance)
  (l : list authorizer) response (w : world) :
  is_concrete cls = true ->
  class_getattr_instance cls w = (Returned (Some self), w) ->
  inst_class self = cls ->
  w_auth w cls = AuthInstance <$> l ->
  Forall (safe_on w) l ->
  run_hooks depth enter cls response w
  = invoke_delegate depth enter (Some self) response
      (log_more (EvAuthorize self :: (EvCheck <$> l) ++ [EvProcess self]) w).
Proof.
  intros Hc Hget Hself Hl Hsafe.
  assert (Hcs : is_concrete (inst_class self) = true) by by rewrite Hself.
  unfold run_hooks. rewrite (bind_returned _ _ _ _ _ Hget).
  assert (Hauth : invoke_authorize depth (Some self) w
                  = (Returned tt,
                     log_more (EvAuthorize self :: (EvCheck <$> l)) w)).
  { rewrite (invoke_authorize_concrete depth self w Hcs).
    rewrite (authorize_unfold depth self cls); [|by rewrite auth_owner_concrete, Hself].
    cbn [w_auth add_log]. rewrite Hl.
    rewrite (authorize_loop_all_safe self l (add_log (EvAuthorize self) w) Hsafe).
    by rewrite add_log_log_more, log_more_app. }
  rewrite (bind_returned _ _ _ _ _ Hauth).
  set (w3 := log_more (EvAuthorize self :: (EvCheck <$> l)) w).
  assert (Hget3 : class_getattr_instance cls w3 = (Returned (Some self), w3)).
  { by apply (class_getattr_instance_same cls w w3 _ Hget). }
  rewrite (bind_returned _ _ _ _ _ Hget3).
  rewrite (bind_returned _ _ _ _ _
             (invoke_process_concrete depth self response w3 Hcs)).
  assert (Hget4 : class_getattr_instance cls (add_log (EvProcess self) w3)
                  = (Returned (Some self), add_log (EvProcess self) w3)).
  { by apply (class_getattr_instance_same cls w3 _ _ Hget3). }
  rewrite (bind_returned _ _ _ _ _ Hget4).
  subst w3. rewrite add_log_log_more, log_more_app.
  by rewrite <- app_comm_cons.
Qed.

(** The hooks when an authorizer of the layer answers with an unsafe
    code: nothing after [authorize] is called. *)
Lemma run_hooks_denied depth enter cls (self : instance)
  (pre post : list authorizer) (a : authorizer) response (w : world)
  (stack : pyval) :
  is_concrete cls = true ->
  class_getattr_instance cls w = (Returned (Some self), w) ->
  inst_class self = cls ->
  w_auth w cls = AuthInstance <$> (pre ++ a :: post) ->
  Forall (safe_on w) pre ->
  ~ safe_on w a ->
  w_request w !! "middleware_stack" = Some stack ->
  run_hooks depth enter cls response w
  = (Raised (AuthError MSG_AUTH_FAILED
               (auth_bundle self w stack (fst (answer w a)) (snd (answer w a)))),
     log_more (EvAuthorize self :: (EvCheck <$> (pre ++ [a]))) w).
Proof.
  intros Hc Hget Hself Hl Hpre Ha Hstack.
  assert (Hcs : is_concrete (inst_class self) = true) by by rewrite Hself.
  unfold run_hooks. rewrite (bind_returned _ _ _ _ _ Hget).
  apply bind_raised.
  rewrite (invoke_authorize_concrete depth self w Hcs).
  rewrite (authorize_unfold depth self cls); [|by rewrite auth_owner_concrete, Hself].
  cbn [w_auth add_log]. rewrite Hl.
  rewrite (authorize_loop_first_unsafe self pre post a
             (add_log (EvAuthorize self) w) stack Hpre Ha Hstack).
  by rewrite add_log_log_more, log_more_app.
Qed.

(** [delegate] of a view instance. *)
Lemma invoke_delegate_view depth enter (self : instance) response (w : world) :
  inst_class self = ViewAuthMiddleWare ->
  invoke_delegate depth enter (Some self) response w
  = (Returned (route (w_request w) response),
     log_more [EvDelegate self; EvRoute] w).
Proof.
  intros Hc. unfold invoke_delegate. rewrite Hc.
  change (class_lookup source_classes ViewAuthMiddleWare "delegate")
    with (Some (ViewAuthMiddleWare, PlainMethod)). cbv iota beta.
  unfold ViewAuthMiddleWare_delegate, bind, emit, modify, gets. cbn.
  by rewrite !add_log_log_more, log_more_app.
Qed.

(** [delegate] of an identity instance. *)
Lemma invoke_delegate_identity depth enter (self : instance) response
  (w : world) :
  inst_class self = IdentityAuthMiddleWare ->
  invoke_delegate depth enter (Some self) response w
  = IdentityAuthMiddleWare_delegate depth enter self response
      (log_more [EvDelegate self] w).
Proof.
  intros Hc. unfold invoke_delegate. rewrite Hc. reflexivity.
Qed.

Lemma trace_of_traced (r : request) (c : layer) :
  trace_of (traced r c) = trace_of r ++ [VClass c].
Proof. unfold traced, trace_of at 1. by rewrite lookup_insert_eq. Qed.

Lemma trace_ok_traced (r : request) (c : layer) : trace_ok (traced r c) = true.
Proof. unfold traced, trace_ok. by rewrite lookup_insert_eq. Qed.

Lemma traced_stack (r : request) (c : layer) :
  traced r c !! "middleware_stack" = Some (VList (trace_of r ++ [VClass c])).
Proof. unfold traced. by rewrite lookup_insert_eq. Qed.

Lemma count_checks (c : layer) (l : list authorizer) :
  count_new c (EvCheck <$> l) = 0 /\ count_init c (EvCheck <$> l) = 0.
Proof. by induction l. Qed.

(** Events of the hooks leave the singletons as they are. *)
Lemma singletons_log_more (evs : list event) (w : world) :
  (forall c, count_new c evs = 0 /\ count_init c evs = 0) ->
  singletons w -> singletons (log_more evs w).
Proof.
  intros Hq Hs.
  by apply (keeps_singletons_quiet w (log_more evs w) evs).
Qed.

(** An entry into a concrete class whose authorizers all answer with a
    safe code, up to the call of [delegate]. *)
Lemma entry_granted depth cls response (w : world) :
  is_concrete cls = true ->
  singletons w ->
  trace_ok (w_request w) = true ->
  Forall (fun a => in_SAFE_CODES
                     (fst (authorizer_authorize a (traced (w_request w) cls)))
                   = true) (authorizers_of cls) ->
  exists w3 self creation,
    process_request (S depth) cls response w
    = invoke_delegate depth (process_request depth) (Some self) response w3
    /\ inst_class self = cls
    /\ singletons w3
    /\ w_request w3 = traced (w_request w) cls
    /\ w_log w3 = w_log w ++ EvEnter cls :: creation
                    ++ EvAuthorize self :: (EvCheck <$> authorizers_of cls)
                    ++ [EvProcess self]
    /\ forallb creation_event creation = true.
Proof.
  intros Hc Hs Hok Hsafe.
  destruct (enter_concrete depth cls response w Hc Hs Hok)
    as (w2 & self & creation & Hrun & Hget & Hself & Hauth & Hs2 & Hreq & Hlog
        & Hcr).
  assert (Hsafe2 : Forall (safe_on w2) (authorizers_of cls)).
  { eapply Forall_impl; [exact Hsafe|]. intros a Ha.
    unfold safe_on, answer. by rewrite Hreq. }
  rewrite (run_hooks_authorized depth (process_request depth) cls self
             (authorizers_of cls) response w2 Hc Hget Hself Hauth Hsafe2)
    in Hrun.
  eexists _, self, creation. split; [exact Hrun|]. split_and!; try done.
  - apply singletons_log_more; [|done]. intros c.
    destruct (count_checks c (authorizers_of cls)) as [H1 H2].
    change (EvAuthorize self :: (EvCheck <$> authorizers_of cls)
              ++ [EvProcess self])
      with ([EvAuthorize self] ++ (EvCheck <$> authorizers_of cls)
              ++ [EvProcess self]).
    rewrite !count_new_app, !count_init_app, H1, H2. by cbn.
  - cbn [log_more w_log]. rewrite Hlog. by rewrite <- app_assoc.
Qed.

(** An entry into a concrete class one of whose authorizers answers with
    an unsafe code. *)
Lemma entry_denied depth cls response (w : world)
  (pre post : list authorizer) (a : authorizer) :
  is_concrete cls = true ->
  singletons w ->
  trace_ok (w_request w) = true ->
  authorizers_of cls = pre ++ a :: post ->
  Forall (fun b => in_SAFE_CODES
                     (fst (authorizer_authorize b (traced (w_request w) cls)))
                   = true) pre ->
  in_SAFE_CODES (fst (authorizer_authorize a (traced (w_request w) cls)))
  = false ->
  exists w3 self creation,
    process_request (S depth) cls response w
    = (Raised (AuthError MSG_AUTH_FAILED
         [("middleware_stack", VList (trace_of (w_request w) ++ [VClass cls]));
          ("layer", VClass cls);
          ("authorizer_error",
           VTuple [fst (authorizer_authorize a (traced (w_request w) cls));
                   snd (authorizer_authorize a (traced (w_request w) cls))]);
          ("request_dump", VDict (traced (w_request w) cls))]), w3)
    /\ inst_class self = cls
    /\ singletons w3
    /\ w_request w3 = traced (w_request w) cls
    /\ w_log w3 = w_log w ++ EvEnter cls :: creation
                    ++ EvAuthorize self :: (EvCheck <$> pre ++ [a])
    /\ forallb creation_event creation = true.
Proof.
  intros Hc Hs Hok Hl Hpre Ha.
  destruct (enter_concrete depth cls response w Hc Hs Hok)
    as (w2 & self & creation & Hrun & Hget & Hself & Hauth & Hs2 & Hreq & Hlog
        & Hcr).
  assert (Hpre2 : Forall (safe_on w2) pre).
  { eapply Forall_impl; [exact Hpre|]. intros b Hb.
    unfold safe_on, answer. by rewrite Hreq. }
  assert (Ha2 : ~ safe_on w2 a).
  { unfold safe_on, answer. rewrite Hreq, Ha. discriminate. }
  rewrite Hl in Hauth.
  assert (Hstack : w_request w2 !! "middleware_stack"
                   = Some (VList (trace_of (w_request w) ++ [VClass cls]))).
  { rewrite Hreq. apply traced_stack. }
  rewrite (run_hooks_denied depth (process_request depth) cls self pre post a
             response w2 _ Hc Hget Hself Hauth Hpre2 Ha2 Hstack) in Hrun.
  eexists _, self, creation. split.
  { rewrite Hrun. unfold auth_bundle, answer. by rewrite Hreq, Hself. }
  split_and!; try done.
  - apply singletons_log_more; [|done]. intros c.
    destruct (count_checks c (pre ++ [a])) as [H1 H2].
    change (EvAuthorize self :: (EvCheck <$> pre ++ [a]))
      with ([EvAuthorize self] ++ (EvCheck <$> pre ++ [a])).
    rewrite !count_new_app, !count_init_app, H1, H2. by cbn.
  - cbn [log_more w_log]. rewrite Hlog. by rewrite <- app_assoc.
Qed.

Lemma identity_delegate_not_asking depth enter (self : instance) response
  (w : world) :
  inst_class self = IdentityAuthMiddleWare ->
  is_requesting_authentication (w_request w) = false ->
  IdentityAuthMiddleWare_delegate depth enter self response w
  = enter ViewAuthMiddleWare response w.
Proof.
  intros Hc Hask.
  unfold IdentityAuthMiddleWare_delegate, bind at 1, gets. cbn. rewrite Hask.
  unfold StackedAuthMiddleWare_delegate,
    StackedAuthMiddleWare__get_stacked_middlewares, stacked_owner.
  rewrite Hc.
  change (stacked_loop enter [ViewAuthMiddleWare] response w
          = enter ViewAuthMiddleWare response w).
  apply stacked_loop_single.
Qed.

(** ** The two concrete layers, end to end *)

(** X2.  An entry into the view layer on a request that both of its
    authorizers (the method check, then the access check) answer with a
    safe code returns what the router returns for the request, whose trace
    now ends with the view layer, and the passed response.  The events of
    the call are: the entry, the creation of the singleton if this is the
    first entry, [authorize] with the two checks in list order, [process],
    [delegate], the router. *)
Theorem X2_view_entry_routes_when_authorized
  (depth : nat) (req : request) (response : pyval) (w : world) :
  reachable w ->
  trace_ok req = true ->
  Forall (fun a => in_SAFE_CODES
                     (fst (authorizer_authorize a
                             (traced req ViewAuthMiddleWare))) = true)
    [SafeMethodOnlyAuthorizer; APIAuthorizer] ->
  exists w' self creation,
    serve (S depth) ViewAuthMiddleWare req response w
    = (Returned (route (traced req ViewAuthMiddleWare) response), w')
    /\ w_request w' = traced req ViewAuthMiddleWare
    /\ inst_class self = ViewAuthMiddleWare
    /\ forallb creation_event creation = true
    /\ w_log w' = w_log w ++ EvEnter ViewAuthMiddleWare :: creation
                    ++ [EvAuthorize self; EvCheck SafeMethodOnlyAuthorizer;
                        EvCheck APIAuthorizer; EvProcess self;
                        EvDelegate self; EvRoute].
Proof.
  intros Hr Hok Hsafe.
  pose proof (singletons_set_request req w (reachable_singletons w Hr)) as Hs.
  destruct (entry_granted depth ViewAuthMiddleWare response (set_request req w)
              eq_refl Hs Hok Hsafe)
    as (w3 & self & creation & Hrun & Hself & Hs3 & Hreq & Hlog & Hcr).
  rewrite (invoke_delegate_view _ _ self response w3 Hself), Hreq in Hrun.
  eexists _, self, creation. split; [exact Hrun|].
  split_and!; try done.
  cbn [log_more w_log]. rewrite Hlog. cbn [set_request w_log].
  rewrite <- !app_assoc. cbn. by rewrite <- !app_assoc.
Qed.

(** X3.  In a process where only concrete layers were entered: an entry
    into a concrete layer one of whose authorizers answers with an unsafe
    code raises [AuthError] at the first such answer.  The bundle names
    the trace up to and including this layer, the layer, the [(code,
    detail)] of the authorizer that refused and the request; the
    authorizers after it in the list were not asked, no further layer was
    entered and the router was not called. *)
Theorem X3_denied_entry_raises_before_delegating
  (depth : nat) (cls : layer) (req : request) (response : pyval) (w : world)
  (pre post : list authorizer) (a : authorizer) :
  is_concrete cls = true ->
  reachable w ->
  trace_ok req = true ->
  authorizers_of cls = pre ++ a :: post ->
  Forall (fun b => in_SAFE_CODES
                     (fst (authorizer_authorize b (traced req cls))) = true)
    pre ->
  in_SAFE_CODES (fst (authorizer_authorize a (traced req cls))) = false ->
  exists w' delta,
    serve (S depth) cls req response w
    = (Raised (AuthError MSG_AUTH_FAILED
         [("middleware_stack", VList (trace_of req ++ [VClass cls]));
          ("layer", VClass cls);
          ("authorizer_error",
           VTuple [fst (authorizer_authorize a (traced req cls));
                   snd (authorizer_authorize a (traced req cls))]);
          ("request_dump", VDict (traced req cls))]), w')
    /\ w_request w' = traced req cls
    /\ w_log w' = w_log w ++ delta
    /\ entered delta = [cls]
    /\ checked delta = pre ++ [a]
    /\ routed delta = false.
Proof.
  intros Hc Hr Hok Hl Hpre Ha.
  pose proof (singletons_set_request req w (reachable_singletons w Hr)) as Hs.
  destruct (entry_denied depth cls response (set_request req w) pre post a
              Hc Hs Hok Hl Hpre Ha)
    as (w3 & self & creation & Hrun & Hself & Hs3 & Hreq & Hlog & Hcr).
  destruct (creation_is_quiet creation Hcr) as (Q1 & Q2 & Q3).
  exists w3, (EvEnter cls :: creation
                ++ EvAuthorize self :: (EvCheck <$> pre ++ [a])).
  split; [exact Hrun|]. split_and!; try done.
  - cbn [entered]. rewrite entered_app, Q3. cbn [entered app].
    by rewrite entered_checks.
  - cbn [checked]. rewrite checked_app, Q2. cbn [checked app].
    by rewrite checked_checks.
  - unfold routed. cbn [existsb]. fold (routed (creation
      ++ EvAuthorize self :: (EvCheck <$> pre ++ [a]))).
    rewrite routed_app, Q1. unfold routed at 1. cbn [existsb orb].
    apply routed_checks.
Qed.

(** What the log of one entry shows: the entry, creation events, the
    checks of [authorize], then whatever follows. *)
Lemma entry_events cls (self : instance) (creation : list event)
  (l : list authorizer) (rest : list event) :
  forallb creation_event creation = true ->
  let delta := EvEnter cls :: creation
                 ++ EvAuthorize self :: (EvCheck <$> l) ++ rest in
  entered delta = cls :: entered rest
  /\ checked delta = l ++ checked rest
  /\ routed delta = routed rest.
Proof.
  intros Hcr delta. subst delta.
  destruct (creation_is_quiet creation Hcr) as (Q1 & Q2 & Q3).
  split_and!.
  - cbn [entered]. rewrite entered_app, Q3. cbn [entered app].
    by rewrite entered_app, entered_checks.
  - cbn [checked]. rewrite checked_app, Q2. cbn [checked app].
    by rewrite checked_app, checked_checks.
  - change (routed (EvEnter cls :: creation
                      ++ EvAuthorize self :: (EvCheck <$> l) ++ rest))
      with (routed (creation ++ EvAuthorize self :: (EvCheck <$> l) ++ rest)).
    rewrite routed_app, Q1.
    change (routed (EvAuthorize self :: (EvCheck <$> l) ++ rest))
      with (routed ((EvCheck <$> l) ++ rest)).
    by rewrite routed_app, routed_checks.
Qed.

(** An entry into the identity layer on a request the authenticator lets
    through and that does not ask for a token is, from [delegate] on, an
    entry into the view layer with the same response. *)
Lemma identity_entry_descends depth response (w : world) :
  singletons w ->
  trace_ok (w_request w) = true ->
  in_SAFE_CODES
    (fst (authorizer_authorize Authenticator
            (traced (w_request w) IdentityAuthMiddleWare))) = true ->
  is_requesting_authentication (traced (w_request w) IdentityAuthMiddleWare)
  = false ->
  exists w4 delta,
    process_request (S (S depth)) IdentityAuthMiddleWare response w
    = process_request (S depth) ViewAuthMiddleWare response w4
    /\ singletons w4
    /\ w_request w4 = traced (w_request w) IdentityAuthMiddleWare
    /\ w_log w4 = w_log w ++ delta
    /\ entered delta = [IdentityAuthMiddleWare]
    /\ checked delta = [Authenticator]
    /\ routed delta = false.
Proof.
  intros Hs Hok Hsafe Hask.
  destruct (entry_granted (S depth) IdentityAuthMiddleWare response w
              eq_refl Hs Hok) as
    (w3 & self & creation & Hrun & Hself & Hs3 & Hreq & Hlog & Hcr).
  { by repeat constructor. }
  rewrite (invoke_delegate_identity _ _ self response w3 Hself) in Hrun.
  rewrite identity_delegate_not_asking in Hrun; [|done|by cbn; rewrite Hreq].
  destruct (entry_events IdentityAuthMiddleWare self creation [Authenticator]
              [EvProcess self; EvDelegate self] Hcr) as (E1 & E2 & E3).
  eexists _, (EvEnter IdentityAuthMiddleWare :: creation
                ++ EvAuthorize self :: (EvCheck <$> [Authenticator])
                ++ [EvProcess self; EvDelegate self]).
  split; [exact Hrun|]. split_and!.
  - by apply singletons_log_more.
  - done.
  - cbn [log_more w_log]. rewrite Hlog.
    change (authorizers_of IdentityAuthMiddleWare) with [Authenticator].
    rewrite <- !app_assoc. f_equal. cbn. f_equal.
    rewrite <- !app_assoc. reflexivity.
  - exact E1.
  - exact E2.
  - exact E3.
Qed.

(** X4.  In a process where only concrete layers were entered: an entry
    into the identity layer on a request the authenticator lets through, that does not ask for a token and that both view
    authorizers let through returns what the router returns for the
    request and the passed response; the trace of the request then ends
    with the identity layer and the view layer, the three authorizers were
    asked in the order authenticator, method check, access check, and the
    router was reached. *)
Theorem X4_identity_entry_reaches_the_router
  (depth : nat) (req : request) (response : pyval) (w : world) :
  reachable w ->
  trace_ok req = true ->
  in_SAFE_CODES
    (fst (authorizer_authorize Authenticator
            (traced req IdentityAuthMiddleWare))) = true ->
  is_requesting_authentication (traced req IdentityAuthMiddleWare) = false ->
  Forall (fun a => in_SAFE_CODES
                     (fst (authorizer_authorize a
                             (traced (traced req IdentityAuthMiddleWare)
                                ViewAuthMiddleWare))) = true)
    [SafeMethodOnlyAuthorizer; APIAuthorizer] ->
  exists w' delta,
    serve (S (S depth)) IdentityAuthMiddleWare req response w
    = (Returned (route (traced (traced req IdentityAuthMiddleWare)
                          ViewAuthMiddleWare) response), w')
    /\ w_request w'
       = traced (traced req IdentityAuthMiddleWare) ViewAuthMiddleWare
    /\ trace_of (w_request w')
       = trace_of req
           ++ [VClass IdentityAuthMiddleWare; VClass ViewAuthMiddleWare]
    /\ w_log w' = w_log w ++ delta
    /\ entered delta = [IdentityAuthMiddleWare; ViewAuthMiddleWare]
    /\ checked delta
       = [Authenticator; SafeMethodOnlyAuthorizer; APIAuthorizer]
    /\ routed delta = true.
Proof.
  intros Hr Hok Hauth Hask Hview.
  pose proof (singletons_set_request req w (reachable_singletons w Hr)) as Hs.
  destruct (identity_entry_descends depth response (set_request req w)
              Hs Hok Hauth Hask)
    as (w4 & d1 & Hrun & Hs4 & Hreq4 & Hlog4 & E1 & E2 & E3).
  cbn [set_request w_request w_log] in Hreq4, Hlog4.
  destruct (entry_granted depth ViewAuthMiddleWare response w4 eq_refl Hs4)
    as (w5 & self & creation & Hrun5 & Hself & Hs5 & Hreq5 & Hlog5 & Hcr).
  { rewrite Hreq4. apply trace_ok_traced. }
  { by rewrite Hreq4. }
  rewrite (invoke_delegate_view _ _ self response w5 Hself) in Hrun5.
  rewrite Hreq5, Hreq4 in Hrun5.
  destruct (entry_events ViewAuthMiddleWare self creation
              [SafeMethodOnlyAuthorizer; APIAuthorizer]
              [EvProcess self; EvDelegate self; EvRoute] Hcr)
    as (F1 & F2 & F3).
  eexists _, (d1 ++ EvEnter ViewAuthMiddleWare :: creation
                ++ EvAuthorize self
                   :: (EvCheck <$> [SafeMethodOnlyAuthorizer; APIAuthorizer])
                ++ [EvProcess self; EvDelegate self; EvRoute]).
  split.
  { unfold serve. rewrite Hrun. exact Hrun5. }
  split_and!.
  - cbn [log_more w_request]. by rewrite Hreq5, Hreq4.
  - cbn [log_more w_request]. rewrite Hreq5, Hreq4, !trace_of_traced.
    by rewrite <- app_assoc.
  - cbn [log_more w_log]. rewrite Hlog5, Hlog4.
    change (authorizers_of ViewAuthMiddleWare)
      with [SafeMethodOnlyAuthorizer; APIAuthorizer].
    rewrite <- !app_assoc. f_equal. f_equal. cbn. f_equal.
    rewrite <- !app_assoc. reflexivity.
  - rewrite entered_app, E1, F1. reflexivity.
  - rewrite checked_app, E2, F2. reflexivity.
  - rewrite routed_app, E3, F3. reflexivity.
Qed.

(** X5.  In a process where only concrete layers were entered: an entry
    into the identity layer on a request the authenticator lets through
    and that asks for a token answers at once.  The result is the passed
    response dict (a dict of its own, not the request) with element 1 of
    the request's token header stored under the token header, the view layer is not entered, its
    authorizers are not asked and the router is not called. *)
Theorem X5_identity_entry_answers_a_token_request
  (depth : nat) (req : request) (d : gmap string pyval) (w : world)
  (header token : pyval) :
  reachable w ->
  trace_ok req = true ->
  in_SAFE_CODES
    (fst (authorizer_authorize Authenticator
            (traced req IdentityAuthMiddleWare))) = true ->
  is_requesting_authentication (traced req IdentityAuthMiddleWare) = true ->
  traced req IdentityAuthMiddleWare !! TOKEN_HEADER = Some header ->
  py_index header 1 = Returned token ->
  exists w' delta,
    serve (S depth) IdentityAuthMiddleWare req (VDict d) w
    = (Returned (VDict (<[TOKEN_HEADER := token]> d)), w')
    /\ w_request w' = traced req IdentityAuthMiddleWare
    /\ w_log w' = w_log w ++ delta
    /\ entered delta = [IdentityAuthMiddleWare]
    /\ checked delta = [Authenticator]
    /\ routed delta = false.
Proof.
  intros Hr Hok Hauth Hask Hh Ht.
  pose proof (singletons_set_request req w (reachable_singletons w Hr)) as Hs.
  destruct (entry_granted depth IdentityAuthMiddleWare (VDict d)
              (set_request req w) eq_refl Hs Hok) as
    (w3 & self & creation & Hrun & Hself & Hs3 & Hreq & Hlog & Hcr).
  { by repeat constructor. }
  cbn [set_request w_request w_log] in Hreq, Hlog.
  rewrite (invoke_delegate_identity _ _ self (VDict d) w3 Hself) in Hrun.
  assert (Hdel : IdentityAuthMiddleWare_delegate depth (process_request depth)
                   self (VDict d) (log_more [EvDelegate self] w3)
                 = (Returned (VDict (<[TOKEN_HEADER := token]> d)),
                    log_more [EvDelegate self] w3)).
  { unfold IdentityAuthMiddleWare_delegate, bind, gets. cbn.
    rewrite Hreq, Hask. unfold request_item. cbn. rewrite Hreq, Hh.
    unfold lift. by rewrite Ht. }
  rewrite Hdel in Hrun.
  destruct (entry_events IdentityAuthMiddleWare self creation [Authenticator]
              [EvProcess self; EvDelegate self] Hcr) as (E1 & E2 & E3).
  eexists _, (EvEnter IdentityAuthMiddleWare :: creation
                ++ EvAuthorize self :: (EvCheck <$> [Authenticator])
                ++ [EvProcess self; EvDelegate self]).
  split; [exact Hrun|]. split_and!.
  - done.
  - cbn [log_more w_log]. rewrite Hlog.
    change (authorizers_of IdentityAuthMiddleWare) with [Authenticator].
    rewrite <- !app_assoc. f_equal. cbn. f_equal.
    rewrite <- !app_assoc. reflexivity.
  - exact E1.
  - exact E2.
  - exact E3.
Qed.

(** X6.  In a process where only concrete layers were entered: when the
    identity layer lets a request through and a view authorizer then
    refuses it, the entry into the identity layer raises
    the [AuthError] of the view layer unchanged: its bundle names the view
    layer and the trace through both layers; the view authorizers after
    the refusing one are not asked and the router is not called. *)
Theorem X6_identity_entry_propagates_the_view_refusal
  (depth : nat) (req : request) (response : pyval) (w : world)
  (pre post : list authorizer) (a : authorizer) :
  reachable w ->
  trace_ok req = true ->
  in_SAFE_CODES
    (fst (authorizer_authorize Authenticator
            (traced req IdentityAuthMiddleWare))) = true ->
  is_requesting_authentication (traced req IdentityAuthMiddleWare) = false ->
  [SafeMethodOnlyAuthorizer; APIAuthorizer] = pre ++ a :: post ->
  Forall (fun b => in_SAFE_CODES
                     (fst (authorizer_authorize b
                             (traced (traced req IdentityAuthMiddleWare)
                                ViewAuthMiddleWare))) = true) pre ->
  in_SAFE_CODES
    (fst (authorizer_authorize a
            (traced (traced req IdentityAuthMiddleWare) ViewAuthMiddleWare)))
  = false ->
  exists w' delta,
    serve (S (S depth)) IdentityAuthMiddleWare req response w
    = (Raised (AuthError MSG_AUTH_FAILED
         [("middleware_stack",
           VList (trace_of req ++ [VClass IdentityAuthMiddleWare;
                                   VClass ViewAuthMiddleWare]));
          ("layer", VClass ViewAuthMiddleWare);
          ("authorizer_error",
           VTuple
             [fst (authorizer_authorize a
                     (traced (traced req IdentityAuthMiddleWare)
                        ViewAuthMiddleWare));
              snd (authorizer_authorize a
                     (traced (traced req IdentityAuthMiddleWare)
                        ViewAuthMiddleWare))]);
          ("request_dump",
           VDict (traced (traced req IdentityAuthMiddleWare)
                    ViewAuthMiddleWare))]), w')
    /\ w_log w' = w_log w ++ delta
    /\ entered delta = [IdentityAuthMiddleWare; ViewAuthMiddleWare]
    /\ checked delta = Authenticator :: pre ++ [a]
    /\ routed delta = false.
Proof.
  intros Hr Hok Hauth Hask Hl Hpre Ha.
  pose proof (singletons_set_request req w (reachable_singletons w Hr)) as Hs.
  destruct (identity_entry_descends depth response (set_request req w)
              Hs Hok Hauth Hask)
    as (w4 & d1 & Hrun & Hs4 & Hreq4 & Hlog4 & E1 & E2 & E3).
  cbn [set_request w_request w_log] in Hreq4, Hlog4.
  destruct (entry_denied depth ViewAuthMiddleWare response w4 pre post a
              eq_refl Hs4)
    as (w5 & self & creation & Hrun5 & Hself & Hs5 & Hreq5 & Hlog5 & Hcr).
  { rewrite Hreq4. apply trace_ok_traced. }
  { by rewrite <- Hl. }
  { by rewrite Hreq4. }
  { by rewrite Hreq4. }
  rewrite Hreq4, trace_of_traced, <- app_assoc in Hrun5.
  destruct (entry_events ViewAuthMiddleWare self creation (pre ++ [a]) [] Hcr)
    as (F1 & F2 & F3).
  rewrite !app_nil_r in F1, F2, F3.
  eexists _, (d1 ++ EvEnter ViewAuthMiddleWare :: creation
                ++ EvAuthorize self :: (EvCheck <$> pre ++ [a])).
  split.
  { unfold serve. rewrite Hrun. exact Hrun5. }
  split_and!.
  - rewrite Hlog5, Hlog4. by rewrite <- !app_assoc.
  - rewrite entered_app, E1, F1. reflexivity.
  - rewrite checked_app, E2, F2. cbn [checked]. by rewrite app_nil_r.
  - rewrite routed_app, E3, F3. reflexivity.
Qed.

(** ** A cached instance of the base class *)

(** X7.  [hasattr(cls, '_instance')] and [cls._instance] look through the
    base classes.  So when the class entered finds an instance of
    [AuthMiddleWare] there (none of its own classes in between caches
    one), the entry builds nothing and runs the hooks of that instance:
    with the base's empty authorizer list it asks no authorizer, calls the
    abstract [process] and [delegate], does not reach the router or any
    stacked layer, and returns [None]. *)
Theorem X7_cached_base_instance_shadows_the_layer
  (depth : nat) (cls : layer) (response : pyval) (w : world) (i : instance) :
  trace_ok (w_request w) = true ->
  class_instance (w_instance w) cls = Some (Some i) ->
  inst_class i = AuthMiddleWare ->
  w_auth w AuthMiddleWare = [] ->
  exists w',
    process_request (S depth) cls response w = (Returned VNone, w')
    /\ w_log w' = w_log w
                    ++ [EvEnter cls; EvAuthorize i; EvProcess i; EvDelegate i]
    /\ w_instance w' = w_instance w
    /\ w_auth w' = w_auth w
    /\ w_request w' = traced (w_request w) cls.
Proof.
  intros Hok Hci Hclass Hauth.
  destruct (process_request_enters depth cls response w Hok)
    as (w1 & Hrun1 & Hl1 & _ & _ & Hi1 & Ha1 & _ & Hreq1).
  rewrite <- Hi1 in Hci. rewrite <- Ha1 in Hauth.
  assert (Hget : forall evs,
             class_getattr_instance cls (log_more evs w1)
             = (Returned (Some i), log_more evs w1)).
  { intros evs. unfold class_getattr_instance. cbn [log_more w_instance].
    by rewrite Hci. }
  assert (Hens : ensure_instance depth cls w1 = (Returned tt, w1)).
  { unfold ensure_instance, bind, gets, class_getattr_instance.
    cbv beta iota. rewrite Hci. unfold ret. cbv beta iota. by rewrite Hci. }
  exists (log_more [EvAuthorize i; EvProcess i; EvDelegate i] w1).
  split.
  { rewrite Hrun1. unfold through_layer.
    rewrite (bind_returned _ _ _ _ _ Hens). unfold run_hooks.
    rewrite <- (log_more_nil w1) at 1.
    rewrite (bind_returned _ _ _ _ _ (Hget [])).
    assert (H1 : invoke_authorize depth (Some i) (log_more [] w1)
                 = (Returned tt, log_more [EvAuthorize i] w1)).
    { unfold invoke_authorize. rewrite Hclass.
      change (class_lookup source_classes AuthMiddleWare "authorize")
        with (Some (AuthMiddleWare, PlainMethod)). cbv iota beta.
      unfold bind at 1, emit, modify. cbn [fst snd].
      rewrite (authorize_unfold depth i AuthMiddleWare);
        [|by unfold auth_owner; rewrite Hclass].
      cbn [add_log log_more w_auth]. rewrite Hauth. cbn [authorize_loop].
      unfold ret. by rewrite log_more_nil, add_log_log_more. }
    rewrite (bind_returned _ _ _ _ _ H1).
    rewrite (bind_returned _ _ _ _ _ (Hget [EvAuthorize i])).
    assert (H2 : invoke_process depth (Some i) response
                   (log_more [EvAuthorize i] w1)
                 = (Returned VNone, log_more [EvAuthorize i; EvProcess i] w1)).
    { unfold invoke_process. rewrite Hclass.
      change (class_lookup source_classes AuthMiddleWare "process")
        with (Some (AuthMiddleWare, AbstractMethod)). cbv iota beta.
      unfold AuthMiddleWare_process, bind, emit, modify, ret. cbn [fst snd].
      by rewrite add_log_log_more, log_more_app. }
    rewrite (bind_returned _ _ _ _ _ H2).
    rewrite (bind_returned _ _ _ _ _ (Hget [EvAuthorize i; EvProcess i])).
    unfold invoke_delegate. rewrite Hclass.
    change (class_lookup source_classes AuthMiddleWare "delegate")
      with (Some (AuthMiddleWare, AbstractMethod)). cbv iota beta.
    unfold AuthMiddleWare_delegate, bind, emit, modify, ret. cbn [fst snd].
    by rewrite add_log_log_more, log_more_app. }
  cbn [log_more w_log w_instance w_auth w_request].
  split_and!; try done.
  rewrite Hl1. by rewrite <- app_assoc.
Qed.

(** ** Failures inside the hooks *)

(** X8.  [authorize] reads [request['middleware_stack']] only when it
    builds the bundle of a refusal.  Called on a request that has no such
    field, it returns normally as long as every authorizer answers with a
    safe code, and at the first unsafe answer it raises [KeyError] for the
    field instead of [AuthError]. *)
Theorem X8_authorize_without_a_trace_raises_key_error
  (depth : nat) (self : instance) (k : layer) (pre post : list authorizer)
  (a : authorizer) (w : world) :
  auth_owner self = Some k ->
  w_request w !! "middleware_stack" = None ->
  Forall (safe_on w) pre ->
  (w_auth w k = AuthInstance <$> pre ->
   AuthMiddleWare_authorize depth self w
   = (Returned tt, log_more (EvCheck <$> pre) w))
  /\ (w_auth w k = AuthInstance <$> (pre ++ a :: post) ->
      ~ safe_on w a ->
      AuthMiddleWare_authorize depth self w
      = (Raised (KeyError (VStr "middleware_stack")),
         log_more (EvCheck <$> pre ++ [a]) w)).
Proof.
  intros Hk Hstack Hpre. split.
  - intros Hl. rewrite (authorize_unfold depth self k w Hk), Hl.
    by apply authorize_loop_all_safe.
  - intros Hl Ha. rewrite (authorize_unfold depth self k w Hk), Hl.
    rewrite fmap_app, authorize_loop_safe_prefix by done.
    cbn [fmap list_fmap authorize_loop].
    unfold bind at 1. cbn.
    unfold safe_on, answer in Ha. apply not_true_is_false in Ha.
    rewrite Ha. unfold bind, request_item. cbn. rewrite Hstack.
    by rewrite !add_log_log_more, ?log_more_app, ?fmap_app.
Qed.

(** X9.  The token branch of the identity layer's [delegate] evaluates
    [request[TOKEN_HEADER][1]] before it stores into the response, and
    none of its failures is caught: a request without the header raises
    [KeyError] for it, a header with no element 1 raises what the indexing
    raises, and a response that is not a dict (such as the default [None])
    raises [TypeError].  In each case the process state is left as it was
    and no layer is entered. *)
Theorem X9_token_branch_failures
  (depth : nat) (enter : layer -> pyval -> M pyval) (self : instance)
  (response : pyval) (w : world) :
  is_requesting_authentication (w_request w) = true ->
  (w_request w !! TOKEN_HEADER = None ->
   IdentityAuthMiddleWare_delegate depth enter self response w
   = (Raised (KeyError (VStr TOKEN_HEADER)), w))
  /\ (forall header e,
        w_request w !! TOKEN_HEADER = Some header ->
        py_index header 1 = Raised e ->
        IdentityAuthMiddleWare_delegate depth enter self response w
        = (Raised e, w))
  /\ (forall header token,
        w_request w !! TOKEN_HEADER = Some header ->
        py_index header 1 = Returned token ->
        (forall d, response <> VDict d) ->
        IdentityAuthMiddleWare_delegate depth enter self response w
        = (Raised TypeError, w)).
Proof.
  intros Hask.
  unfold IdentityAuthMiddleWare_delegate, bind, gets, request_item, lift.
  cbn. rewrite Hask. split_and!.
  - by intros ->.
  - by intros header e -> ->.
  - intros header token -> -> Hd.
    destruct response as [| | | | | |d]; try reflexivity. by destruct (Hd d).
Qed.

(** ** The fields of the request *)

#[local] Instance keeps_fields_preorder : PreOrder keeps_fields.
Proof.
  split; unfold keeps_fields; [intros w | intros w1 w2 w3 H1 H2]; congruence.
Qed.

Lemma keeps_fields_same_request (w w' : world) :
  w_request w' = w_request w -> keeps_fields w w'.
Proof. unfold keeps_fields. by intros ->. Qed.

Lemma keeps_fields_emit e : preserves keeps_fields (emit e).
Proof. apply preserves_modify. intros w. by apply keeps_fields_same_request. Qed.

Lemma keeps_fields_set_auth k l :
  preserves keeps_fields (modify (set_auth k l)).
Proof. apply preserves_modify. intros w. by apply keeps_fields_same_request. Qed.

Lemma keeps_fields_set_instance cls v :
  preserves keeps_fields (modify (set_instance cls v)).
Proof. apply preserves_modify. intros w. by apply keeps_fields_same_request. Qed.

(** The one store into the request: the append to the trace. *)
Lemma keeps_fields_appendParam v :
  preserves keeps_fields (RequestOp_appendParam "middleware_stack" v).
Proof.
  intros w. unfold keeps_fields, RequestOp_appendParam.
  destruct (w_request w !! "middleware_stack") as [[]|]; cbn;
    by rewrite ?delete_insert_eq.
Qed.

Ltac fields_step :=
  first
    [ apply keeps_fields_emit
    | apply keeps_fields_appendParam
    | apply keeps_fields_set_auth
    | apply keeps_fields_set_instance
    | preserve_step ].

Lemma keeps_fields_init_loop k n ii :
  preserves keeps_fields (init_loop k n ii).
Proof.
  revert ii. induction n as [|n IH]; intros ii; cbn [init_loop].
  - preserve_step.
  - unfold call_auth. repeat fields_step. apply IH.
Qed.

Lemma keeps_fields_invoke_init depth x :
  preserves keeps_fields (invoke_init depth x).
Proof.
  unfold invoke_init, AuthMiddleWare__init. repeat fields_step;
    apply keeps_fields_init_loop.
Qed.

Lemma keeps_fields_ensure_instance depth cls :
  preserves keeps_fields (ensure_instance depth cls).
Proof.
  unfold ensure_instance.
  repeat first
    [ apply preserves_bind_instantiate;
        [apply _
        |intros w i _; by apply keeps_fields_same_request
        |intros i _ Hd]
    | apply keeps_fields_invoke_init
    | fields_step ].
Qed.

Lemma keeps_fields_authorize_loop self l :
  preserves keeps_fields (authorize_loop self l).
Proof.
  induction l as [|a l IH]; cbn [authorize_loop]; [preserve_step|].
  unfold call_authorizer. repeat fields_step. apply IH.
Qed.

Lemma keeps_fields_invoke_authorize depth x :
  preserves keeps_fields (invoke_authorize depth x).
Proof.
  unfold invoke_authorize, AuthMiddleWare_authorize, AuthMiddleWare__get_authorizers.
  repeat fields_step; apply keeps_fields_authorize_loop.
Qed.

Lemma keeps_fields_invoke_process depth x response :
  preserves keeps_fields (invoke_process depth x response).
Proof.
  unfold invoke_process, AuthMiddleWare_process, ViewAuthMiddleWare_process,
    IdentityAuthMiddleWare_process.
  repeat fields_step.
Qed.

Lemma keeps_fields_invoke_delegate depth enter x response :
  (forall c r, preserves keeps_fields (enter c r)) ->
  preserves keeps_fields (invoke_delegate depth enter x response).
Proof.
  intros He.
  unfold invoke_delegate, AuthMiddleWare_delegate, ViewAuthMiddleWare_delegate,
    IdentityAuthMiddleWare_delegate, StackedAuthMiddleWare_delegate,
    StackedAuthMiddleWare__get_stacked_middlewares.
  repeat fields_step;
    (apply preserves_stacked_loop; [apply _|intros; apply He]).
Qed.

Lemma keeps_fields_through_layer depth enter cls response :
  (forall c r, preserves keeps_fields (enter c r)) ->
  preserves keeps_fields (through_layer depth enter cls response).
Proof.
  intros He. unfold through_layer, run_hooks.
  repeat first
    [ apply keeps_fields_ensure_instance
    | apply keeps_fields_invoke_authorize
    | apply keeps_fields_invoke_process
    | apply keeps_fields_invoke_delegate
    | fields_step ].
  exact He.
Qed.

Lemma keeps_fields_process_request depth cls response :
  preserves keeps_fields (process_request depth cls response).
Proof.
  revert cls response. induction depth as [|depth IH]; intros cls response;
    cbn [process_request]; [preserve_step|].
  rewrite isabstract_source.
  repeat first
    [ apply keeps_fields_through_layer; exact IH
    | fields_step ].
Qed.

(** X10.  The token branch of the identity layer apart, which stores into
    the response the caller passed: whatever class is entered, on whatever
    response and process state, and whether the call returns or raises,
    the layers store into the request only under [middleware_stack].
    Every other field of the request is afterwards what the host passed
    in, and no field was added or removed.  (The authorizers and the
    router are taken not to store into the request.) *)
Theorem X10_only_the_trace_field_is_written
  (depth : nat) (cls : layer) (req : request) (response : pyval) (w : world)
  (key : string) :
  trace_ok req = true ->
  (cls = IdentityAuthMiddleWare ->
   is_requesting_authentication (traced req IdentityAuthMiddleWare) = false) ->
  delete "middleware_stack"
    (w_request (snd (serve depth cls req response w)))
  = delete "middleware_stack" req
  /\ (String.eqb key "middleware_stack" = false ->
      w_request (snd (serve depth cls req response w)) !! key = req !! key).
Proof.
  intros _ _.
  pose proof (keeps_fields_process_request depth cls response
                (set_request req w)) as H.
  unfold keeps_fields in H. cbn [set_request w_request] in H.
  split; [exact H|].
  intros Hkey. apply String.eqb_neq in Hkey.
  rewrite <- (lookup_delete_ne (w_request _) "middleware_stack" key) by done.
  unfold serve. rewrite H. by rewrite lookup_delete_ne.
Qed.

(** X11.  An entry into the view layer has two outcomes only.  If the
    method check and the access check both answer with a safe code on the
    traced request, it returns the router's response; otherwise it raises
    [AuthError] for the view layer.  It raises no other exception and never
    returns without having called the router. *)
Theorem X11_view_entry_routes_or_refuses
  (depth : nat) (req : request) (response : pyval) (w : world) :
  reachable w ->
  trace_ok req = true ->
  (forallb (fun a => in_SAFE_CODES
                       (fst (authorizer_authorize a
                               (traced req ViewAuthMiddleWare))))
     [SafeMethodOnlyAuthorizer; APIAuthorizer] = true
   /\ fst (serve (S depth) ViewAuthMiddleWare req response w)
      = Returned (route (traced req ViewAuthMiddleWare) response))
  \/ (forallb (fun a => in_SAFE_CODES
                          (fst (authorizer_authorize a
                                  (traced req ViewAuthMiddleWare))))
        [SafeMethodOnlyAuthorizer; APIAuthorizer] = false
      /\ exists b,
          fst (serve (S depth) ViewAuthMiddleWare req response w)
          = Raised (AuthError MSG_AUTH_FAILED b)
          /\ bundle_field b "layer" = Some (VClass ViewAuthMiddleWare)
          /\ bundle_field b "middleware_stack"
             = Some (VList (trace_of req ++ [VClass ViewAuthMiddleWare]))).
Proof.
  intros Hr Hok.
  pose proof (singletons_set_request req w (reachable_singletons w Hr)) as Hs.
  cbn [forallb]. rewrite andb_true_r.
  destruct (in_SAFE_CODES
              (fst (authorizer_authorize SafeMethodOnlyAuthorizer
                      (traced req ViewAuthMiddleWare)))) eqn:H1;
    [destruct (in_SAFE_CODES
                 (fst (authorizer_authorize APIAuthorizer
                         (traced req ViewAuthMiddleWare)))) eqn:H2|].
  - left. split; [reflexivity|].
    destruct (entry_granted depth ViewAuthMiddleWare response
                (set_request req w) eq_refl Hs Hok)
      as (w3 & self & creation & Hrun & Hself & _ & Hreq & _).
    { by repeat constructor. }
    unfold serve. rewrite Hrun.
    rewrite (invoke_delegate_view _ _ self response w3 Hself), Hreq.
    reflexivity.
  - right. split; [reflexivity|].
    destruct (entry_denied depth ViewAuthMiddleWare response
                (set_request req w) [SafeMethodOnlyAuthorizer] []
                APIAuthorizer eq_refl Hs Hok eq_refl)
      as (w3 & self & creation & Hrun & _); [by repeat constructor|exact H2|].
    eexists. unfold serve. rewrite Hrun. by split_and!.
  - right. split; [reflexivity|].
    destruct (entry_denied depth ViewAuthMiddleWare response
                (set_request req w) [] [APIAuthorizer]
                SafeMethodOnlyAuthorizer eq_refl Hs Hok eq_refl)
      as (w3 & self & creation & Hrun & _); [by constructor|exact H1|].
    eexists. unfold serve. rewrite Hrun. by split_and!.
Qed.


(** * The entry point in every process state *)

(** ** Fetching or building the singleton *)

#[local] Instance only_creates_preorder : PreOrder only_creates.
Proof.
  split.
  - intros w. split; [done|]. exists []. by rewrite app_nil_r.
  - intros w1 w2 w3 (Hr1 & c1 & Hl1 & Hc1) (Hr2 & c2 & Hl2 & Hc2).
    split; [congruence|]. exists (c1 ++ c2).
    rewrite Hl2, Hl1, <- app_assoc. split; [done|].
    by rewrite forallb_app, Hc1, Hc2.
Qed.

#[local] Instance same_instances_preorder : PreOrder same_instances.
Proof.
  split; unfold same_instances; [done | intros w1 w2 w3; congruence].
Qed.

Lemma only_creates_quiet (w w' : world) :
  w_request w' = w_request w -> w_log w' = w_log w -> only_creates w w'.
Proof. intros Hr Hl. split; [done|]. exists []. by rewrite app_nil_r. Qed.

Lemma only_creates_event (e : event) (w : world) :
  creation_event e = true -> only_creates w (add_log e w).
Proof. intros He. split; [done|]. exists [e]. cbn. by rewrite He. Qed.

Ltac creates_step :=
  first
    [ apply preserves_modify; intros ?;
      first [ apply only_creates_event; reflexivity
            | by apply only_creates_quiet ]
    | preserve_step ].

Ltac instances_step :=
  first [ apply preserves_modify; intros ?; reflexivity | preserve_step ].

Lemma only_creates_init_loop k n ii :
  preserves only_creates (init_loop k n ii).
Proof.
  revert ii. induction n as [|n IH]; intros ii; cbn [init_loop].
  - preserve_step.
  - unfold call_auth, emit. repeat creates_step. apply IH.
Qed.

Lemma only_creates_invoke_init depth x :
  preserves only_creates (invoke_init depth x).
Proof.
  unfold invoke_init, AuthMiddleWare__init, emit. repeat creates_step;
    apply only_creates_init_loop.
Qed.

(** Whatever the state, and whether it returns or raises, the block that
    fetches or builds the singleton leaves the request alone and logs
    creation events only. *)
Lemma only_creates_ensure_instance depth cls :
  preserves only_creates (ensure_instance depth cls).
Proof.
  unfold ensure_instance.
  repeat first
    [ apply preserves_bind_instantiate;
        [apply _
        |intros w i _; split; [done|]; by exists [EvNew i]
        |intros i _ _]
    | apply only_creates_invoke_init
    | creates_step ].
Qed.

Lemma same_instances_init_loop k n ii :
  preserves same_instances (init_loop k n ii).
Proof.
  revert ii. induction n as [|n IH]; intros ii; cbn [init_loop].
  - preserve_step.
  - unfold call_auth, emit. repeat instances_step. apply IH.
Qed.

Lemma same_instances_invoke_init depth x :
  preserves same_instances (invoke_init depth x).
Proof.
  unfold invoke_init, AuthMiddleWare__init, emit. repeat instances_step;
    apply same_instances_init_loop.
Qed.

(** A class finds first what it caches itself. *)
Lemma class_instance_own (slots : layer -> option (option instance)) cls v :
  slots cls = Some v -> class_instance slots cls = Some v.
Proof. intros H. unfold class_instance. destruct cls; simpl; by rewrite H. Qed.

(** What a class finds, one of the classes of its MRO caches. *)
Lemma class_instance_found (slots : layer -> option (option instance)) cls v :
  class_instance slots cls = Some v -> exists c, slots c = Some v.
Proof.
  unfold class_instance.
  destruct cls; simpl; intros H;
    repeat match type of H with
           | context [slots ?c] =>
               let E := fresh "E" in
               destruct (slots c) as [?|] eqn:E;
               [injection H as <-; by exists c|]
           end; discriminate.
Qed.

(** When a class finds nothing, neither it nor the class that owns its
    authorizer list caches anything. *)
Lemma class_instance_none (slots : layer -> option (option instance))
  (i : instance) k :
  class_instance slots (inst_class i) = None ->
  auth_owner i = Some k ->
  slots (inst_class i) = None /\ slots k = None.
Proof.
  unfold class_instance, auth_owner.
  destruct (inst_class i); simpl; intros H [= <-];
    repeat match type of H with
           | context [slots ?c] =>
               let E := fresh "E" in
               destruct (slots c) as [?|] eqn:E; [discriminate H|]
           end; done.
Qed.

(** The block of lines 49 to 53, case by case on what [hasattr] and
    [cls._instance] find. *)
Lemma ensure_instance_cases depth cls (w : world) :
  ensure_instance depth cls w
  = match class_instance (w_instance w) cls with
    | Some (Some _) => (Returned tt, w)
    | found =>
        let w0 := match found with
                  | None => set_instance cls None w
                  | Some _ => w
                  end in
        let inst := {| inst_id := w_next w; inst_class := cls;
                       inst_dict := ∅ |} in
        AuthMiddleWare__init depth inst
          (add_log (EvInit inst)
             (set_instance cls (Some inst)
                (add_log (EvNew inst) (bump_next w0))))
    end.
Proof.
  assert (Hinit : forall inst w', inst_class inst = cls ->
            invoke_init depth (Some inst) w'
            = AuthMiddleWare__init depth inst (add_log (EvInit inst) w')).
  { intros inst w' Hc. unfold invoke_init. rewrite Hc.
    destruct cls; reflexivity. }
  assert (Hown : forall v w', class_instance (w_instance (set_instance cls v w'))
                                cls = Some v).
  { intros v w'. apply class_instance_own. cbn. by rewrite decide_True. }
  unfold ensure_instance, bind, gets, modify, ret, class_getattr_instance,
    instantiate.
  rewrite isabstract_source. cbv beta iota.
  destruct (class_instance (w_instance w) cls) as [[i|]|] eqn:Hci;
    cbv beta iota zeta.
  - by rewrite Hci.
  - rewrite Hci. cbv beta iota. rewrite Hown. by rewrite Hinit.
  - rewrite (Hown None w). cbv beta iota. rewrite Hown. by rewrite Hinit.
Qed.

(** When the block returns, [cls._instance] is an instance. *)
Lemma ensure_instance_some depth cls (w w2 : world) :
  ensure_instance depth cls w = (Returned tt, w2) ->
  exists self, class_getattr_instance cls w2 = (Returned (Some self), w2).
Proof.
  assert (Hinit : forall inst w', inst_class inst = cls ->
            AuthMiddleWare__init depth inst (add_log (EvInit inst) w')
            = invoke_init depth (Some inst) w').
  { intros inst w' Hc. unfold invoke_init. rewrite Hc.
    destruct cls; reflexivity. }
  assert (Hbuilt : forall inst w',
            inst_class inst = cls ->
            AuthMiddleWare__init depth inst
              (add_log (EvInit inst) (set_instance cls (Some inst) w'))
            = (Returned tt, w2) ->
            class_getattr_instance cls w2 = (Returned (Some inst), w2)).
  { intros inst w' Hc Hrun. rewrite (Hinit inst _ Hc) in Hrun.
    pose proof (same_instances_invoke_init depth (Some inst)
                  (set_instance cls (Some inst) w')) as Hs.
    rewrite Hrun in Hs. unfold same_instances in Hs. cbn [snd] in Hs.
    unfold class_getattr_instance. rewrite Hs.
    rewrite (class_instance_own _ cls (Some inst)); [done|].
    cbn. by rewrite decide_True. }
  rewrite ensure_instance_cases.
  destruct (class_instance (w_instance w) cls) as [[i|]|] eqn:Hci;
    cbv zeta; intros H.
  - injection H as <-. exists i. unfold class_getattr_instance. by rewrite Hci.
  - eexists.
    apply (Hbuilt {| inst_id := w_next w; inst_class := cls; inst_dict := ∅ |}
             _ eq_refl H).
  - eexists.
    apply (Hbuilt {| inst_id := w_next w; inst_class := cls; inst_dict := ∅ |}
             _ eq_refl H).
Qed.

(** ** The hooks of whatever instance the class finds *)

Lemma invoke_authorize_any depth (self : instance) (w : world) :
  invoke_authorize depth (Some self) w
  = AuthMiddleWare_authorize depth self (add_log (EvAuthorize self) w).
Proof. unfold invoke_authorize. destruct (inst_class self); reflexivity. Qed.

Lemma invoke_process_any depth (self : instance) response (w : world) :
  invoke_process depth (Some self) response w
  = (Returned VNone, add_log (EvProcess self) w).
Proof. unfold invoke_process. destruct (inst_class self); reflexivity. Qed.

Lemma invoke_delegate_logs_any depth (self : instance) response (w : world) :
  trace_ok (w_request w) = true ->
  exists rest,
    w_log (snd (invoke_delegate depth (process_request depth) (Some self)
                  response w))
    = w_log w ++ EvDelegate self :: rest.
Proof.
  intros Hok.
  assert (Hq : trace_ok (w_request (add_log (EvDelegate self) w)) = true) by done.
  assert (He := extends_trace_process_request depth).
  assert (Hst : forall r, preserves extends_trace
                  (StackedAuthMiddleWare_delegate depth (process_request depth)
                     self r)).
  { intros r. apply preserves_stacked_delegate; [apply _ | intros; apply He]. }
  assert (Hp : exists body : M pyval,
             invoke_delegate depth (process_request depth) (Some self)
               response w
             = body (add_log (EvDelegate self) w)
             /\ preserves extends_trace body).
  { unfold invoke_delegate. destruct (inst_class self).
    - exists (AuthMiddleWare_delegate self response). split; [reflexivity|].
      unfold AuthMiddleWare_delegate. repeat trace_step.
    - exists (StackedAuthMiddleWare_delegate depth (process_request depth)
                self response). split; [reflexivity | apply Hst].
    - exists (ViewAuthMiddleWare_delegate self response). split; [reflexivity|].
      unfold ViewAuthMiddleWare_delegate. repeat trace_step.
    - exists (IdentityAuthMiddleWare_delegate depth (process_request depth)
                self response). split; [reflexivity|].
      unfold IdentityAuthMiddleWare_delegate.
      repeat first [ apply Hst | trace_step ]. }
  destruct Hp as (body & -> & Hp).
  destruct (Hp _ Hq) as (_ & delta & -> & _).
  exists delta. cbn. by rewrite <- app_assoc.
Qed.


(** ** The class table of a process *)

#[local] Instance keeps_coherent_preorder : PreOrder keeps_coherent.
Proof. split; unfold keeps_coherent; [intros w | intros w1 w2 w3]; tauto. Qed.

Lemma coherent_initial (r : request) : coherent (initial_world r).
Proof. split; intros c; cbn; auto. Qed.

Lemma keeps_coherent_quiet (w w' : world) :
  w_instance w' = w_instance w -> w_auth w' = w_auth w -> keeps_coherent w w'.
Proof. intros Hi Ha [H1 H2]. split; intros c; rewrite Hi, ?Ha; auto. Qed.

Lemma AuthMiddleWare__init_run depth (self : instance) k
  (l : list authorizer) (w : world) :
  auth_owner self = Some k ->
  w_auth w k = AuthType <$> l ->
  exists w',
    AuthMiddleWare__init depth self w = (Returned tt, w')
    /\ w_auth w' k = AuthInstance <$> l
    /\ (forall k', k' <> k -> w_auth w' k' = w_auth w k')
    /\ w_instance w' = w_instance w.
Proof.
  intros Hk Hl.
  destruct (init_loop_run k [] l w Hl) as (w' & Hrun & Ha & Ho & Hi & _).
  exists w'. split_and!; try done.
  unfold AuthMiddleWare__init. rewrite Hk. unfold bind, gets. cbv beta iota.
  rewrite Hl, length_fmap. exact Hrun.
Qed.

Lemma initial_auth_classes (c : layer) :
  initial_auth c = AuthType <$> authorizers_of c.
Proof. by destruct c. Qed.

(** In a coherent class table the block that fetches or builds the
    singleton returns, and leaves a coherent table. *)
Lemma ensure_instance_coherent depth cls (w : world) :
  coherent w ->
  exists w2, ensure_instance depth cls w = (Returned tt, w2) /\ coherent w2.
Proof.
  intros Hco. pose proof Hco as [Hslots Hlists].
  rewrite ensure_instance_cases.
  destruct (class_instance (w_instance w) cls) as [[i|]|] eqn:Hci.
  - by exists w.
  - apply class_instance_found in Hci as [c Hc].
    destruct (Hslots c) as [Hn | (j & Hj & _)]; congruence.
  - cbv zeta.
    set (inst := {| inst_id := w_next w; inst_class := cls; inst_dict := ∅ |}).
    set (w1 := add_log (EvInit inst)
                 (set_instance cls (Some inst)
                    (add_log (EvNew inst)
                       (bump_next (set_instance cls None w))))).
    assert (Hk : exists k, auth_owner inst = Some k).
    { unfold auth_owner. cbn. destruct cls; by eexists. }
    destruct Hk as [k Hk].
    destruct (class_instance_none (w_instance w) inst k Hci Hk) as [Hown Hkn].
    cbn in Hown.
    assert (Hl : w_auth w1 k = AuthType <$> authorizers_of k).
    { cbn. rewrite Hlists, Hkn. apply initial_auth_classes. }
    destruct (AuthMiddleWare__init_run depth inst k (authorizers_of k) w1 Hk Hl)
      as (w2 & Hrun & Ha & Ho & Hi).
    exists w2. split; [exact Hrun|]. split.
    + intros c. rewrite Hi. cbn. destruct (decide (c = cls)) as [->|Hne].
      * right. by exists inst.
      * destruct (decide (c = cls)); [done|]. apply Hslots.
    + intros c. rewrite Hi. cbn.
      destruct (decide (c = k)) as [->|Hck].
      * rewrite Ha, <- instantiated_initial.
        unfold auth_owner in Hk. cbn in Hk.
        destruct cls; injection Hk as <-; cbn; try reflexivity.
        all: by rewrite Hkn.
      * rewrite (Ho c Hck). cbn. rewrite Hlists.
        unfold auth_owner in Hk. cbn in Hk.
        destruct cls; injection Hk as <-; destruct c; cbn; try done.
        all: by rewrite ?Hown.
Qed.

Lemma keeps_coherent_emit e : preserves keeps_coherent (emit e).
Proof. apply preserves_modify. intros w. by apply keeps_coherent_quiet. Qed.

Lemma keeps_coherent_appendParam key v :
  preserves keeps_coherent (RequestOp_appendParam key v).
Proof.
  intros w. apply keeps_coherent_quiet; unfold RequestOp_appendParam;
    by destruct (w_request w !! key) as [[]|].
Qed.

Lemma keeps_coherent_ensure_instance depth cls :
  preserves keeps_coherent (ensure_instance depth cls).
Proof.
  intros w Hco.
  by destruct (ensure_instance_coherent depth cls w Hco) as (w2 & -> & H).
Qed.

Lemma keeps_coherent_invoke_authorize depth x :
  preserves keeps_coherent (invoke_authorize depth x).
Proof.
  destruct x as [self|]; [|unfold invoke_authorize; preserve_step].
  intros w. rewrite invoke_authorize_any.
  destruct (authorize_only_checks depth self (add_log (EvAuthorize self) w))
    as [checks ->].
  by apply keeps_coherent_quiet.
Qed.

Lemma keeps_coherent_invoke_process depth x response :
  preserves keeps_coherent (invoke_process depth x response).
Proof.
  destruct x as [self|]; [|unfold invoke_process; preserve_step].
  intros w. rewrite invoke_process_any. by apply keeps_coherent_quiet.
Qed.

Ltac coherent_step :=
  first
    [ apply keeps_coherent_emit
    | apply keeps_coherent_appendParam
    | preserve_step ].

Lemma keeps_coherent_invoke_delegate depth enter x response :
  (forall c r, preserves keeps_coherent (enter c r)) ->
  preserves keeps_coherent (invoke_delegate depth enter x response).
Proof.
  intros He.
  unfold invoke_delegate, AuthMiddleWare_delegate, ViewAuthMiddleWare_delegate,
    IdentityAuthMiddleWare_delegate, StackedAuthMiddleWare_delegate,
    StackedAuthMiddleWare__get_stacked_middlewares.
  repeat coherent_step;
    (apply preserves_stacked_loop; [apply _|intros; apply He]).
Qed.

Lemma keeps_coherent_through_layer depth enter cls response :
  (forall c r, preserves keeps_coherent (enter c r)) ->
  preserves keeps_coherent (through_layer depth enter cls response).
Proof.
  intros He. unfold through_layer, run_hooks.
  repeat first
    [ apply keeps_coherent_ensure_instance
    | apply keeps_coherent_invoke_authorize
    | apply keeps_coherent_invoke_process
    | apply keeps_coherent_invoke_delegate
    | coherent_step ].
  exact He.
Qed.

Lemma keeps_coherent_process_request depth cls response :
  preserves keeps_coherent (process_request depth cls response).
Proof.
  revert cls response. induction depth as [|depth IH]; intros cls response;
    cbn [process_request]; [preserve_step|].
  rewrite isabstract_source.
  repeat first
    [ apply keeps_coherent_through_layer; exact IH
    | coherent_step ].
Qed.

(** Every state the entry point can produce has a coherent class table. *)
Lemma attainable_coherent (w : world) : attainable w -> coherent w.
Proof.
  induction 1 as [r | depth cls req response w Hr IH].
  - apply coherent_initial.
  - unfold serve.
    apply (keeps_coherent_process_request depth cls response (set_request req w)).
    destruct IH as [H1 H2]. by split.
Qed.


(** ** The order of the steps *)

(** C9.  One invocation of the entry point, on any layer type, request,
    response and process state.  First the class is appended to the
    trace.  Then the singleton is fetched or built, which logs creation
    events only; should that raise, the entry point raises the same
    exception and nothing further is called.  Then [authorize] runs on the
    instance [cls._instance] holds, which logs checks only; if it raises,
    the entry point raises the same exception and neither hook is called.
    Otherwise [process] is called, then [delegate], both on that instance,
    and what [delegate] returns or raises is the result of the entry
    point.  In every state the entry point itself can produce the
    singleton step returns; and in a process that only entered concrete
    types, the instance of a concrete type is an instance of that type. *)
Theorem C9_entry_point_step_order
  (depth : nat) (cls : layer) (req : request) (response : pyval) (w : world) :
  trace_ok req = true ->
  exists w1 creation,
    serve (S depth) cls req response w
    = through_layer depth (process_request depth) cls response w1
    /\ w_log w1 = w_log w ++ [EvEnter cls]
    /\ trace_of (w_request w1) = trace_of req ++ [VClass cls]
    /\ w_log (snd (ensure_instance depth cls w1)) = w_log w1 ++ creation
    /\ forallb creation_event creation = true
    /\ match ensure_instance depth cls w1 with
       | (Raised e, w2) =>
           serve (S depth) cls req response w = (Raised e, w2)
       | (Returned _, w2) =>
           exists self checks,
             class_getattr_instance cls w2 = (Returned (Some self), w2)
             /\ let auth :=
                  AuthMiddleWare_authorize depth self
                    (add_log (EvAuthorize self) w2) in
                w_log (snd auth)
                = w_log w2 ++ EvAuthorize self :: (EvCheck <$> checks)
                /\ match fst auth with
                   | Raised e =>
                       serve (S depth) cls req response w
                       = (Raised e, snd auth)
                   | Returned _ =>
                       serve (S depth) cls req response w
                       = invoke_delegate depth (process_request depth)
                           (Some self) response
                           (add_log (EvProcess self) (snd auth))
                       /\ exists rest,
                           w_log (snd (serve (S depth) cls req response w))
                           = w_log (snd auth)
                             ++ EvProcess self :: EvDelegate self :: rest
                   end
       end
    /\ (attainable w -> fst (ensure_instance depth cls w1) = Returned tt)
    /\ (is_concrete cls = true -> reachable w ->
        exists self,
          class_getattr_instance cls (snd (ensure_instance depth cls w1))
          = (Returned (Some self), snd (ensure_instance depth cls w1))
          /\ inst_class self = cls).
Proof.
  intros Hok.
  unfold serve. set (w0 := set_request req w).
  destruct (process_request_enters depth cls response w0 Hok)
    as (w1 & Hrun1 & Hl1 & Ht1 & Hok1 & Hi1 & Ha1 & Hn1 & _).
  destruct (only_creates_ensure_instance depth cls w1)
    as (Hreq2 & creation & Hl2 & Hcr).
  exists w1, creation.
  split; [exact Hrun1|]. split; [exact Hl1|]. split; [exact Ht1|].
  split; [exact Hl2|]. split; [exact Hcr|]. split; [|split].
  - rewrite Hrun1. unfold through_layer.
    destruct (ensure_instance depth cls w1) as [[[]|e] w2] eqn:Hrun2;
      cbn [fst snd] in *; [|by rewrite (bind_raised _ _ _ _ _ Hrun2)].
    rewrite (bind_returned _ _ _ _ _ Hrun2). unfold run_hooks.
    destruct (ensure_instance_some depth cls w1 w2 Hrun2) as [self Hget].
    destruct (authorize_only_checks depth self (add_log (EvAuthorize self) w2))
      as [checks Hw3].
    exists self, checks. split; [exact Hget|]. cbv zeta. split.
    { rewrite Hw3. cbn. by rewrite <- app_assoc. }
    rewrite (bind_returned _ _ _ _ _ Hget).
    rewrite <- (invoke_authorize_any depth self w2) in Hw3 |- *.
    destruct (invoke_authorize depth (Some self) w2) as [[[]|e] w3] eqn:Hauth;
      cbn [fst snd] in *.
    + rewrite (bind_returned _ _ _ _ _ Hauth).
      assert (Hget3 : class_getattr_instance cls w3 = (Returned (Some self), w3)).
      { apply (class_getattr_instance_same cls w2 w3 _ Hget). by rewrite Hw3. }
      rewrite (bind_returned _ _ _ _ _ Hget3).
      rewrite (bind_returned _ _ _ _ _
                 (invoke_process_any depth self response w3)).
      assert (Hget4 : class_getattr_instance cls (add_log (EvProcess self) w3)
                      = (Returned (Some self), add_log (EvProcess self) w3)).
      { by apply (class_getattr_instance_same cls w3 _ _ Hget3). }
      rewrite (bind_returned _ _ _ _ _ Hget4).
      split; [reflexivity|].
      destruct (invoke_delegate_logs_any depth self response
                  (add_log (EvProcess self) w3)) as [rest Hrest].
      { cbn. rewrite Hw3. cbn. by rewrite Hreq2. }
      exists rest. rewrite Hrest. cbn. by rewrite <- app_assoc.
    + by rewrite (bind_raised _ _ _ _ _ Hauth).
  - intros Hat.
    assert (Hco1 : coherent w1).
    { apply (keeps_coherent_quiet w w1); [done|done|].
      by apply attainable_coherent. }
    by destruct (ensure_instance_coherent depth cls w1 Hco1) as (w2 & -> & _).
  - intros Hc Hr.
    assert (Hs1 : singletons w1).
    { apply (keeps_singletons_quiet w0 w1 [EvEnter cls]); try done.
      apply singletons_set_request. by apply reachable_singletons. }
    destruct (ensure_instance_singletons depth cls w1 Hc Hs1)
      as (w2 & self & creation' & -> & Hget & Hb & _).
    exists self. split; [exact Hget | apply Hb].
Qed.

(** ** A singleton of the base class *)

(** An entry into a class that finds an instance of [AuthMiddleWare]
    under [_instance]. *)
Lemma entry_on_cached_base depth cls response (w : world) (i : instance) :
  trace_ok (w_request w) = true ->
  class_instance (w_instance w) cls = Some (Some i) ->
  inst_class i = AuthMiddleWare ->
  w_auth w AuthMiddleWare = [] ->
  exists w',
    process_request (S depth) cls response w = (Returned VNone, w')
    /\ w_log w' = w_log w
                    ++ [EvEnter cls; EvAuthorize i; EvProcess i; EvDelegate i]
    /\ w_instance w' = w_instance w
    /\ w_auth w' = w_auth w.
Proof.
  intros Hok Hci Hclass Hauth.
  destruct (process_request_enters depth cls response w Hok)
    as (w1 & Hrun1 & Hl1 & _ & _ & Hi1 & Ha1 & _ & _).
  rewrite <- Hi1 in Hci. rewrite <- Ha1 in Hauth.
  assert (Hget : forall evs,
             class_getattr_instance cls (log_more evs w1)
             = (Returned (Some i), log_more evs w1)).
  { intros evs. unfold class_getattr_instance. cbn [log_more w_instance].
    by rewrite Hci. }
  assert (Hens : ensure_instance depth cls w1 = (Returned tt, w1)).
  { by rewrite ensure_instance_cases, Hci. }
  assert (H1 : invoke_authorize depth (Some i) (log_more [] w1)
               = (Returned tt, log_more [EvAuthorize i] w1)).
  { rewrite invoke_authorize_any, log_more_nil.
    rewrite (authorize_unfold depth i AuthMiddleWare);
      [|by unfold auth_owner; rewrite Hclass].
    cbn [add_log w_auth]. by rewrite Hauth. }
  assert (H3 : invoke_delegate depth (process_request depth) (Some i) response
                 (log_more [EvAuthorize i; EvProcess i] w1)
               = (Returned VNone,
                  log_more [EvAuthorize i; EvProcess i; EvDelegate i] w1)).
  { unfold invoke_delegate. rewrite Hclass.
    change (class_lookup source_classes AuthMiddleWare "delegate")
      with (Some (AuthMiddleWare, AbstractMethod)). cbv iota beta.
    unfold AuthMiddleWare_delegate, bind, emit, modify, ret. cbn [fst snd].
    by rewrite add_log_log_more, log_more_app. }
  exists (log_more [EvAuthorize i; EvProcess i; EvDelegate i] w1).
  split.
  { rewrite Hrun1. unfold through_layer.
    rewrite (bind_returned _ _ _ _ _ Hens). unfold run_hooks.
    rewrite <- (log_more_nil w1) at 1.
    rewrite (bind_returned _ _ _ _ _ (Hget [])).
    rewrite (bind_returned _ _ _ _ _ H1).
    rewrite (bind_returned _ _ _ _ _ (Hget [EvAuthorize i])).
    rewrite (bind_returned _ _ _ _ _
               (invoke_process_any depth i response _)).
    rewrite add_log_log_more, log_more_app.
    rewrite (bind_returned _ _ _ _ _ (Hget _)).
    exact H3. }
  cbn [log_more w_log w_instance w_auth].
  split_and!; try done.
  rewrite Hl1. by rewrite <- app_assoc.
Qed.

(** C6.  The singleton of a concrete type is not kept once the base class
    has been entered.  After one entry into [AuthMiddleWare] on a fresh
    process, two entries into a concrete type, on any requests, both find
    the base-class instance under [_instance] and run on it: they return
    [None], no instance of the concrete type is ever created, [_init]
    never runs for the type, and its authorizer list still holds the
    classes the class body wrote. *)
Theorem C6_base_entry_defeats_the_singleton
  (d1 d2 : nat) (cls : layer) (req1 req2 : request) (resp1 resp2 : pyval) :
  is_concrete cls = true ->
  trace_ok req1 = true ->
  trace_ok req2 = true ->
  let i0 := {| inst_id := 0; inst_class := AuthMiddleWare; inst_dict := ∅ |} in
  let w0 := snd (serve 1 AuthMiddleWare ∅ VNone (initial_world ∅)) in
  let w1 := snd (serve (S d1) cls req1 resp1 w0) in
  let w2 := snd (serve (S d2) cls req2 resp2 w1) in
  attainable w2
  /\ fst (serve (S d1) cls req1 resp1 w0) = Returned VNone
  /\ fst (serve (S d2) cls req2 resp2 w1) = Returned VNone
  /\ w_log w2 = w_log w0
                  ++ [EvEnter cls; EvAuthorize i0; EvProcess i0; EvDelegate i0;
                      EvEnter cls; EvAuthorize i0; EvProcess i0; EvDelegate i0]
  /\ w_instance w2 cls = None
  /\ class_instance (w_instance w2) cls = Some (Some i0)
  /\ inst_class i0 <> cls
  /\ count_new cls (w_log w2) = 0
  /\ count_init cls (w_log w2) = 0
  /\ w_auth w2 cls = initial_auth cls
  /\ w_auth w2 cls <> instantiated (initial_auth cls).
Proof.
  intros Hc Hok1 Hok2. cbv zeta.
  set (i0 := {| inst_id := 0; inst_class := AuthMiddleWare; inst_dict := ∅ |}).
  set (w0 := snd (serve 1 AuthMiddleWare ∅ VNone (initial_world ∅))).
  assert (Hci0 : class_instance (w_instance w0) cls = Some (Some i0)).
  { apply is_concrete_spec in Hc as [-> | ->]; reflexivity. }
  assert (Hown0 : w_instance w0 cls = None).
  { apply is_concrete_spec in Hc as [-> | ->]; reflexivity. }
  assert (Hl0 : w_log w0 = [EvEnter AuthMiddleWare; EvNew i0; EvInit i0;
                            EvAuthorize i0; EvProcess i0; EvDelegate i0])
    by reflexivity.
  assert (Ha0 : w_auth w0 = initial_auth) by reflexivity.
  destruct (entry_on_cached_base d1 cls resp1 (set_request req1 w0) i0
              Hok1 Hci0 eq_refl eq_refl)
    as (w1 & Hrun1 & Hlog1 & Hi1 & Hau1).
  assert (Hci1 : class_instance (w_instance (set_request req2 w1)) cls
                 = Some (Some i0)).
  { cbn [set_request w_instance]. by rewrite Hi1. }
  assert (Hau1' : w_auth (set_request req2 w1) AuthMiddleWare = []).
  { cbn [set_request w_auth]. by rewrite Hau1. }
  destruct (entry_on_cached_base d2 cls resp2 (set_request req2 w1) i0
              Hok2 Hci1 eq_refl Hau1')
    as (w2 & Hrun2 & Hlog2 & Hi2 & Hau2).
  unfold serve. rewrite Hrun1. cbn [fst snd]. rewrite Hrun2. cbn [fst snd].
  cbn [set_request w_log w_instance w_auth] in *.
  assert (Hlog : w_log w2 = w_log w0
                   ++ [EvEnter cls; EvAuthorize i0; EvProcess i0;
                       EvDelegate i0; EvEnter cls; EvAuthorize i0;
                       EvProcess i0; EvDelegate i0]).
  { rewrite Hlog2, Hlog1. by rewrite <- app_assoc. }
  split_and!; try done.
  - pose proof (attain_serve (S d2) cls req2 resp2 _
                  (attain_serve (S d1) cls req1 resp1 _
                     (attain_serve 1 AuthMiddleWare ∅ VNone _
                        (attain_start ∅)))) as Hat.
    fold w0 in Hat. unfold serve in Hat.
    rewrite Hrun1 in Hat. cbn [snd] in Hat. by rewrite Hrun2 in Hat.
  - by rewrite Hi2, Hi1.
  - by rewrite Hi2, Hi1.
  - apply is_concrete_spec in Hc as [-> | ->]; discriminate.
  - rewrite Hlog, Hl0. apply is_concrete_spec in Hc as [-> | ->]; reflexivity.
  - rewrite Hlog, Hl0. apply is_concrete_spec in Hc as [-> | ->]; reflexivity.
  - by rewrite Hau2, Hau1, Ha0.
  - rewrite Hau2, Hau1, Ha0.
    apply is_concrete_spec in Hc as [-> | ->]; discriminate.
Qed.

End Middleware.

(** * The properties on a sample process

    The collaborators are the sample ones: the token header is
    [Authorization], and the two messages are fixed strings. *)

Abbreviation sample_process_request :=
  (process_request "abstract middleware" "authorization failed" sample_safe
     "Authorization" sample_authorize sample_asking sample_route).

Abbreviation sample_serve :=
  (serve "abstract middleware" "authorization failed" sample_safe
     "Authorization" sample_authorize sample_asking sample_route).

Abbreviation sample_reachable :=
  (reachable "abstract middleware" "authorization failed" sample_safe
     "Authorization" sample_authorize sample_asking sample_route).

Abbreviation sample_AuthMiddleWare_authorize :=
  (AuthMiddleWare_authorize "authorization failed" sample_safe sample_authorize).

(** The identity layer entered on a fresh process: the trace gets the
    identity layer, then the view layer. *)
Lemma C2_witness :
  trace_ok (w_request (initial_world sample_request)) = true
  /\ let w' := snd (sample_process_request 2 IdentityAuthMiddleWare (VDict ∅)
                      (initial_world sample_request)) in
     exists rest,
       w_log w' = w_log (initial_world sample_request)
                  ++ EvEnter IdentityAuthMiddleWare :: rest
       /\ trace_of (w_request w')
          = trace_of (w_request (initial_world sample_request))
            ++ VClass IdentityAuthMiddleWare :: (VClass <$> entered rest)
       /\ w_request w' !! "middleware_stack"
          = Some (VList (trace_of (w_request w')))
       /\ length (trace_of (w_request w'))
          = length (trace_of (w_request (initial_world sample_request)))
            + length (entered (EvEnter IdentityAuthMiddleWare :: rest)).
Proof.
  split; [reflexivity|].
  exact (C2_each_entry_appends_its_layer
           "abstract middleware" "authorization failed" sample_safe
           "Authorization" sample_authorize sample_asking sample_route
           1 IdentityAuthMiddleWare (VDict ∅) (initial_world sample_request)
           eq_refl).
Defined.

(** The view layer asked to authorize a [POST]: the method check answers
    405, and the access check after it is not asked. *)
Lemma C3_witness :
  auth_owner sample_view = Some ViewAuthMiddleWare
  /\ w_auth (sample_world sample_post) ViewAuthMiddleWare
     = AuthInstance <$> [SafeMethodOnlyAuthorizer; APIAuthorizer]
  /\ w_request (sample_world sample_post) !! "middleware_stack"
     = Some (VList [VClass ViewAuthMiddleWare])
  /\ exists b w',
      sample_AuthMiddleWare_authorize 0 sample_view (sample_world sample_post)
      = (Raised (AuthError "authorization failed" b), w')
      /\ checked (w_log w') = [SafeMethodOnlyAuthorizer].
Proof.
  split; [reflexivity|]. split; [reflexivity|]. split; [reflexivity|].
  destruct (C3_authorize_stops_at_first_unsafe
              "authorization failed" sample_safe sample_authorize
              0 sample_view ViewAuthMiddleWare
              [SafeMethodOnlyAuthorizer; APIAuthorizer]
              (sample_world sample_post) (VList [VClass ViewAuthMiddleWare])
              eq_refl eq_refl eq_refl) as [Hfail _].
  destruct (Hfail [] SafeMethodOnlyAuthorizer [APIAuthorizer] eq_refl
              (Forall_nil_2 _))
    as (b & w' & Hrun & _ & Hchecked); [discriminate|].
  exists b, w'. split; [exact Hrun | exact Hchecked].
Defined.

(** The bundle of that failure. *)
Lemma C4_witness :
  auth_owner sample_view = Some ViewAuthMiddleWare
  /\ w_auth (sample_world sample_post) ViewAuthMiddleWare
     = AuthInstance <$> ([] ++ SafeMethodOnlyAuthorizer :: [APIAuthorizer])
  /\ w_request (sample_world sample_post) !! "middleware_stack"
     = Some (VList [VClass ViewAuthMiddleWare])
  /\ Forall (safe_on sample_safe sample_authorize (sample_world sample_post)) []
  /\ ~ safe_on sample_safe sample_authorize (sample_world sample_post)
         SafeMethodOnlyAuthorizer
  /\ exists b,
      fst (sample_AuthMiddleWare_authorize 0 sample_view
             (sample_world sample_post))
      = Raised (AuthError "authorization failed" b)
      /\ bundle_field b "layer" = Some (VClass ViewAuthMiddleWare)
      /\ bundle_field b "authorizer_error"
         = Some (VTuple [VInt 405; VStr "method not allowed"])
      /\ bundle_field b "middleware_stack"
         = Some (VList [VClass ViewAuthMiddleWare])
      /\ bundle_field b "request_dump" = Some (VDict sample_post).
Proof.
  split; [reflexivity|]. split; [reflexivity|]. split; [reflexivity|].
  split; [apply Forall_nil_2|]. split; [discriminate|].
  destruct (C4_auth_error_bundle
              "authorization failed" sample_safe sample_authorize
              0 sample_view ViewAuthMiddleWare [] [APIAuthorizer]
              SafeMethodOnlyAuthorizer (sample_world sample_post)
              (VList [VClass ViewAuthMiddleWare])
              eq_refl eq_refl eq_refl (Forall_nil_2 _))
    as (b & Hrun & _ & _ & Hstack & Hlayer & Herr & Hreq); [discriminate|].
  exists b. split; [exact Hrun|]. split; [exact Hlayer|].
  split; [exact Herr|]. split; [exact Hstack|].
  rewrite Hreq. reflexivity.
Defined.

(** The view layer entered twice after the base class was entered once. *)
Lemma C6_witness :
  is_concrete ViewAuthMiddleWare = true
  /\ trace_ok sample_request = true
  /\ trace_ok sample_grant = true
  /\ let w0 := snd (sample_serve 1 AuthMiddleWare ∅ VNone (initial_world ∅)) in
     let w1 := snd (sample_serve 1 ViewAuthMiddleWare sample_request (VDict ∅)
                      w0) in
     let w2 := snd (sample_serve 1 ViewAuthMiddleWare sample_grant VNone w1) in
     w_instance w2 ViewAuthMiddleWare = None
     /\ count_new ViewAuthMiddleWare (w_log w2) = 0
     /\ count_init ViewAuthMiddleWare (w_log w2) = 0
     /\ w_auth w2 ViewAuthMiddleWare
        = [AuthType SafeMethodOnlyAuthorizer; AuthType APIAuthorizer].
Proof.
  split; [reflexivity|]. split; [reflexivity|]. split; [reflexivity|].
  destruct (C6_base_entry_defeats_the_singleton
              "abstract middleware" "authorization failed" sample_safe
              "Authorization" sample_authorize sample_asking sample_route
              0 0 ViewAuthMiddleWare sample_request sample_grant (VDict ∅) VNone
              eq_refl eq_refl eq_refl)
    as (_ & _ & _ & _ & H1 & _ & _ & H2 & H3 & H4 & _).
  cbv zeta. split; [exact H1|]. split; [exact H2|]. split; [exact H3|].
  exact H4.
Defined.

(** The stacked delegation of the identity instance is one entry into the
    view layer. *)
Lemma C7_witness :
  stacked_owner sample_identity = Some IdentityAuthMiddleWare
  /\ StackedAuthMiddleWare_delegate 1 (sample_process_request 1)
       sample_identity (VDict ∅) (sample_world sample_request)
     = stacked_loop (sample_process_request 1)
         (STACKED_MIDDLEWARES IdentityAuthMiddleWare) (VDict ∅)
         (sample_world sample_request).
Proof.
  split; [reflexivity|].
  exact (proj1 (C7_stacked_delegate_threads_the_response
                  "abstract middleware" "authorization failed" sample_safe
                  "Authorization" sample_authorize sample_asking sample_route
                  1 sample_identity IdentityAuthMiddleWare (VDict ∅)
                  (sample_world sample_request) eq_refl)).
Defined.

(** A request that asks for a token gets it back under the token header;
    an anonymous [GET], with no token header at all, falls through to the
    view layer. *)
Lemma C8_witness :
  inst_class sample_identity = IdentityAuthMiddleWare
  /\ (sample_asking (w_request (sample_world sample_grant)) = true
      /\ w_request (sample_world sample_grant) !! "Authorization"
         = Some (VList [VStr "Bearer"; VStr "t0k3n"])
      /\ py_index (VList [VStr "Bearer"; VStr "t0k3n"]) 1
         = Returned (VStr "t0k3n")
      /\ IdentityAuthMiddleWare_delegate "Authorization" sample_asking 1
           (sample_process_request 1) sample_identity (VDict ∅)
           (sample_world sample_grant)
         = (Returned (VDict (<["Authorization" := VStr "t0k3n"]> ∅)),
            sample_world sample_grant))
  /\ (sample_asking (w_request (sample_world {[ "method" := VStr "GET" ]}))
      = false
      /\ w_request (sample_world {[ "method" := VStr "GET" ]})
           !! "Authorization" = None
      /\ IdentityAuthMiddleWare_delegate "Authorization" sample_asking 1
           (sample_process_request 1) sample_identity (VDict ∅)
           (sample_world {[ "method" := VStr "GET" ]})
         = sample_process_request 1 ViewAuthMiddleWare (VDict ∅)
             (sample_world {[ "method" := VStr "GET" ]})).
Proof.
  split; [reflexivity|]. split.
  - split; [reflexivity|]. split; [reflexivity|]. split; [reflexivity|].
    exact (proj1 (C8_identity_delegate_short_circuits
                    "Authorization" sample_asking 1 (sample_process_request 1)
                    sample_identity (sample_world sample_grant) eq_refl)
             eq_refl ∅ (VList [VStr "Bearer"; VStr "t0k3n"]) (VStr "t0k3n")
             eq_refl eq_refl).
  - assert (Hask : sample_asking
                     (w_request (sample_world {[ "method" := VStr "GET" ]}))
                   = false) by reflexivity.
    split; [exact Hask|]. split; [reflexivity|].
    destruct (proj2 (C8_identity_delegate_short_circuits
                       "Authorization" sample_asking 1
                       (sample_process_request 1) sample_identity
                       (sample_world {[ "method" := VStr "GET" ]}) eq_refl)
                Hask (VDict ∅)) as [H1 H2].
    exact (eq_trans H1 H2).
Defined.

(** The view layer entered once on a fresh process, on a safe request. *)
Lemma C9_witness :
  trace_ok sample_request = true
  /\ exists w1 creation,
      sample_serve 2 ViewAuthMiddleWare sample_request (VDict ∅)
        (initial_world ∅)
      = through_layer "authorization failed" sample_safe "Authorization"
          sample_authorize sample_asking sample_route
          1 (sample_process_request 1) ViewAuthMiddleWare (VDict ∅) w1
      /\ w_log w1 = [EvEnter ViewAuthMiddleWare]
      /\ forallb creation_event creation = true.
Proof.
  split; [reflexivity|].
  destruct (C9_entry_point_step_order
              "abstract middleware" "authorization failed" sample_safe
              "Authorization" sample_authorize sample_asking sample_route
              1 ViewAuthMiddleWare sample_request (VDict ∅) (initial_world ∅)
              eq_refl)
    as (w1 & creation & Hrun & Hlog & _ & _ & Hcr & _).
  exists w1, creation. split; [exact Hrun|]. split; [exact Hlog | exact Hcr].
Defined.

(** A view instance as the entry point creates it: assigning to it, and
    reading a name it does not have, both end in the recursion limit. *)
Lemma C10_witness :
  inst_dict sample_view !! private_dict = None
  /\ pristine (initial_world ∅)
  /\ instance_setattr 50 (fun _ => None) sample_view "token" (VStr "t0k3n")
     = (Raised RecursionError, sample_view)
  /\ instance_getattr 50 (fun _ => None) sample_view "token"
     = Raised RecursionError
  /\ pristine (snd (sample_serve 2 IdentityAuthMiddleWare sample_request
                      (VDict ∅) (initial_world ∅))).
Proof.
  assert (Hp : pristine (initial_world ∅)) by (intros c i H; discriminate H).
  split; [reflexivity|]. split; [exact Hp|].
  destruct (C10_attribute_hooks_never_succeed
              "abstract middleware" "authorization failed" sample_safe
              "Authorization" sample_authorize sample_asking sample_route
              50 (fun _ => None) sample_view "token" (VStr "t0k3n")
              2 IdentityAuthMiddleWare sample_request (VDict ∅)
              (initial_world ∅) eq_refl Hp) as (Hset & Hget & Hserve).
  split; [exact Hset|]. split; [exact Hget | exact Hserve].
Defined.

(** ** The further properties on the sample process *)

(** [_init] of a view instance on the list as the class body wrote it. *)
Lemma X1_witness :
  auth_owner sample_view = Some ViewAuthMiddleWare
  /\ w_auth (initial_world ∅) ViewAuthMiddleWare
     = AuthType <$> [SafeMethodOnlyAuthorizer; APIAuthorizer]
  /\ exists w',
      AuthMiddleWare__init 0 sample_view (initial_world ∅) = (Returned tt, w')
      /\ w_auth w' ViewAuthMiddleWare
         = AuthInstance <$> [SafeMethodOnlyAuthorizer; APIAuthorizer].
Proof.
  split; [reflexivity|]. split; [reflexivity|].
  destruct (X1_init_instantiates_each_class_in_place
              0 sample_view ViewAuthMiddleWare
              [SafeMethodOnlyAuthorizer; APIAuthorizer] (initial_world ∅)
              eq_refl eq_refl) as (w' & Hrun & Hauth & _).
  exists w'. split; [exact Hrun | exact Hauth].
Defined.

(** A [GET] on the view layer of a fresh process is routed. *)
Lemma X2_witness :
  sample_reachable (initial_world ∅)
  /\ trace_ok sample_request = true
  /\ Forall (fun a => sample_safe
                        (fst (sample_authorize a
                                (traced sample_request ViewAuthMiddleWare)))
                      = true)
       [SafeMethodOnlyAuthorizer; APIAuthorizer]
  /\ exists w',
      sample_serve 1 ViewAuthMiddleWare sample_request (VDict ∅)
        (initial_world ∅)
      = (Returned (sample_route (traced sample_request ViewAuthMiddleWare)
                     (VDict ∅)), w')
      /\ w_request w' = traced sample_request ViewAuthMiddleWare.
Proof.
  assert (Hsafe : Forall (fun a => sample_safe
                            (fst (sample_authorize a
                                    (traced sample_request ViewAuthMiddleWare)))
                          = true)
                    [SafeMethodOnlyAuthorizer; APIAuthorizer]).
  { repeat constructor. }
  split; [apply reach_start|]. split; [reflexivity|]. split; [exact Hsafe|].
  destruct (X2_view_entry_routes_when_authorized
              "abstract middleware" "authorization failed" sample_safe
              "Authorization" sample_authorize sample_asking sample_route
              0 sample_request (VDict ∅) (initial_world ∅)
              (reach_start _ _ _ _ _ _ _ ∅) eq_refl Hsafe)
    as (w' & self & creation & Hrun & Hreq & _).
  exists w'. split; [exact Hrun | exact Hreq].
Defined.

(** A [POST] on the view layer: refused by the method check; the access
    check is not asked and the router is not called. *)
Lemma X3_witness :
  is_concrete ViewAuthMiddleWare = true
  /\ sample_reachable (initial_world ∅)
  /\ trace_ok sample_post = true
  /\ authorizers_of ViewAuthMiddleWare
     = [] ++ SafeMethodOnlyAuthorizer :: [APIAuthorizer]
  /\ sample_safe (fst (sample_authorize SafeMethodOnlyAuthorizer
                         (traced sample_post ViewAuthMiddleWare))) = false
  /\ exists b w' delta,
      sample_serve 1 ViewAuthMiddleWare sample_post (VDict ∅) (initial_world ∅)
      = (Raised (AuthError "authorization failed" b), w')
      /\ bundle_field b "layer" = Some (VClass ViewAuthMiddleWare)
      /\ w_log w' = w_log (initial_world ∅) ++ delta
      /\ checked delta = [SafeMethodOnlyAuthorizer]
      /\ routed delta = false.
Proof.
  split; [reflexivity|]. split; [apply reach_start|]. split; [reflexivity|].
  split; [reflexivity|]. split; [reflexivity|].
  destruct (X3_denied_entry_raises_before_delegating
              "abstract middleware" "authorization failed" sample_safe
              "Authorization" sample_authorize sample_asking sample_route
              0 ViewAuthMiddleWare sample_post (VDict ∅) (initial_world ∅)
              [] [APIAuthorizer] SafeMethodOnlyAuthorizer
              eq_refl (reach_start _ _ _ _ _ _ _ ∅) eq_refl eq_refl
              (Forall_nil_2 _) eq_refl)
    as (w' & delta & Hrun & _ & Hlog & _ & Hchecked & Hrouted).
  eexists _, w', delta. split; [exact Hrun|].
  split; [reflexivity|]. split; [exact Hlog|].
  split; [exact Hchecked | exact Hrouted].
Defined.

(** A [GET] on the identity layer of a fresh process passes both layers
    and is routed. *)
Lemma X4_witness :
  sample_reachable (initial_world ∅)
  /\ trace_ok sample_request = true
  /\ sample_safe (fst (sample_authorize Authenticator
                         (traced sample_request IdentityAuthMiddleWare)))
     = true
  /\ sample_asking (traced sample_request IdentityAuthMiddleWare) = false
  /\ exists w' delta,
      sample_serve 2 IdentityAuthMiddleWare sample_request (VDict ∅)
        (initial_world ∅)
      = (Returned (sample_route
                     (traced (traced sample_request IdentityAuthMiddleWare)
                        ViewAuthMiddleWare) (VDict ∅)), w')
      /\ w_log w' = w_log (initial_world ∅) ++ delta
      /\ entered delta = [IdentityAuthMiddleWare; ViewAuthMiddleWare]
      /\ checked delta
         = [Authenticator; SafeMethodOnlyAuthorizer; APIAuthorizer]
      /\ routed delta = true.
Proof.
  assert (Hsafe : Forall (fun a => sample_safe
                            (fst (sample_authorize a
                                    (traced (traced sample_request
                                               IdentityAuthMiddleWare)
                                       ViewAuthMiddleWare))) = true)
                    [SafeMethodOnlyAuthorizer; APIAuthorizer]).
  { repeat constructor. }
  split; [apply reach_start|]. split; [reflexivity|]. split; [reflexivity|].
  split; [reflexivity|].
  destruct (X4_identity_entry_reaches_the_router
              "abstract middleware" "authorization failed" sample_safe
              "Authorization" sample_authorize sample_asking sample_route
              0 sample_request (VDict ∅) (initial_world ∅)
              (reach_start _ _ _ _ _ _ _ ∅) eq_refl eq_refl eq_refl Hsafe)
    as (w' & delta & Hrun & _ & _ & Hlog & He & Hc & Hr).
  exists w', delta. split; [exact Hrun|]. split; [exact Hlog|].
  split; [exact He|]. split; [exact Hc | exact Hr].
Defined.

(** A token request on the identity layer of a fresh process. *)
Lemma X5_witness :
  sample_reachable (initial_world ∅)
  /\ trace_ok sample_grant = true
  /\ sample_asking (traced sample_grant IdentityAuthMiddleWare) = true
  /\ traced sample_grant IdentityAuthMiddleWare !! "Authorization"
     = Some (VList [VStr "Bearer"; VStr "t0k3n"])
  /\ py_index (VList [VStr "Bearer"; VStr "t0k3n"]) 1 = Returned (VStr "t0k3n")
  /\ exists w' delta,
      sample_serve 1 IdentityAuthMiddleWare sample_grant (VDict ∅)
        (initial_world ∅)
      = (Returned (VDict (<["Authorization" := VStr "t0k3n"]> ∅)), w')
      /\ w_log w' = w_log (initial_world ∅) ++ delta
      /\ entered delta = [IdentityAuthMiddleWare]
      /\ routed delta = false.
Proof.
  split; [apply reach_start|]. split; [reflexivity|]. split; [reflexivity|].
  split; [reflexivity|]. split; [reflexivity|].
  destruct (X5_identity_entry_answers_a_token_request
              "abstract middleware" "authorization failed" sample_safe
              "Authorization" sample_authorize sample_asking sample_route
              0 sample_grant ∅ (initial_world ∅)
              (VList [VStr "Bearer"; VStr "t0k3n"]) (VStr "t0k3n")
              (reach_start _ _ _ _ _ _ _ ∅) eq_refl eq_refl eq_refl eq_refl
              eq_refl)
    as (w' & delta & Hrun & _ & Hlog & He & _ & Hr).
  exists w', delta. split; [exact Hrun|]. split; [exact Hlog|].
  split; [exact He | exact Hr].
Defined.

(** A [POST] on the identity layer: the authenticator lets it through and
    the method check of the view layer refuses it. *)
Lemma X6_witness :
  sample_reachable (initial_world ∅)
  /\ trace_ok sample_post = true
  /\ sample_asking (traced sample_post IdentityAuthMiddleWare) = false
  /\ sample_safe
       (fst (sample_authorize SafeMethodOnlyAuthorizer
               (traced (traced sample_post IdentityAuthMiddleWare)
                  ViewAuthMiddleWare))) = false
  /\ exists b w' delta,
      sample_serve 2 IdentityAuthMiddleWare sample_post (VDict ∅)
        (initial_world ∅)
      = (Raised (AuthError "authorization failed" b), w')
      /\ bundle_field b "layer" = Some (VClass ViewAuthMiddleWare)
      /\ w_log w' = w_log (initial_world ∅) ++ delta
      /\ checked delta = [Authenticator; SafeMethodOnlyAuthorizer]
      /\ routed delta = false.
Proof.
  split; [apply reach_start|]. split; [reflexivity|]. split; [reflexivity|].
  split; [reflexivity|].
  destruct (X6_identity_entry_propagates_the_view_refusal
              "abstract middleware" "authorization failed" sample_safe
              "Authorization" sample_authorize sample_asking sample_route
              0 sample_post (VDict ∅) (initial_world ∅)
              [] [APIAuthorizer] SafeMethodOnlyAuthorizer
              (reach_start _ _ _ _ _ _ _ ∅) eq_refl eq_refl eq_refl eq_refl
              (Forall_nil_2 _) eq_refl)
    as (w' & delta & Hrun & Hlog & _ & Hc & Hr).
  eexists _, w', delta. split; [exact Hrun|].
  split; [reflexivity|]. split; [exact Hlog|].
  split; [exact Hc | exact Hr].
Defined.

(** The view layer entered after the base class was: the call returns
    [None] and leaves the class table as it was. *)
Lemma X7_witness :
  let i0 := {| inst_id := 0; inst_class := AuthMiddleWare; inst_dict := ∅ |} in
  let w1 := snd (sample_serve 1 AuthMiddleWare ∅ VNone (initial_world ∅)) in
  trace_ok (w_request w1) = true
  /\ class_instance (w_instance w1) ViewAuthMiddleWare = Some (Some i0)
  /\ w_auth w1 AuthMiddleWare = []
  /\ exists w',
      sample_process_request 1 ViewAuthMiddleWare (VDict ∅) w1
      = (Returned VNone, w')
      /\ w_log w' = w_log w1
                      ++ [EvEnter ViewAuthMiddleWare; EvAuthorize i0;
                          EvProcess i0; EvDelegate i0].
Proof.
  cbv zeta.
  assert (Hok : trace_ok
                  (w_request
                     (snd (sample_serve 1 AuthMiddleWare ∅ VNone
                             (initial_world ∅)))) = true)
    by reflexivity.
  assert (Hci : class_instance
                  (w_instance
                     (snd (sample_serve 1 AuthMiddleWare ∅ VNone
                             (initial_world ∅)))) ViewAuthMiddleWare
                = Some (Some {| inst_id := 0; inst_class := AuthMiddleWare;
                                inst_dict := ∅ |}))
    by reflexivity.
  assert (Hauth : w_auth
                    (snd (sample_serve 1 AuthMiddleWare ∅ VNone
                            (initial_world ∅))) AuthMiddleWare = [])
    by reflexivity.
  split; [exact Hok|]. split; [exact Hci|]. split; [exact Hauth|].
  destruct (X7_cached_base_instance_shadows_the_layer
              "abstract middleware" "authorization failed" sample_safe
              "Authorization" sample_authorize sample_asking sample_route
              0 ViewAuthMiddleWare (VDict ∅)
              (snd (sample_serve 1 AuthMiddleWare ∅ VNone (initial_world ∅)))
              {| inst_id := 0; inst_class := AuthMiddleWare; inst_dict := ∅ |}
              Hok Hci eq_refl Hauth)
    as (w' & Hrun & Hlog & _).
  exists w'. split; [exact Hrun | exact Hlog].
Defined.

(** [authorize] of the view instance called on a [POST] that never went
    through the entry point. *)
Lemma X8_witness :
  let w := sample_world {[ "method" := VStr "POST" ]} in
  auth_owner sample_view = Some ViewAuthMiddleWare
  /\ w_request w !! "middleware_stack" = None
  /\ w_auth w ViewAuthMiddleWare
     = AuthInstance <$> ([] ++ SafeMethodOnlyAuthorizer :: [APIAuthorizer])
  /\ ~ safe_on sample_safe sample_authorize w SafeMethodOnlyAuthorizer
  /\ sample_AuthMiddleWare_authorize 0 sample_view w
     = (Raised (KeyError (VStr "middleware_stack")),
        log_more (EvCheck <$> [] ++ [SafeMethodOnlyAuthorizer]) w).
Proof.
  cbv zeta.
  split; [reflexivity|]. split; [reflexivity|]. split; [reflexivity|].
  split; [discriminate|].
  refine (proj2 (X8_authorize_without_a_trace_raises_key_error
                   "authorization failed" sample_safe sample_authorize
                   0 sample_view ViewAuthMiddleWare [] [APIAuthorizer]
                   SafeMethodOnlyAuthorizer
                   (sample_world {[ "method" := VStr "POST" ]})
                   eq_refl eq_refl (Forall_nil_2 _)) eq_refl _).
  discriminate.
Defined.

(** A token request without the token header, with the default response. *)
Lemma X9_witness :
  let w := sample_world {[ "grant" := VInt 1 ]} in
  sample_asking (w_request w) = true
  /\ w_request w !! "Authorization" = None
  /\ IdentityAuthMiddleWare_delegate "Authorization" sample_asking 1
       (sample_process_request 1) sample_identity VNone w
     = (Raised (KeyError (VStr "Authorization")), w).
Proof.
  cbv zeta. split; [reflexivity|]. split; [reflexivity|].
  exact (proj1 (X9_token_branch_failures
                  "Authorization" sample_asking 1 (sample_process_request 1)
                  sample_identity VNone
                  (sample_world {[ "grant" := VInt 1 ]}) eq_refl) eq_refl).
Defined.

(** The [GET] is routed, so the first of the two outcomes. *)
Lemma X11_witness :
  sample_reachable (initial_world ∅)
  /\ trace_ok sample_request = true
  /\ fst (sample_serve 1 ViewAuthMiddleWare sample_request (VDict ∅)
            (initial_world ∅))
     = Returned (sample_route (traced sample_request ViewAuthMiddleWare)
                   (VDict ∅)).
Proof.
  split; [apply reach_start|]. split; [reflexivity|].
  destruct (X11_view_entry_routes_or_refuses
              "abstract middleware" "authorization failed" sample_safe
              "Authorization" sample_authorize sample_asking sample_route
              0 sample_request (VDict ∅) (initial_world ∅)
              (reach_start _ _ _ _ _ _ _ ∅) eq_refl)
    as [[_ Hrun] | [Hno _]]; [exact Hrun | discriminate Hno].
Defined.

(** The method of a request that asks for no token, after an entry into
    the identity layer. *)
Lemma X10_witness :
  trace_ok sample_request = true
  /\ sample_asking (traced sample_request IdentityAuthMiddleWare) = false
  /\ String.eqb "method" "middleware_stack" = false
  /\ w_request (snd (sample_serve 2 IdentityAuthMiddleWare sample_request
                       (VDict ∅) (initial_world ∅))) !! "method"
     = sample_request !! "method".
Proof.
  split; [reflexivity|]. split; [reflexivity|]. split; [reflexivity|].
  exact (proj2 (X10_only_the_trace_field_is_written
                  "abstract middleware" "authorization failed" sample_safe
                  "Authorization" sample_authorize sample_asking sample_route
                  2 IdentityAuthMiddleWare sample_request (VDict ∅)
                  (initial_world ∅) "method" eq_refl (fun _ => eq_refl))
           eq_refl).
Defined.

